(** * spectOS: the spectral engine of [components/SpectralEngine.py]

    A shallow embedding of the [SpectralEngine] class and the properties its
    specification states about it.

    Conventions of the embedding.
    - Python floats are idealised as exact rationals ([Q]); rounding of IEEE
      doubles is outside the model.  Wavelengths, intensities and times are
      all such numbers.  The point grid of the specification's example scan
      is computed in binary64 as well ([Binary64]).
    - The engine object is a record; a method is a computation in a state and
      exception monad over the engine and the world around it (clock, random
      generator, files).
    - [time.time()] and [time.sleep(d)] act on a virtual clock that advances
      by sleeping only.
    - The draws of [np.random] and the moments at which another party clears
      [is_scanning] come from an oracle the theorems quantify over.
    - [math.exp], [math.sqrt], [math.log10] and [isoformat] are library
      functions the engine is parameterised by.
    - [json.dump] and [json.load] are modelled on the document tree, and the
      file system as the list of documents written.
    - [print] has no effect on the engine and is left out; so are
      [get_status] and the attributes [scan_mode] and [scan_speed], which
      only [get_status] reads.
    - The screen ([components/monitor.py], [components/PreservedPage.py])
      is a grid of code points with Python's subscript rules, and a command
      of [components/CommandInterface.py] works on the screen and the
      engine together. *)

From Stdlib Require Import QArith Qround ZArith List String Ascii Bool Lia Lqa.
From Stdlib Require Import DecimalString.
From Stdlib Require Floats Uint63.
Import ListNotations.

Open Scope Q_scope.

(** ** The Python runtime the engine relies on *)

Module Py.

(** The exceptions the engine's code paths can raise, with their messages
    (the formatted numbers of f-strings are left out of the messages). *)
Inductive exn : Type :=
| ValueError (msg : string)
| RuntimeError (msg : string)
| FileNotFoundError (path : string)
| AttributeError (msg : string)
| TypeError (msg : string).

Inductive outcome (A : Type) : Type :=
| Ok (a : A)
| Raise (e : exn).
Arguments Ok {A} a.
Arguments Raise {A} e.

(** Comparisons of numbers, as booleans. *)
Definition Qlt_bool (a b : Q) : bool := negb (Qle_bool b a).

(** [max(a, b)] and [min(a, b)] of two numbers: Python returns the first
    argument unless the second is strictly larger (smaller). *)
Definition py_max (a b : Q) : Q := if Qlt_bool a b then b else a.
Definition py_min (a b : Q) : Q := if Qlt_bool b a then b else a.

(** [abs(x)]. *)
Definition py_abs (x : Q) : Q := if Qlt_bool x 0 then - x else x.

(** [int(x)] of a float: truncation towards zero. *)
Definition py_int (x : Q) : Z := Z.quot (Qnum x) (Zpos (Qden x)).

(** [range(n)]: empty when [n <= 0]. *)
Definition py_range (n : Z) : list nat := seq 0 (Z.to_nat n).

(** The number [i] of a loop counter as a float. *)
Definition of_nat (i : nat) : Q := inject_Z (Z.of_nat i).

End Py.
Export Py.

(** *** Dictionaries

    A Python [dict] keeps its items in insertion order and its keys unique.
    The keys of the engine's spectra are wavelengths (floats) when a scan wrote
    them and strings when they were read back from a JSON document. *)

Module Dict.

Inductive key : Type :=
| KNum (x : Q)
| KStr (s : string).

(** [k1 == k2] of two keys: numbers compare by value, a number never equals
    a string. *)
Definition key_eqb (k1 k2 : key) : bool :=
  match k1, k2 with
  | KNum a, KNum b => Qeq_bool a b
  | KStr s, KStr t => String.eqb s t
  | _, _ => false
  end.

Definition dict (V : Type) : Type := list (key * V).

Definition empty {V : Type} : dict V := [].

(** [k in d] and [d[k]] (as an option: [None] stands for the [KeyError]). *)
Fixpoint get {V : Type} (k : key) (d : dict V) : option V :=
  match d with
  | [] => None
  | (k', v) :: d' => if key_eqb k' k then Some v else get k d'
  end.

Definition mem {V : Type} (k : key) (d : dict V) : bool :=
  match get k d with Some _ => true | None => false end.

(** [d[k] = v]: an existing key keeps its place and takes the new value, a
    new key goes to the end. *)
Fixpoint set {V : Type} (k : key) (v : V) (d : dict V) : dict V :=
  match d with
  | [] => [(k, v)]
  | (k', v') :: d' => if key_eqb k' k then (k', v) :: d' else (k', v') :: set k v d'
  end.

(** [{key(x): val(x) for x in xs}]. *)
Definition comprehension {A V : Type} (fk : A -> key) (fv : A -> V) (xs : list A) : dict V :=
  fold_left (fun d x => set (fk x) (fv x) d) xs empty.

(** [bool(d)]: a dictionary is true when it is not empty. *)
Definition truthy {V : Type} (d : dict V) : bool :=
  match d with [] => false | _ :: _ => true end.


End Dict.

(** *** JSON documents

    [json.dump] followed by [json.load] is modelled on the document tree: the
    text in between is the library's own affair.  What the tree makes explicit
    is that the member names of a JSON object are strings: [json.dump] writes
    a float key of a [dict] as its [repr], and [json.load] gives that string
    back as the key. *)

Module Json.

#[local] Set Warnings "-register-all".

Inductive json : Type :=
| JNull
| JBool (b : bool)
| JNum (x : Q)
| JStr (s : string)
| JArr (items : list json)
| JObj (members : list (string * json)).

(** The digits of the fractional part [r / den], at most [fuel] of them. *)
Fixpoint frac_digits (fuel : nat) (r den : N) : string :=
  match fuel with
  | O => EmptyString
  | S fuel' =>
      let d := (10 * r / den)%N in
      let r' := ((10 * r) mod den)%N in
      (NilZero.string_of_uint (N.to_uint d)
         ++ (if (r' =? 0)%N then EmptyString else frac_digits fuel' r' den))%string
  end.

(** [repr(x)] of a float that is a short decimal: ["500.0"], ["495.1"]. *)
Definition float_repr (x : Q) : string :=
  let n := Z.abs_N (Qnum x) in
  let d := Npos (Qden x) in
  ((if (Qnum x <? 0)%Z then "-" else "")
     ++ NilZero.string_of_uint (N.to_uint (n / d)) ++ "."
     ++ frac_digits 17 (n mod d) d)%string.

(** The member name [json.dump] writes for a key. *)
Definition key_name (k : Dict.key) : string :=
  match k with
  | Dict.KNum x => float_repr x
  | Dict.KStr s => s
  end.

(** [obj[name]] of a loaded object; of two members of one name [json.load]
    keeps the last. *)
Definition member (name : string) (members : list (string * json)) : option json :=
  match find (fun m => String.eqb (fst m) name) (rev members) with
  | Some m => Some (snd m)
  | None => None
  end.

(** Reading a list of documents with one reader. *)
Fixpoint all_some {A : Type} (l : list (option A)) : option (list A) :=
  match l with
  | [] => Some []
  | None :: _ => None
  | Some a :: l' =>
      match all_some l' with
      | Some r => Some (a :: r)
      | None => None
      end
  end.

(** A loaded value read as a number. *)
Definition num (j : json) : option Q :=
  match j with JNum x => Some x | _ => None end.

End Json.
Import Json.

(** ** The engine's data *)

Module SpectralEngine.

(** The dictionary [measure_single] returns. *)
Record Measurement : Type := {
  m_wavelength : Q;
  m_calibrated_wavelength : Q;
  m_intensity : Q;
  m_timestamp : string;
  m_sample_present : bool
}.

(** The record [scan_full_range] appends to [scan_history]. *)
Record ScanRecord : Type := {
  r_type : string;
  r_start_wavelength : Q;
  r_end_wavelength : Q;
  r_step_size : Q;
  r_data : list Measurement;
  r_timestamp : string;
  r_sample_present : bool
}.

(** One sample of [kinetic_scan]; its ['absorbance'] is always [None]. *)
Record KineticSample : Type := {
  k_time : Q;
  k_wavelength : Q;
  k_intensity : Q;
  k_absorbance : option Q
}.

(** [calibration_data]: ['wavelength_coeffs'] is the list [a, b, c] and
    ['intensity_coeffs'] the list [m, b]; the engine only ever stores lists of
    these lengths. *)
Record CalibrationData : Type := {
  wavelength_coeffs : Q * Q * Q;
  intensity_coeffs : Q * Q;
  cal_dark_current : Q;
  last_calibration : string;
  calibration_valid : bool
}.

(** One entry of the list [measure_absorbance] returns; [float('inf')] is
    the value [None] of ['absorbance']. *)
Record AbsorbancePoint : Type := {
  a_wavelength : Dict.key;
  a_absorbance : option Q;
  a_transmittance : Q;
  a_reference_intensity : Q;
  a_sample_intensity : Q
}.

(** Hardware specifications and noise parameters: attributes [__init__] sets
    and nothing reassigns. *)
Definition MIN_WAVELENGTH : Q := 190.
Definition MAX_WAVELENGTH : Q := 1100.
Definition WAVELENGTH_STEP : Q := 1 # 10.
Definition ACCURACY : Q := 3 # 10.
Definition integration_time : Q := 1 # 10.
Definition scan_range : Q * Q := (MIN_WAVELENGTH, MAX_WAVELENGTH).
Definition dark_current : Q := 1 # 1000.
Definition readout_noise : Q := 5 # 1000.
Definition photometric_noise : Q := 1 # 100.

(** The mutable attributes of the engine object. *)
Record Engine : Type := {
  current_wavelength : Q;
  target_wavelength : Q;
  is_scanning : bool;
  is_calibrated : bool;
  is_lamp_on : bool;
  sample_present : bool;
  reference_spectrum : Dict.dict Q;
  sample_spectrum : Dict.dict Q;
  background_spectrum : Dict.dict Q;
  calibration_data : CalibrationData;
  scan_history : list ScanRecord;
  kinetic_data : list KineticSample
}.

(** The world around the engine: the virtual clock, the number of random
    draws and of sleeps so far, and the files written (latest first). *)
Record World : Type := {
  now : Q;
  draws : nat;
  sleeps : nat;
  files : list (string * json)
}.

Record State : Type := {
  engine : Engine;
  world : World
}.

(** What the engine does not decide: the [k]-th draw of
    [np.random.poisson] and of the standard normal behind
    [np.random.normal], and whether another party clears [is_scanning]
    during the [k]-th sleep. *)
Record Env : Type := {
  poisson : nat -> nat;
  standard_normal : nat -> Q;
  stop_request : nat -> bool
}.

(** Library functions the engine calls. *)
Record Lib : Type := {
  math_exp : Q -> Q;
  math_sqrt : Q -> Q;
  math_log10 : Q -> Q;
  isoformat : Q -> string
}.

(** Assignments to the attributes of the engine object. *)
Definition set_current_wavelength (v : Q) (e : Engine) : Engine :=
  Build_Engine v (target_wavelength e) (is_scanning e) (is_calibrated e)
    (is_lamp_on e) (sample_present e) (reference_spectrum e) (sample_spectrum e)
    (background_spectrum e) (calibration_data e) (scan_history e) (kinetic_data e).
Definition set_target_wavelength (v : Q) (e : Engine) : Engine :=
  Build_Engine (current_wavelength e) v (is_scanning e) (is_calibrated e)
    (is_lamp_on e) (sample_present e) (reference_spectrum e) (sample_spectrum e)
    (background_spectrum e) (calibration_data e) (scan_history e) (kinetic_data e).
Definition set_is_scanning (v : bool) (e : Engine) : Engine :=
  Build_Engine (current_wavelength e) (target_wavelength e) v (is_calibrated e)
    (is_lamp_on e) (sample_present e) (reference_spectrum e) (sample_spectrum e)
    (background_spectrum e) (calibration_data e) (scan_history e) (kinetic_data e).
Definition set_is_calibrated (v : bool) (e : Engine) : Engine :=
  Build_Engine (current_wavelength e) (target_wavelength e) (is_scanning e) v
    (is_lamp_on e) (sample_present e) (reference_spectrum e) (sample_spectrum e)
    (background_spectrum e) (calibration_data e) (scan_history e) (kinetic_data e).
Definition set_is_lamp_on (v : bool) (e : Engine) : Engine :=
  Build_Engine (current_wavelength e) (target_wavelength e) (is_scanning e)
    (is_calibrated e) v (sample_present e) (reference_spectrum e) (sample_spectrum e)
    (background_spectrum e) (calibration_data e) (scan_history e) (kinetic_data e).
Definition set_sample_present (v : bool) (e : Engine) : Engine :=
  Build_Engine (current_wavelength e) (target_wavelength e) (is_scanning e)
    (is_calibrated e) (is_lamp_on e) v (reference_spectrum e) (sample_spectrum e)
    (background_spectrum e) (calibration_data e) (scan_history e) (kinetic_data e).
Definition set_reference_spectrum (v : Dict.dict Q) (e : Engine) : Engine :=
  Build_Engine (current_wavelength e) (target_wavelength e) (is_scanning e)
    (is_calibrated e) (is_lamp_on e) (sample_present e) v (sample_spectrum e)
    (background_spectrum e) (calibration_data e) (scan_history e) (kinetic_data e).
Definition set_sample_spectrum (v : Dict.dict Q) (e : Engine) : Engine :=
  Build_Engine (current_wavelength e) (target_wavelength e) (is_scanning e)
    (is_calibrated e) (is_lamp_on e) (sample_present e) (reference_spectrum e) v
    (background_spectrum e) (calibration_data e) (scan_history e) (kinetic_data e).
Definition set_background_spectrum (v : Dict.dict Q) (e : Engine) : Engine :=
  Build_Engine (current_wavelength e) (target_wavelength e) (is_scanning e)
    (is_calibrated e) (is_lamp_on e) (sample_present e) (reference_spectrum e)
    (sample_spectrum e) v (calibration_data e) (scan_history e) (kinetic_data e).
Definition set_calibration_data (v : CalibrationData) (e : Engine) : Engine :=
  Build_Engine (current_wavelength e) (target_wavelength e) (is_scanning e)
    (is_calibrated e) (is_lamp_on e) (sample_present e) (reference_spectrum e)
    (sample_spectrum e) (background_spectrum e) v (scan_history e) (kinetic_data e).
Definition set_scan_history (v : list ScanRecord) (e : Engine) : Engine :=
  Build_Engine (current_wavelength e) (target_wavelength e) (is_scanning e)
    (is_calibrated e) (is_lamp_on e) (sample_present e) (reference_spectrum e)
    (sample_spectrum e) (background_spectrum e) (calibration_data e) v (kinetic_data e).
Definition set_kinetic_data (v : list KineticSample) (e : Engine) : Engine :=
  Build_Engine (current_wavelength e) (target_wavelength e) (is_scanning e)
    (is_calibrated e) (is_lamp_on e) (sample_present e) (reference_spectrum e)
    (sample_spectrum e) (background_spectrum e) (calibration_data e) (scan_history e) v.

(** *** Methods as computations

    A method takes the state and gives its outcome (a value, or the exception
    it raised) with the state it leaves. *)
Definition M (A : Type) : Type := State -> outcome A * State.

Definition ret {A : Type} (a : A) : M A := fun st => (Ok a, st).

Definition raise {A : Type} (e : exn) : M A := fun st => (Raise e, st).

Definition bind {A B : Type} (m : M A) (f : A -> M B) : M B :=
  fun st =>
    match m st with
    | (Ok a, st') => f a st'
    | (Raise e, st') => (Raise e, st')
    end.

Declare Scope py_scope.
Delimit Scope py_scope with py.
Notation "x <- m ;; k" := (bind m (fun x => k))
  (at level 61, m at next level, right associativity) : py_scope.
Notation "m ;; k" := (bind m (fun _ => k))
  (at level 61, right associativity) : py_scope.
Open Scope py_scope.

(** [self.attr] and [self.attr = v]. *)
Definition gets {A : Type} (f : Engine -> A) : M A :=
  fun st => (Ok (f (engine st)), st).

Definition modify (f : Engine -> Engine) : M unit :=
  fun st => (Ok tt, {| engine := f (engine st); world := world st |}).

(** [try: body finally: cleanup]: the cleanup runs on both exits of the body;
    the body's value or exception stands unless the cleanup itself raises. *)
Definition try_finally {A : Type} (body : M A) (cleanup : M unit) : M A :=
  fun st =>
    let (r, st1) := body st in
    match cleanup st1 with
    | (Ok _, st2) => (r, st2)
    | (Raise e, st2) => (Raise e, st2)
    end.

(** [try: body except: handler]: a bare [except] takes every exception. *)
Definition try_except {A : Type} (body : M A) (handler : M A) : M A :=
  fun st =>
    match body st with
    | (Ok a, st1) => (Ok a, st1)
    | (Raise _, st1) => handler st1
    end.

(** ** The methods of [SpectralEngine] *)

Section Methods.

Variable env : Env.
Variable lib : Lib.

(** [time.time()]. *)
Definition time_time : M Q := fun st => (Ok (now (world st)), st).

(** [time.sleep(d)]: refuses a negative length; otherwise the clock moves on
    by [d], and another party may clear [is_scanning] meanwhile. *)
Definition time_sleep (d : Q) : M unit :=
  fun st =>
    if Qlt_bool d 0 then (Raise (ValueError "sleep length must be non-negative"), st)
    else
      let w := world st in
      let w' := {| now := now w + d; draws := draws w;
                   sleeps := S (sleeps w); files := files w |} in
      let e := engine st in
      let e' := if stop_request env (sleeps w) then set_is_scanning false e else e in
      (Ok tt, {| engine := e'; world := w' |}).

(** [datetime.now().isoformat()]. *)
Definition datetime_now_isoformat : M string :=
  fun st => (Ok (isoformat lib (now (world st))), st).

(** The next draw of the random generator. *)
Definition next_draw : M nat :=
  fun st =>
    let w := world st in
    (Ok (draws w),
     {| engine := engine st;
        world := {| now := now w; draws := S (draws w);
                    sleeps := sleeps w; files := files w |} |}).

(** [np.random.poisson(lam)]: a natural number. *)
Definition np_random_poisson (lam : Q) : M nat :=
  k <- next_draw ;; ret (poisson env k).

(** [np.random.normal(loc, scale)]: [loc + scale * z] for a standard normal
    draw [z]. *)
Definition np_random_normal (loc scale : Q) : M Q :=
  k <- next_draw ;; ret (loc + scale * standard_normal env k).

Definition _initialize_default_calibration : M unit :=
  ts <- datetime_now_isoformat ;;
  modify (set_calibration_data
            {| wavelength_coeffs := (1 # 1000000, 10001 # 10000, - (5 # 100));
               intensity_coeffs := (1, 0);
               cal_dark_current := dark_current;
               last_calibration := ts;
               calibration_valid := false |}).

Definition in_limits (wavelength : Q) : bool :=
  Qle_bool MIN_WAVELENGTH wavelength && Qle_bool wavelength MAX_WAVELENGTH.

Definition set_wavelength (wavelength : Q) : M Q :=
  if negb (in_limits wavelength) then
    raise (ValueError "Wavelength out of range")
  else
    modify (set_target_wavelength wavelength) ;;
    cur <- gets current_wavelength ;;
    let wavelength_diff := py_abs (wavelength - cur) in
    let move_time := wavelength_diff / 10 in
    time_sleep (py_min move_time (1 # 10)) ;;
    modify (set_current_wavelength wavelength) ;;
    gets current_wavelength.

Definition goto_wavelength (wavelength : Q) : M Q := set_wavelength wavelength.

Definition _simulate_spectral_response (wavelength : Q) : M Q :=
  let response :=
    if Qlt_bool wavelength 350 then
      1000 * math_exp lib (- (2 # 1000) * (wavelength - 250) ^ 2)
    else
      800 * math_exp lib (- (1 # 10000) * (wavelength - 550) ^ 2)
      + 200 * math_exp lib (- (2 # 10000) * (wavelength - 750) ^ 2)
      + 100 * math_exp lib (- (3 # 10000) * (wavelength - 900) ^ 2) in
  sp <- gets sample_present ;;
  let response :=
    if (sp : bool) then
      let absorption := 8 # 10 in
      let absorption :=
        absorption * (1 - (3 # 10) * math_exp lib (- (1 # 1000) * (wavelength - 450) ^ 2)) in
      let absorption :=
        absorption * (1 - (5 # 10) * math_exp lib (- (5 # 10000) * (wavelength - 650) ^ 2)) in
      response * absorption
    else response in
  ret (py_max 0 response).

Definition _apply_wavelength_calibration (wavelength : Q) : M Q :=
  cal <- gets calibration_data ;;
  let '(a, b, c) := wavelength_coeffs cal in
  ret (a * wavelength ^ 2 + b * wavelength + c).

Definition _apply_intensity_calibration (intensity : Q) : M Q :=
  cal <- gets calibration_data ;;
  let '(m, b) := intensity_coeffs cal in
  ret (m * intensity + b).

Definition _add_measurement_noise (intensity : Q) : M Q :=
  n <- np_random_poisson (dark_current * 1000) ;;
  let dark_noise := of_nat n / 1000 in
  readout <- np_random_normal 0 readout_noise ;;
  photometric <-
    (if Qlt_bool 0 intensity then
       np_random_normal 0 (photometric_noise * math_sqrt lib intensity)
     else ret 0) ;;
  let noisy_intensity := intensity + dark_noise + readout + photometric in
  ret (py_max 0 noisy_intensity).

Definition measure_single : M Measurement :=
  lamp <- gets is_lamp_on ;;
  if negb lamp then raise (RuntimeError "Lamp is off. Cannot measure.")
  else
    cur <- gets current_wavelength ;;
    calibrated_wl <- _apply_wavelength_calibration cur ;;
    intensity <- _simulate_spectral_response calibrated_wl ;;
    calibrated_intensity <- _apply_intensity_calibration intensity ;;
    noisy_intensity <- _add_measurement_noise calibrated_intensity ;;
    wl <- gets current_wavelength ;;
    ts <- datetime_now_isoformat ;;
    sp <- gets sample_present ;;
    ret {| m_wavelength := wl;
           m_calibrated_wavelength := calibrated_wl;
           m_intensity := py_max 0 noisy_intensity;
           m_timestamp := ts;
           m_sample_present := sp |}.

(** The body of [for i in range(num_points)] of [scan_full_range], over the
    indices still to visit; [break] leaves the loop with the data so far. *)
Fixpoint scan_loop (start_wl : Q) (indices : list nat) (scan_data : list Measurement)
  : M (list Measurement) :=
  match indices with
  | [] => ret scan_data
  | i :: rest =>
      scanning <- gets is_scanning ;;
      if negb scanning then ret scan_data
      else
        let current_wl := start_wl + of_nat i * WAVELENGTH_STEP in
        modify (set_current_wavelength current_wl) ;;
        measurement <- measure_single ;;
        let scan_data := scan_data ++ [measurement] in
        time_sleep integration_time ;;
        scan_loop start_wl rest scan_data
  end.

(** [{d['wavelength']: d['intensity'] for d in data}]. *)
Definition spectrum_of (data : list Measurement) : Dict.dict Q :=
  Dict.comprehension (fun d => Dict.KNum (m_wavelength d)) m_intensity data.

Definition scan_full_range (start_wl end_wl : option Q) : M ScanRecord :=
  lamp <- gets is_lamp_on ;;
  if negb lamp then raise (RuntimeError "Lamp is off. Cannot scan.")
  else
    let start_wl := match start_wl with Some v => v | None => fst scan_range end in
    let end_wl := match end_wl with Some v => v | None => snd scan_range end in
    if negb (in_limits start_wl) then
      raise (ValueError "Start wavelength out of range")
    else if negb (in_limits end_wl) then
      raise (ValueError "End wavelength out of range")
    else if Qle_bool end_wl start_wl then
      raise (ValueError "End wavelength must be greater than start wavelength")
    else
      modify (set_is_scanning true) ;;
      let num_points := (py_int ((end_wl - start_wl) / WAVELENGTH_STEP) + 1)%Z in
      scan_data <- scan_loop start_wl (py_range num_points) [] ;;
      modify (set_is_scanning false) ;;
      ts <- datetime_now_isoformat ;;
      sp <- gets sample_present ;;
      let scan_record :=
        {| r_type := "full_scan";
           r_start_wavelength := start_wl;
           r_end_wavelength := end_wl;
           r_step_size := WAVELENGTH_STEP;
           r_data := scan_data;
           r_timestamp := ts;
           r_sample_present := sp |} in
      history <- gets scan_history ;;
      modify (set_scan_history (history ++ [scan_record])) ;;
      sp <- gets sample_present ;;
      (if (sp : bool) then modify (set_sample_spectrum (spectrum_of scan_data))
       else ret tt) ;;
      ret scan_record.

(** The body of the loop of [measure_absorbance] for one item of
    [sample_spectrum]: the entries it appends. *)
Definition absorbance_entry (reference : Dict.dict Q) (item : Dict.key * Q)
  : list AbsorbancePoint :=
  let (wl, sample_intensity) := item in
  match Dict.get wl reference with
  | None => []
  | Some ref_intensity =>
      if Qlt_bool 0 ref_intensity then
        let transmittance := sample_intensity / ref_intensity in
        let absorbance :=
          if Qlt_bool 0 transmittance then Some (- math_log10 lib transmittance)
          else None in
        [ {| a_wavelength := wl;
             a_absorbance := absorbance;
             a_transmittance := transmittance * 100;
             a_reference_intensity := ref_intensity;
             a_sample_intensity := sample_intensity |} ]
      else []
  end.

Definition measure_absorbance : M (list AbsorbancePoint) :=
  reference <- gets reference_spectrum ;;
  if negb (Dict.truthy reference) then
    raise (RuntimeError "No reference spectrum available. Run calibration first.")
  else
    sample <- gets sample_spectrum ;;
    if negb (Dict.truthy sample) then
      raise (RuntimeError "No sample spectrum available. Scan a sample first.")
    else
      ret (fold_left (fun absorbance_data item =>
                        absorbance_data ++ absorbance_entry reference item)
             sample []).

Definition calibrate_reference : M bool :=
  original_sample_state <- gets sample_present ;;
  modify (set_sample_present false) ;;
  try_finally
    (modify (set_is_lamp_on false) ;;
     time_sleep (1 # 10) ;;
     dark_measurement <- measure_single ;;
     cur <- gets current_wavelength ;;
     modify (set_background_spectrum [(Dict.KNum cur, m_intensity dark_measurement)]) ;;
     modify (set_is_lamp_on true) ;;
     time_sleep (5 # 10) ;;
     cur <- gets current_wavelength ;;
     scan_result <- scan_full_range (Some (cur - 5)) (Some (cur + 5)) ;;
     modify (set_reference_spectrum (spectrum_of (r_data scan_result))) ;;
     modify (set_is_calibrated true) ;;
     ret true)
    (modify (set_sample_present original_sample_state)).

Definition auto_zero : M bool :=
  current_measurement <- measure_single ;;
  cur <- gets current_wavelength ;;
  background <- gets background_spectrum ;;
  modify (set_background_spectrum
            (Dict.set (Dict.KNum cur) (m_intensity current_measurement) background)) ;;
  ret true.

(** One turn of the loop of [kinetic_scan]. *)
Definition kinetic_step (interval : Q) (kinetic_data : list KineticSample)
    (measurements_taken : nat) : M (list KineticSample * nat) :=
  measurement <- measure_single ;;
  let kinetic_data :=
    kinetic_data ++ [ {| k_time := of_nat measurements_taken * interval;
                         k_wavelength := m_wavelength measurement;
                         k_intensity := m_intensity measurement;
                         k_absorbance := None |} ] in
  let measurements_taken := S measurements_taken in
  time_sleep interval ;;
  ret (kinetic_data, measurements_taken).

(** [while time.time() - start_time < duration and self.is_scanning], for at
    most [fuel] turns; [None] when the turns run out. *)
Fixpoint kinetic_loop (fuel : nat) (duration interval start_time : Q)
    (kinetic_data : list KineticSample) (measurements_taken : nat) (st : State)
  : option (outcome (list KineticSample) * State) :=
  match fuel with
  | O => None
  | S fuel' =>
      if Qlt_bool (now (world st) - start_time) duration && is_scanning (engine st) then
        match kinetic_step interval kinetic_data measurements_taken st with
        | (Ok (kinetic_data', measurements_taken'), st') =>
            kinetic_loop fuel' duration interval start_time
              kinetic_data' measurements_taken' st'
        | (Raise e, st') => Some (Raise e, st')
        end
      else Some (Ok kinetic_data, st)
  end.

Definition kinetic_scan (fuel : nat) (duration interval : Q) (st : State)
  : option (outcome (list KineticSample) * State) :=
  match (modify (set_is_scanning true) ;; time_time) st with
  | (Raise e, st') => Some (Raise e, st')
  | (Ok start_time, st1) =>
      match kinetic_loop fuel duration interval start_time [] 0 st1 with
      | None => None
      | Some (Raise e, st') => Some (Raise e, st')
      | Some (Ok kinetic_data, st2) =>
          Some ((modify (set_is_scanning false) ;;
                 modify (set_kinetic_data kinetic_data) ;;
                 ret kinetic_data) st2)
      end
  end.


(** *** Persistence

    What [json.dump] writes for the engine's data. *)
Definition json_of_spectrum (d : Dict.dict Q) : json :=
  JObj (map (fun item => (key_name (fst item), JNum (snd item))) d).

Definition json_of_calibration (c : CalibrationData) : json :=
  let '(a, b, c0) := wavelength_coeffs c in
  let '(m, b0) := intensity_coeffs c in
  JObj [ ("wavelength_coeffs", JArr [JNum a; JNum b; JNum c0]);
         ("intensity_coeffs", JArr [JNum m; JNum b0]);
         ("dark_current", JNum (cal_dark_current c));
         ("last_calibration", JStr (last_calibration c));
         ("calibration_valid", JBool (calibration_valid c)) ]%string.

Definition json_of_measurement (m : Measurement) : json :=
  JObj [ ("wavelength", JNum (m_wavelength m));
         ("calibrated_wavelength", JNum (m_calibrated_wavelength m));
         ("intensity", JNum (m_intensity m));
         ("timestamp", JStr (m_timestamp m));
         ("sample_present", JBool (m_sample_present m)) ]%string.

Definition json_of_scan_record (r : ScanRecord) : json :=
  JObj [ ("type", JStr (r_type r));
         ("start_wavelength", JNum (r_start_wavelength r));
         ("end_wavelength", JNum (r_end_wavelength r));
         ("step_size", JNum (r_step_size r));
         ("data", JArr (map json_of_measurement (r_data r)));
         ("timestamp", JStr (r_timestamp r));
         ("sample_present", JBool (r_sample_present r)) ]%string.

Definition json_of_kinetic_sample (k : KineticSample) : json :=
  JObj [ ("time", JNum (k_time k));
         ("wavelength", JNum (k_wavelength k));
         ("intensity", JNum (k_intensity k));
         ("absorbance", match k_absorbance k with Some a => JNum a | None => JNull end)
       ]%string.

(** What [json.load] gives back, read at the types of the engine's
    attributes.  The keys of a loaded dictionary are the member names. *)
Definition spectrum_of_json (j : json) : option (Dict.dict Q) :=
  match j with
  | JObj members =>
      match all_some (map (fun m => match num (snd m) with
                                    | Some x => Some (fst m, x)
                                    | None => None
                                    end) members) with
      | Some items => Some (Dict.comprehension (fun i => Dict.KStr (fst i)) snd items)
      | None => None
      end
  | _ => None
  end.

Definition calibration_of_json (j : json) : option CalibrationData :=
  match j with
  | JObj ms =>
      match member "wavelength_coeffs" ms, member "intensity_coeffs" ms,
            member "dark_current" ms, member "last_calibration" ms,
            member "calibration_valid" ms with
      | Some (JArr [JNum a; JNum b; JNum c]), Some (JArr [JNum m; JNum b0]),
        Some (JNum d), Some (JStr ts), Some (JBool v) =>
          Some {| wavelength_coeffs := (a, b, c);
                  intensity_coeffs := (m, b0);
                  cal_dark_current := d;
                  last_calibration := ts;
                  calibration_valid := v |}
      | _, _, _, _, _ => None
      end
  | _ => None
  end.

Definition measurement_of_json (j : json) : option Measurement :=
  match j with
  | JObj ms =>
      match member "wavelength" ms, member "calibrated_wavelength" ms,
            member "intensity" ms, member "timestamp" ms,
            member "sample_present" ms with
      | Some (JNum w), Some (JNum cw), Some (JNum i), Some (JStr ts), Some (JBool sp) =>
          Some {| m_wavelength := w; m_calibrated_wavelength := cw;
                  m_intensity := i; m_timestamp := ts; m_sample_present := sp |}
      | _, _, _, _, _ => None
      end
  | _ => None
  end.

Definition scan_record_of_json (j : json) : option ScanRecord :=
  match j with
  | JObj ms =>
      match member "type" ms, member "start_wavelength" ms,
            member "end_wavelength" ms, member "step_size" ms,
            member "data" ms, member "timestamp" ms, member "sample_present" ms with
      | Some (JStr ty), Some (JNum s), Some (JNum e), Some (JNum step),
        Some (JArr items), Some (JStr ts), Some (JBool sp) =>
          match all_some (map measurement_of_json items) with
          | Some data =>
              Some {| r_type := ty; r_start_wavelength := s; r_end_wavelength := e;
                      r_step_size := step; r_data := data; r_timestamp := ts;
                      r_sample_present := sp |}
          | None => None
          end
      | _, _, _, _, _, _, _ => None
      end
  | _ => None
  end.

Definition kinetic_sample_of_json (j : json) : option KineticSample :=
  match j with
  | JObj ms =>
      match member "time" ms, member "wavelength" ms, member "intensity" ms,
            member "absorbance" ms with
      | Some (JNum t), Some (JNum w), Some (JNum i), Some JNull =>
          Some {| k_time := t; k_wavelength := w; k_intensity := i; k_absorbance := None |}
      | Some (JNum t), Some (JNum w), Some (JNum i), Some (JNum a) =>
          Some {| k_time := t; k_wavelength := w; k_intensity := i; k_absorbance := Some a |}
      | _, _, _, _ => None
      end
  | _ => None
  end.

Definition kinetic_data_of_json (j : json) : option (list KineticSample) :=
  match j with
  | JArr items => all_some (map kinetic_sample_of_json items)
  | _ => None
  end.

(** [bool(v)] of a loaded value. *)
Definition json_truthy (j : json) : bool :=
  match j with
  | JNull => false
  | JBool b => b
  | JNum x => negb (Qeq_bool x 0)
  | JStr s => negb (String.eqb s "")
  | JArr items => match items with [] => false | _ => true end
  | JObj members => match members with [] => false | _ => true end
  end.

(** [open(filename, 'w')] with [json.dump]: the document becomes the content
    of the file (writing is taken to succeed). *)
Definition write_file (filename : string) (doc : json) : M unit :=
  fun st =>
    let w := world st in
    (Ok tt,
     {| engine := engine st;
        world := {| now := now w; draws := draws w; sleeps := sleeps w;
                    files := (filename, doc) :: files w |} |}).

(** [open(filename, 'r')] with [json.load]. *)
Definition read_file (filename : string) : M json :=
  fun st =>
    match find (fun f => String.eqb (fst f) filename) (files (world st)) with
    | Some f => (Ok (snd f), st)
    | None => (Raise (FileNotFoundError filename), st)
    end.

Definition save_data (filename : string) : M bool :=
  ts <- datetime_now_isoformat ;;
  e <- gets (fun e => e) ;;
  let data_to_save :=
    JObj [ ("metadata",
            JObj [ ("timestamp", JStr ts);
                   ("current_wavelength", JNum (current_wavelength e));
                   ("is_calibrated", JBool (is_calibrated e));
                   ("sample_present", JBool (sample_present e));
                   ("instrument", JStr "Spectrophotometer OS v1.0") ]);
           ("reference_spectrum", json_of_spectrum (reference_spectrum e));
           ("sample_spectrum", json_of_spectrum (sample_spectrum e));
           ("background_spectrum", json_of_spectrum (background_spectrum e));
           ("calibration_data", json_of_calibration (calibration_data e));
           ("recent_scan",
            match rev (scan_history e) with
            | r :: _ => json_of_scan_record r
            | [] => JNull
            end);
           ("kinetic_data", JArr (map json_of_kinetic_sample (kinetic_data e)))
         ]%string in
  write_file filename data_to_save ;;
  ret true.

(** [data.get(name, default)], read at the type of the attribute it is
    assigned to.  A value of another shape than [save_data] writes is outside
    the model (Python would store it as it is and fail at its first use):
    the model stops with a [TypeError]. *)
Definition get_field {A : Type} (name : string) (reader : json -> option A)
    (default : A) (data : list (string * json)) : M A :=
  match member name data with
  | None => ret default
  | Some j =>
      match reader j with
      | Some v => ret v
      | None => raise (TypeError name)
      end
  end.

Definition load_data (filename : string) : M bool :=
  doc <- read_file filename ;;
  match doc with
  | JObj data =>
      reference <- get_field "reference_spectrum" spectrum_of_json Dict.empty data ;;
      modify (set_reference_spectrum reference) ;;
      sample <- get_field "sample_spectrum" spectrum_of_json Dict.empty data ;;
      modify (set_sample_spectrum sample) ;;
      background <- get_field "background_spectrum" spectrum_of_json Dict.empty data ;;
      modify (set_background_spectrum background) ;;
      current <- gets calibration_data ;;
      calibration <- get_field "calibration_data" calibration_of_json current data ;;
      modify (set_calibration_data calibration) ;;
      (match member "recent_scan" data with
       | Some j =>
           if json_truthy j then
             match scan_record_of_json j with
             | Some r =>
                 history <- gets scan_history ;;
                 modify (set_scan_history (history ++ [r]))
             | None => raise (TypeError "recent_scan")
             end
           else ret tt
       | None => ret tt
       end) ;;
      kinetic <- get_field "kinetic_data" kinetic_data_of_json [] data ;;
      modify (set_kinetic_data kinetic) ;;
      ret true
  | _ => raise (AttributeError "get")
  end.

(** *** Self-test *)

Record SelfTest : Type := {
  passed : bool;
  test_wavelength_range : bool;
  test_lamp_function : bool;
  test_detector_response : bool;
  test_communication : bool;
  test_memory : bool;
  test_timestamp : string
}.

Definition _test_wavelength_range : M bool :=
  try_except
    (original <- gets current_wavelength ;;
     set_wavelength MIN_WAVELENGTH ;;
     set_wavelength MAX_WAVELENGTH ;;
     set_wavelength original ;;
     ret true)
    (ret false).

Definition _test_lamp : M bool :=
  try_except
    (modify (set_is_lamp_on true) ;;
     time_sleep (1 # 10) ;;
     measurement <- measure_single ;;
     modify (set_is_lamp_on false) ;;
     ret (Qlt_bool 0 (m_intensity measurement)))
    (ret false).

Definition _test_detector : M bool :=
  try_except
    (modify (set_is_lamp_on false) ;;
     dark_measurement <- measure_single ;;
     modify (set_is_lamp_on true) ;;
     time_sleep (2 # 10) ;;
     light_measurement <- measure_single ;;
     modify (set_is_lamp_on false) ;;
     ret (Qlt_bool (m_intensity dark_measurement) (m_intensity light_measurement)))
    (ret false).

Definition _test_communication : M bool := ret true.

(** [_test_memory] writes [{'test': 'data'}] to a temporary file, reads it
    back and removes the file: the file store is as before, and the loaded
    document is the one written. *)
Definition _test_memory : M bool :=
  let test_data := JObj [("test", JStr "data")]%string in
  let loaded := test_data in
  ret match loaded with
      | JObj [(k, JStr v)] => String.eqb k "test" && String.eqb v "data"
      | _ => false
      end.

Definition perform_self_test : M SelfTest :=
  t1 <- _test_wavelength_range ;;
  t2 <- _test_lamp ;;
  t3 <- _test_detector ;;
  t4 <- _test_communication ;;
  t5 <- _test_memory ;;
  let all_passed := t1 && t2 && t3 && t4 && t5 in
  ts <- datetime_now_isoformat ;;
  ret {| passed := all_passed;
         test_wavelength_range := t1; test_lamp_function := t2;
         test_detector_response := t3; test_communication := t4;
         test_memory := t5; test_timestamp := ts |}.

Definition initialize : M bool :=
  _initialize_default_calibration ;;
  modify (set_current_wavelength ((MIN_WAVELENGTH + MAX_WAVELENGTH) / 2)) ;;
  cur <- gets current_wavelength ;;
  modify (set_target_wavelength cur) ;;
  self_test <- perform_self_test ;;
  (if passed self_test then modify (set_is_lamp_on true)
   else modify (set_is_lamp_on false)) ;;
  ret (passed self_test).

End Methods.

(** The engine [__init__] builds, given the time stamp of its default
    calibration. *)
Definition new_engine (ts : string) : Engine :=
  {| current_wavelength := 450;
     target_wavelength := 450;
     is_scanning := false;
     is_calibrated := false;
     is_lamp_on := false;
     sample_present := false;
     reference_spectrum := Dict.empty;
     sample_spectrum := Dict.empty;
     background_spectrum := Dict.empty;
     calibration_data :=
       {| wavelength_coeffs := (1 # 1000000, 10001 # 10000, - (5 # 100));
          intensity_coeffs := (1, 0);
          cal_dark_current := dark_current;
          last_calibration := ts;
          calibration_valid := false |};
     scan_history := [];
     kinetic_data := [] |}.

End SpectralEngine.

Import SpectralEngine.

(** ** The point grid of a scan in binary64

    The number of points and the wavelengths of a scan, computed as Python
    computes them, on IEEE doubles; the rest of the development works with
    exact numbers. *)

Module Binary64.

Import Floats.

#[local] Set Warnings "-inexact-float".

(** [int(x)] of a finite float; infinities and NaN have none. *)
Definition int_of_float (x : float) : option Z :=
  match Prim2SF x with
  | S754_zero _ => Some 0%Z
  | S754_finite s m e =>
      let v := if (0 <=? e)%Z then (Z.pos m * 2 ^ e)%Z
               else (Z.pos m / 2 ^ (- e))%Z in
      Some (if s then (- v)%Z else v)
  | _ => None
  end.

Definition float_of_nat (i : nat) : float :=
  PrimFloat.of_uint63 (Uint63.of_Z (Z.of_nat i)).

Definition WAVELENGTH_STEP : float := 0.1%float.

(** [int((end_wl - start_wl) / self.WAVELENGTH_STEP) + 1]. *)
Definition num_points (start_wl end_wl : float) : option Z :=
  option_map (fun n => (n + 1)%Z)
    (int_of_float ((end_wl - start_wl) / WAVELENGTH_STEP)%float).

(** [start_wl + i * self.WAVELENGTH_STEP]. *)
Definition point_wavelength (start_wl : float) (i : nat) : float :=
  (start_wl + float_of_nat i * WAVELENGTH_STEP)%float.

(** The bounds of the specification's example. *)
Definition wl_400 : float := 400%float.
Definition wl_410 : float := 410%float.

Fixpoint strictly_increasing (l : list float) : bool :=
  match l with
  | a :: (b :: _) as l' => PrimFloat.ltb a b && strictly_increasing l'
  | _ => true
  end.

End Binary64.

(** ** The screen: [components/monitor.py] and [components/PreservedPage.py]

    The monitor is a grid of characters with a cursor.  A character is a
    code point (the splash screen draws with characters outside ASCII), a
    text is the list of its characters.  Cursor coordinates are Python
    integers, and subscripts follow Python's rules: a negative subscript
    counts from the end, one out of range raises [IndexError]. *)

Module PyList.

(** The position a subscript [i] denotes in a list of length [len]. *)
Definition index_of (len : nat) (i : Z) : option nat :=
  if ((0 <=? i) && (i <? Z.of_nat len))%Z then Some (Z.to_nat i)
  else if ((- Z.of_nat len <=? i) && (i <? 0))%Z then Some (Z.to_nat (Z.of_nat len + i))
  else None.

(** [l[i]]. *)
Definition getitem {A : Type} (l : list A) (i : Z) : option A :=
  match index_of (List.length l) i with
  | Some n => nth_error l n
  | None => None
  end.

(** The list [l] with [v] at position [n]. *)
Fixpoint update {A : Type} (n : nat) (v : A) (l : list A) : list A :=
  match l, n with
  | [], _ => []
  | _ :: l', O => v :: l'
  | a :: l', S n' => a :: update n' v l'
  end.

(** [l[i] = v]. *)
Definition setitem {A : Type} (l : list A) (i : Z) (v : A) : option (list A) :=
  match index_of (List.length l) i with
  | Some n => Some (update n v l)
  | None => None
  end.

End PyList.

Module Monitor.

Import PyList.

Definition char : Type := N.
Definition text : Type := list char.

Definition newline : char := 10%N.
Definition space : char := 32%N.

(** The characters of a string of the source. *)
Definition text_of (s : string) : text := map N_of_ascii (list_ascii_of_string s).

Definition rows : Z := 40.
Definition cols : Z := 80.

Record t : Type := {
  buffer : list (list char);
  cursor_x : Z;
  cursor_y : Z;
  foreground : string;
  background : string
}.

Definition set_buffer (b : list (list char)) (m : t) : t :=
  {| buffer := b; cursor_x := cursor_x m; cursor_y := cursor_y m;
     foreground := foreground m; background := background m |}.

Definition set_cursor (x y : Z) (m : t) : t :=
  {| buffer := buffer m; cursor_x := x; cursor_y := y;
     foreground := foreground m; background := background m |}.

Definition set_colours (fg bg : string) (m : t) : t :=
  {| buffer := buffer m; cursor_x := cursor_x m; cursor_y := cursor_y m;
     foreground := fg; background := bg |}.

(** How a method of the monitor ends: normally, or with the [IndexError] of
    a subscript out of range.  Either way the monitor is left as the
    statements executed so far made it. *)
Inductive status : Type :=
| Done
| IndexError (msg : string).

(** [[' ' for _ in range(self.cols)]] and the buffer made of such rows. *)
Definition blank_row : list char := repeat space (Z.to_nat cols).

Definition blank_buffer : list (list char) := repeat blank_row (Z.to_nat rows).

(** [__init__]. *)
Definition init : t :=
  {| buffer := blank_buffer; cursor_x := 0; cursor_y := 0;
     foreground := "white"; background := "black" |}.

Definition getBoundaries (m : t) : Z * Z := (cols, rows).

Definition clear (m : t) : t := set_cursor 0 0 (set_buffer blank_buffer m).

(** One turn of the loop of [scroll]: [self.buffer[i] = self.buffer[i + 1].copy()]. *)
Definition scroll_row (i : nat) (b : list (list char)) : status * list (list char) :=
  match getitem b (Z.of_nat i + 1) with
  | None => (IndexError "list index out of range", b)
  | Some row =>
      match setitem b (Z.of_nat i) row with
      | None => (IndexError "list assignment index out of range", b)
      | Some b' => (Done, b')
      end
  end.

Fixpoint scroll_rows (indices : list nat) (b : list (list char))
  : status * list (list char) :=
  match indices with
  | [] => (Done, b)
  | i :: rest =>
      match scroll_row i b with
      | (Done, b') => scroll_rows rest b'
      | failed => failed
      end
  end.

Definition scroll (m : t) : status * t :=
  match scroll_rows (py_range (rows - 1)) (buffer m) with
  | (Done, b) =>
      match setitem b (rows - 1) blank_row with
      | None => (IndexError "list assignment index out of range", set_buffer b m)
      | Some b' => (Done, set_buffer b' m)
      end
  | (failed, b) => (failed, set_buffer b m)
  end.

(** The move to the start of the next line, in both branches of [write]:
    [cursor_x = 0; cursor_y += 1], and a scroll when the cursor left the
    screen. *)
Definition next_line (m : t) : status * t :=
  let m1 := set_cursor 0 (cursor_y m + 1) m in
  if (rows <=? cursor_y m1)%Z then
    match scroll m1 with
    | (Done, m2) => (Done, set_cursor (cursor_x m2) (rows - 1) m2)
    | failed => failed
    end
  else (Done, m1).

(** [self.buffer[self.cursor_y][self.cursor_x] = char; self.cursor_x += 1]. *)
Definition put (c : char) (m : t) : status * t :=
  match index_of (List.length (buffer m)) (cursor_y m) with
  | None => (IndexError "list index out of range", m)
  | Some y =>
      match setitem (nth y (buffer m) []) (cursor_x m) c with
      | None => (IndexError "list assignment index out of range", m)
      | Some row => (Done, set_cursor (cursor_x m + 1) (cursor_y m)
                             (set_buffer (update y row (buffer m)) m))
      end
  end.

(** The body of the loop of [write] for one character. *)
Definition write_char (c : char) (m : t) : status * t :=
  if N.eqb c newline then next_line m
  else if (cols <=? cursor_x m)%Z then
    match next_line m with
    | (Done, m1) => put c m1
    | failed => failed
    end
  else put c m.

Fixpoint write (s : text) (m : t) : status * t :=
  match s with
  | [] => (Done, m)
  | c :: rest =>
      match write_char c m with
      | (Done, m1) => write rest m1
      | failed => failed
      end
  end.

(** [[''.join(row) for row in self.buffer]]: every cell holds one character,
    so the text of a row is the row. *)
Definition get_display (m : t) : list text := buffer m.

End Monitor.

Module PreservedPage.

Import Monitor.

Record page : Type := {
  content : list text;
  cursor_position : Z * Z;
  display_attributes : Dict.dict string
}.

(** [__init__]. *)
Definition init : page :=
  {| content := []; cursor_position := (0%Z, 0%Z); display_attributes := Dict.empty |}.

Definition save_state (m : Monitor.t) (p : page) : page :=
  {| content := get_display m;
     cursor_position := (cursor_x m, cursor_y m);
     display_attributes :=
       Dict.set (Dict.KStr "background") (background m)
         (Dict.set (Dict.KStr "foreground") (foreground m) Dict.empty) |}.

(** The loop of [restore_state] over [enumerate(self.content)], from the
    index [i] on. *)
Fixpoint restore_lines (i : Z) (lines : list text) (m : Monitor.t)
  : status * Monitor.t :=
  match lines with
  | [] => (Done, m)
  | line :: rest =>
      if (i <? rows)%Z then
        match write line (set_cursor 0 i m) with
        | (Done, m1) => restore_lines (i + 1) rest m1
        | failed => failed
        end
      else restore_lines (i + 1) rest m
  end.

(** [d.get(k, default)]. *)
Definition get_default (k : string) (default : string) (d : Dict.dict string) : string :=
  match Dict.get (Dict.KStr k) d with
  | Some v => v
  | None => default
  end.

Definition restore_state (p : page) (m : Monitor.t) : status * Monitor.t :=
  match restore_lines 0 (content p) (clear m) with
  | (Done, m1) =>
      (Done,
       set_colours (get_default "foreground" "white" (display_attributes p))
         (get_default "background" "black" (display_attributes p))
         (set_cursor (fst (cursor_position p)) (snd (cursor_position p)) m1))
  | failed => failed
  end.

End PreservedPage.

(** ** The commands of [components/CommandInterface.py]

    A command works on the monitor and on the engine.  The commands whose
    output does not print a float are modelled: [calibrate], [selftest] and
    [clear]. *)

Module CommandInterface.

Import Monitor.

#[local] Open Scope string_scope.

Record Console : Type := {
  monitor : Monitor.t;
  spectral_engine : State
}.

(** The line feed that ends the messages. *)
Definition nl : string := String (ascii_of_nat 10) EmptyString.

(** [str(e)] of an exception of the engine, as the f-strings print it. *)
Definition str (e : exn) : string :=
  match e with
  | ValueError msg => msg
  | RuntimeError msg => msg
  | FileNotFoundError path => "[Errno 2] No such file or directory: '" ++ path ++ "'"
  | AttributeError msg => msg
  | TypeError msg => msg
  end.

(** [self.monitor.write(s)]. *)
Definition say (s : string) (c : Console) : status * Console :=
  let (r, m) := write (text_of s) (monitor c) in
  (r, {| monitor := m; spectral_engine := spectral_engine c |}).


(** What a guarded block hands to its [except Exception as e] clause: the
    text of the exception caught, if any. *)
Definition caught (r : status * Console) : option string * Console :=
  match r with
  | (Done, c) => (None, c)
  | (IndexError msg, c) => (Some msg, c)
  end.


Section Commands.

Variable env : Env.
Variable lib : Lib.

Definition cmd_clear (c : Console) : status * Console :=
  (Done, {| monitor := clear (monitor c); spectral_engine := spectral_engine c |}).

Definition cmd_calibrate (c : Console) : status * Console :=
  match say ("Starting calibration procedure..." ++ nl) c with
  | (Done, c1) =>
      let guarded :=
        match calibrate_reference env lib (spectral_engine c1) with
        | (Ok r, st) =>
            let c2 := {| monitor := monitor c1; spectral_engine := st |} in
            caught
              (if r then say ("Calibration successful. Reference spectrum saved." ++ nl) c2
               else say ("Calibration failed." ++ nl) c2)
        | (Raise e, st) =>
            (Some (str e), {| monitor := monitor c1; spectral_engine := st |})
        end in
      match guarded with
      | (None, c3) => (Done, c3)
      | (Some msg, c3) => say ("Calibration error: " ++ msg ++ nl) c3
      end
  | failed => failed
  end.


End Commands.

End CommandInterface.

(** ** Concrete inputs

    An oracle, stand-ins for the library functions, and states the examples
    below run the methods on. *)

(** No interruption; every Poisson draw is [1], every normal draw [0]. *)
Definition quiet_env : Env :=
  {| poisson := fun _ => 1%nat;
     standard_normal := fun _ => 0;
     stop_request := fun _ => false |}.

(** Another party clears [is_scanning] during the second sleep, and the
    normal draws are so far below zero that the noise outweighs any signal. *)
Definition stopping_env : Env :=
  {| poisson := fun _ => 0%nat;
     standard_normal := fun _ => - (1000000);
     stop_request := fun k => Nat.eqb k 1 |}.

(** Stand-ins for [math.exp], [math.sqrt], [math.log10] and [isoformat]:
    the constant [1] for the first two, a [log10] that is right at [10/100],
    and the clock reading printed as a number for the time stamp. *)
Definition demo_lib : Lib :=
  {| math_exp := fun _ => 1;
     math_sqrt := fun _ => 1;
     math_log10 := fun x => if Qeq_bool x (1 # 10) then - (1) else 0;
     isoformat := fun t => float_repr t |}.

Definition fresh_world : World :=
  {| now := 0; draws := 0; sleeps := 0; files := [] |}.

(** The engine as [__init__] leaves it (lamp off). *)
Definition fresh_state : State :=
  {| engine := new_engine "2024-01-01T00:00:00"; world := fresh_world |}.

(** The same with the lamp switched on, and with a sample in place too. *)
Definition lamp_on_state : State :=
  {| engine := set_is_lamp_on true (new_engine "2024-01-01T00:00:00");
     world := fresh_world |}.

Definition sample_state : State :=
  {| engine :=
       set_sample_spectrum [(Dict.KNum 300, 7)]
         (set_sample_present true
            (set_is_lamp_on true (new_engine "2024-01-01T00:00:00")));
     world := fresh_world |}.

(** An engine whose reference reads 0 at 500 nm, with a sample scan there. *)
Definition zero_reference_state : State :=
  {| engine :=
       set_sample_spectrum [(Dict.KNum 500, 10)]
         (set_reference_spectrum [(Dict.KNum 500, 0)]
            (new_engine "2024-01-01T00:00:00"));
     world := fresh_world |}.

(** The engine of the specification's example: reference [{500: 100}],
    sample [{500: 10, 600: 5}]. *)
Definition example_state : State :=
  {| engine :=
       set_sample_spectrum [(Dict.KNum 500, 10); (Dict.KNum 600, 5)]
         (set_reference_spectrum [(Dict.KNum 500, 100)]
            (new_engine "2024-01-01T00:00:00"));
     world := fresh_world |}.

(** An engine with a reference and a sample spectrum to be saved. *)
Definition stored_state : State :=
  {| engine :=
       set_background_spectrum [(Dict.KNum 450, 1 # 2)]
         (set_sample_spectrum [(Dict.KNum 500, 10); (Dict.KNum (5001 # 10), 11)]
            (set_reference_spectrum [(Dict.KNum 500, 100)]
               (new_engine "2024-01-01T00:00:00")));
     world := fresh_world |}.

(** An engine whose spectra were read from a file: the keys are strings. *)
Definition reloaded_state : State :=
  {| engine :=
       set_sample_spectrum [(Dict.KStr "500.0", 10); (Dict.KStr "500.1", 11)]
         (set_reference_spectrum [(Dict.KStr "500.0", 100)]
            (new_engine "2024-01-01T00:00:00"));
     world := fresh_world |}.

(** ** Vocabulary of the statements *)

(** A world that differs from [w] in the number of random draws only. *)
Definition same_but_draws (w w' : World) : Prop :=
  now w' = now w /\ sleeps w' = sleeps w /\ files w' = files w.

(** The engine after a sleep: as before, unless [is_scanning] was cleared
    meanwhile. *)
Definition after_sleep (env : Env) (st : State) : Engine :=
  if stop_request env (sleeps (world st)) then set_is_scanning false (engine st)
  else engine st.

(** The attributes the loop of a scan leaves alone: all but
    [current_wavelength] and [is_scanning]. *)
Definition scan_frame (e : Engine) :=
  (target_wavelength e, is_calibrated e, is_lamp_on e, sample_present e,
   reference_spectrum e, sample_spectrum e, background_spectrum e,
   calibration_data e, scan_history e, kinetic_data e).

(** The wavelength of point [i] of a scan from [start_wl]. *)
Definition point_wavelength (start_wl : Q) (i : nat) : Q :=
  start_wl + of_nat i * WAVELENGTH_STEP.

Definition nonneg_intensity (m : Measurement) : Prop := 0 <= m_intensity m.

(** The number of points [scan_full_range] plans for a scan. *)
Definition num_points (start_wl end_wl : Q) : Z :=
  (py_int ((end_wl - start_wl) / WAVELENGTH_STEP) + 1)%Z.

(** The bounds a call scans between: an absent bound is the one of
    [scan_range]. *)
Definition start_of (start_wl : option Q) : Q :=
  match start_wl with Some v => v | None => fst scan_range end.
Definition end_of (end_wl : option Q) : Q :=
  match end_wl with Some v => v | None => snd scan_range end.

(** The intensity of the last point of [data] taken at wavelength [w]. *)
Definition last_intensity_at (w : Q) (data : list Measurement) : option Q :=
  match find (fun d => Qeq_bool (m_wavelength d) w) (rev data) with
  | Some d => Some (m_intensity d)
  | None => None
  end.

(** An item of [sample_spectrum] gets a result when its wavelength is a key
    of the reference with a strictly positive intensity. *)
Definition qualifies (reference : Dict.dict Q) (item : Dict.key * Q) : bool :=
  match Dict.get (fst item) reference with
  | Some ref_intensity => Qlt_bool 0 ref_intensity
  | None => false
  end.

(** A spectrum after [json.dump] and [json.load]: the same values in the
    same order, under the member names of its keys. *)
Definition stringified (d : Dict.dict Q) : Dict.dict Q :=
  Dict.comprehension (fun i => Dict.KStr (fst i)) snd
    (map (fun item => (key_name (fst item), snd item)) d).

(** A key that is a string. *)
Definition is_string_key (k : Dict.key) : Prop :=
  match k with Dict.KStr _ => True | Dict.KNum _ => False end.

(** The member names a spectrum is written under. *)
Definition names (d : Dict.dict Q) : list string :=
  map (fun item => key_name (fst item)) d.

(** The spectrum with every key replaced by its member name. *)
Definition renamed (d : Dict.dict Q) : Dict.dict Q :=
  map (fun item => (Dict.KStr (key_name (fst item)), snd item)) d.

(** A computation that leaves the value of [f] on the state as it was,
    whatever its outcome. *)
Definition leaves {A B : Type} (f : State -> A) (m : M B) : Prop :=
  forall st, f (snd (m st)) = f st.

(** The same for a value read off the engine. *)
Definition preserves {A B : Type} (f : Engine -> A) (m : M B) : Prop :=
  leaves (fun st => f (engine st)) m.

(** A computation that keeps the property [P] of the engine, whatever its
    outcome. *)
Definition keeps {B : Type} (P : Engine -> Prop) (m : M B) : Prop :=
  forall st, P (engine st) -> P (engine (snd (m st))).

(** The position and the operating flags of the instrument. *)
Definition instrument_flags (e : Engine) :=
  (current_wavelength e, target_wavelength e, is_scanning e, is_calibrated e,
   is_lamp_on e, sample_present e).

(** The stored spectra and calibration. *)
Definition stored_data (e : Engine) :=
  (reference_spectrum e, sample_spectrum e, background_spectrum e,
   calibration_data e).

(** The wavelength the engine stands at is within the instrument limits. *)
Definition wavelength_in_limits (e : Engine) : Prop :=
  MIN_WAVELENGTH <= current_wavelength e /\ current_wavelength e <= MAX_WAVELENGTH.

(** A buffer of the size of the screen. *)
Definition grid (b : list (list Monitor.char)) : Prop :=
  List.length b = Z.to_nat Monitor.rows
  /\ Forall (fun row => List.length row = Z.to_nat Monitor.cols) b.

(** No cell holds a line feed. *)
Definition no_newline (b : list (list Monitor.char)) : Prop :=
  Forall (Forall (fun c => c <> Monitor.newline)) b.

(** A monitor whose buffer has the size of the screen and holds no line
    feed, with the cursor on a line of the screen and at most one column
    past its end. *)
Definition well_formed (m : Monitor.t) : Prop :=
  grid (Monitor.buffer m) /\ no_newline (Monitor.buffer m)
  /\ (0 <= Monitor.cursor_y m < Monitor.rows)%Z
  /\ (0 <= Monitor.cursor_x m <= Monitor.cols)%Z.

(** ** Properties *)

(** *** Numbers *)

Lemma Qlt_bool_iff (a b : Q) : Qlt_bool a b = true <-> a < b.
Proof.
  unfold Qlt_bool. rewrite negb_true_iff.
  destruct (Qle_bool b a) eqn:E.
  - apply Qle_bool_iff in E. split; [discriminate | intros H; exfalso; lra].
  - split; [intros _ | reflexivity].
    destruct (Qlt_le_dec a b) as [H | H]; [exact H |].
    apply Qle_bool_iff in H. congruence.
Qed.

Lemma Qlt_bool_false_iff (a b : Q) : Qlt_bool a b = false <-> b <= a.
Proof.
  unfold Qlt_bool. rewrite negb_false_iff. apply Qle_bool_iff.
Qed.

Lemma Qle_bool_false_iff (a b : Q) : Qle_bool a b = false <-> b < a.
Proof.
  rewrite <- Qlt_bool_iff. unfold Qlt_bool.
  destruct (Qle_bool a b); simpl; intuition congruence.
Qed.

Lemma py_max_lower (a b : Q) : a <= py_max a b.
Proof.
  unfold py_max. destruct (Qlt_bool a b) eqn:E.
  - apply Qlt_bool_iff in E. lra.
  - lra.
Qed.

Lemma py_abs_nonneg (x : Q) : 0 <= py_abs x.
Proof.
  unfold py_abs. destruct (Qlt_bool x 0) eqn:E.
  - apply Qlt_bool_iff in E. lra.
  - apply Qlt_bool_false_iff in E. exact E.
Qed.

Lemma move_delay_nonneg (x : Q) : Qlt_bool (py_min (py_abs x / 10) (1 # 10)) 0 = false.
Proof.
  apply Qlt_bool_false_iff. pose proof (py_abs_nonneg x) as H.
  unfold py_min. destruct (Qlt_bool (1 # 10) (py_abs x / 10)); [lra |].
  apply Qle_shift_div_l; lra.
Qed.

Lemma in_limits_iff (w : Q) :
  in_limits w = true <-> MIN_WAVELENGTH <= w /\ w <= MAX_WAVELENGTH.
Proof.
  unfold in_limits. rewrite andb_true_iff, !Qle_bool_iff. reflexivity.
Qed.

Lemma in_limits_false_iff (w : Q) :
  in_limits w = false <-> w < MIN_WAVELENGTH \/ MAX_WAVELENGTH < w.
Proof.
  unfold in_limits. rewrite andb_false_iff, !Qle_bool_false_iff. reflexivity.
Qed.

(** *** Stepping through a method *)

Lemma bind_ok {A B : Type} (m : M A) (f : A -> M B) (st st' : State) (a : A) :
  m st = (Ok a, st') -> bind m f st = f a st'.
Proof. intros H. unfold bind. rewrite H. reflexivity. Qed.

Lemma bind_raise {A B : Type} (m : M A) (f : A -> M B) (st st' : State) (e : exn) :
  m st = (Raise e, st') -> bind m f st = (Raise e, st').
Proof. intros H. unfold bind. rewrite H. reflexivity. Qed.

Lemma bind_gets {A B : Type} (g : Engine -> A) (f : A -> M B) (st : State) :
  bind (gets g) f st = f (g (engine st)) st.
Proof. reflexivity. Qed.

Lemma bind_modify {B : Type} (g : Engine -> Engine) (f : unit -> M B) (st : State) :
  bind (modify g) f st = f tt {| engine := g (engine st); world := world st |}.
Proof. reflexivity. Qed.

Lemma bind_ret {A B : Type} (a : A) (f : A -> M B) (st : State) :
  bind (ret a) f st = f a st.
Proof. reflexivity. Qed.

(** Runs the leading assignments, reads and returns of a method. *)
Ltac run_py :=
  repeat (first [rewrite bind_ret | rewrite bind_modify | rewrite bind_gets];
          cbv beta).

Lemma same_but_draws_refl (w : World) : same_but_draws w w.
Proof. repeat split. Qed.

Lemma same_but_draws_trans (w1 w2 w3 : World) :
  same_but_draws w1 w2 -> same_but_draws w2 w3 -> same_but_draws w1 w3.
Proof.
  unfold same_but_draws. intros (H1 & H2 & H3) (H4 & H5 & H6).
  repeat split; congruence.
Qed.

(** *** The measurement pipeline *)

Section Measurement.

Variable env : Env.
Variable lib : Lib.

Lemma next_draw_spec (st : State) :
  exists k w',
    next_draw st = (Ok k, {| engine := engine st; world := w' |})
    /\ same_but_draws (world st) w'.
Proof.
  unfold next_draw. do 2 eexists. split; [reflexivity |]. repeat split.
Qed.

Lemma np_random_normal_spec (loc scale : Q) (st : State) :
  exists x w',
    np_random_normal env loc scale st = (Ok x, {| engine := engine st; world := w' |})
    /\ same_but_draws (world st) w'.
Proof.
  unfold np_random_normal. destruct (next_draw_spec st) as (k & w' & Hk & Hw).
  rewrite (bind_ok _ _ _ _ _ Hk). unfold ret. eauto.
Qed.

Lemma np_random_poisson_spec (lam : Q) (st : State) :
  exists n w',
    np_random_poisson env lam st = (Ok n, {| engine := engine st; world := w' |})
    /\ same_but_draws (world st) w'.
Proof.
  unfold np_random_poisson. destruct (next_draw_spec st) as (k & w' & Hk & Hw).
  rewrite (bind_ok _ _ _ _ _ Hk). unfold ret. eauto.
Qed.

Lemma apply_wavelength_calibration_spec (wl : Q) (st : State) :
  exists x, _apply_wavelength_calibration wl st = (Ok x, st).
Proof.
  unfold _apply_wavelength_calibration. rewrite bind_gets.
  destruct (wavelength_coeffs _) as [[a b] c]. unfold ret. eauto.
Qed.

Lemma apply_intensity_calibration_spec (i : Q) (st : State) :
  exists x, _apply_intensity_calibration i st = (Ok x, st).
Proof.
  unfold _apply_intensity_calibration. rewrite bind_gets.
  destruct (intensity_coeffs _) as [m b]. unfold ret. eauto.
Qed.

Lemma simulate_spectral_response_spec (wl : Q) (st : State) :
  exists x, _simulate_spectral_response lib wl st = (Ok x, st) /\ 0 <= x.
Proof.
  unfold _simulate_spectral_response. rewrite bind_gets. unfold ret.
  eexists. split; [reflexivity | apply py_max_lower].
Qed.

Lemma add_measurement_noise_spec (i : Q) (st : State) :
  exists x w',
    _add_measurement_noise env lib i st = (Ok x, {| engine := engine st; world := w' |})
    /\ same_but_draws (world st) w' /\ 0 <= x.
Proof.
  unfold _add_measurement_noise.
  destruct (np_random_poisson_spec (dark_current * 1000) st) as (n & w1 & H1 & Hw1).
  rewrite (bind_ok _ _ _ _ _ H1).
  destruct (np_random_normal_spec 0 readout_noise {| engine := engine st; world := w1 |})
    as (r & w2 & H2 & Hw2).
  rewrite (bind_ok _ _ _ _ _ H2). cbn [engine world] in *.
  destruct (Qlt_bool 0 i).
  - destruct (np_random_normal_spec 0 (photometric_noise * math_sqrt lib i)
                {| engine := engine st; world := w2 |}) as (p & w3 & H3 & Hw3).
    rewrite (bind_ok _ _ _ _ _ H3). cbn [engine world] in *. unfold ret.
    do 2 eexists. split; [reflexivity |]. split; [| apply py_max_lower].
    eauto using same_but_draws_trans.
  - rewrite bind_ret. unfold ret.
    do 2 eexists. split; [reflexivity |]. split; [| apply py_max_lower].
    eauto using same_but_draws_trans.
Qed.

(** With the lamp off [measure_single] raises and touches nothing. *)
Lemma measure_single_lamp_off (st : State) :
  is_lamp_on (engine st) = false ->
  measure_single env lib st = (Raise (RuntimeError "Lamp is off. Cannot measure."), st).
Proof.
  intros Hoff. unfold measure_single. rewrite bind_gets, Hoff. reflexivity.
Qed.

(** With the lamp on it returns a measurement at the current wavelength,
    of non-negative intensity; the engine is as before, and of the world only
    the random generator has moved. *)
Lemma measure_single_lamp_on (st : State) :
  is_lamp_on (engine st) = true ->
  exists m w',
    measure_single env lib st = (Ok m, {| engine := engine st; world := w' |})
    /\ same_but_draws (world st) w'
    /\ m_wavelength m = current_wavelength (engine st)
    /\ m_sample_present m = sample_present (engine st)
    /\ 0 <= m_intensity m.
Proof.
  intros Hon. unfold measure_single. rewrite bind_gets, Hon. cbn [negb].
  rewrite bind_gets.
  destruct (apply_wavelength_calibration_spec (current_wavelength (engine st)) st)
    as (cw & Hcw).
  rewrite (bind_ok _ _ _ _ _ Hcw).
  destruct (simulate_spectral_response_spec cw st) as (i & Hi & _).
  rewrite (bind_ok _ _ _ _ _ Hi).
  destruct (apply_intensity_calibration_spec i st) as (ci & Hci).
  rewrite (bind_ok _ _ _ _ _ Hci).
  destruct (add_measurement_noise_spec ci st) as (x & w' & Hx & Hw & _).
  rewrite (bind_ok _ _ _ _ _ Hx).
  rewrite bind_gets. unfold datetime_now_isoformat, bind, gets, ret. cbn.
  do 2 eexists. split; [reflexivity |]. cbn.
  repeat split; try apply Hw. apply py_max_lower.
Qed.

End Measurement.

(** *** Sleeping *)

Section Sleeping.

Variable env : Env.

Lemma time_sleep_ok (d : Q) (st : State) :
  Qlt_bool d 0 = false ->
  time_sleep env d st =
    (Ok tt,
     {| engine := after_sleep env st;
        world := {| now := now (world st) + d; draws := draws (world st);
                    sleeps := S (sleeps (world st)); files := files (world st) |} |}).
Proof.
  intros H. unfold time_sleep, after_sleep. rewrite H. reflexivity.
Qed.

Lemma after_sleep_cases (st : State) :
  after_sleep env st = engine st \/ after_sleep env st = set_is_scanning false (engine st).
Proof.
  unfold after_sleep. destruct (stop_request env _); auto.
Qed.

Lemma after_sleep_quiet (st : State) :
  (forall k, stop_request env k = false) -> after_sleep env st = engine st.
Proof.
  intros H. unfold after_sleep. rewrite H. reflexivity.
Qed.

End Sleeping.

(** *** Moving the wavelength *)

(** C5. [set_wavelength(w)] and [goto_wavelength(w)] raise the range error
    and leave the state as it is (so [current_wavelength] and
    [target_wavelength] too) for every [w] outside
    [[MIN_WAVELENGTH, MAX_WAVELENGTH]]; for every [w] inside they set
    [target_wavelength] and [current_wavelength] to [w] and return [w]. *)
Theorem set_wavelength_range_check (env : Env) (w : Q) (st : State) :
  (w < MIN_WAVELENGTH \/ MAX_WAVELENGTH < w ->
     set_wavelength env w st = (Raise (ValueError "Wavelength out of range"), st)
     /\ goto_wavelength env w st = (Raise (ValueError "Wavelength out of range"), st))
  /\ (MIN_WAVELENGTH <= w /\ w <= MAX_WAVELENGTH ->
     exists st',
       set_wavelength env w st = (Ok w, st')
       /\ goto_wavelength env w st = (Ok w, st')
       /\ target_wavelength (engine st') = w
       /\ current_wavelength (engine st') = w).
Proof.
  split.
  - intros Hout. apply in_limits_false_iff in Hout.
    unfold goto_wavelength, set_wavelength. rewrite Hout. cbn [negb].
    split; reflexivity.
  - intros Hin. apply in_limits_iff in Hin.
    unfold goto_wavelength, set_wavelength. rewrite Hin. cbn [negb].
    rewrite bind_modify, bind_gets.
    rewrite (bind_ok _ _ _ _ _ (time_sleep_ok env _ _ (move_delay_nonneg _))).
    rewrite bind_modify. unfold gets. cbn [engine world].
    eexists. split; [reflexivity |]. split; [reflexivity |]. cbn [engine].
    destruct (after_sleep_cases env
                {| engine := set_target_wavelength w (engine st); world := world st |})
      as [H | H]; rewrite H; split; reflexivity.
Qed.

(** C5 at 2000 nm (refused) and at 500 nm (accepted) on the fresh engine. *)
Lemma set_wavelength_range_check_witness :
  set_wavelength quiet_env 2000 fresh_state
    = (Raise (ValueError "Wavelength out of range"), fresh_state)
  /\ exists st',
       set_wavelength quiet_env 500 fresh_state = (Ok 500, st')
       /\ target_wavelength (engine st') = 500
       /\ current_wavelength (engine st') = 500.
Proof.
  destruct (set_wavelength_range_check quiet_env 2000 fresh_state) as [Hout _].
  destruct (set_wavelength_range_check quiet_env 500 fresh_state) as [_ Hin].
  split.
  - apply Hout. right. reflexivity.
  - destruct Hin as (st' & H1 & _ & H2 & H3).
    + split; discriminate.
    + exists st'. auto.
Defined.

(** *** Reference calibration *)

Section Calibration.

Variable env : Env.
Variable lib : Lib.

(** The guarded block of [calibrate_reference] stops at its dark
    measurement: the lamp has just been switched off, and [measure_single]
    refuses to measure without the lamp. *)
Lemma calibrate_reference_trace (st : State) :
  calibrate_reference env lib st =
    (Raise (RuntimeError "Lamp is off. Cannot measure."),
     {| engine :=
          set_sample_present (sample_present (engine st))
            (after_sleep env
               {| engine := set_is_lamp_on false (set_sample_present false (engine st));
                  world := world st |});
        world := {| now := now (world st) + (1 # 10); draws := draws (world st);
                    sleeps := S (sleeps (world st)); files := files (world st) |} |}).
Proof.
  unfold calibrate_reference. rewrite bind_gets, bind_modify.
  unfold try_finally. rewrite bind_modify.
  rewrite (bind_ok _ _ _ _ _ (time_sleep_ok env (1 # 10) _ eq_refl)).
  cbn [engine world].
  match goal with
  | |- context [bind (measure_single env lib) _ ?s] =>
      assert (Hoff : is_lamp_on (engine s) = false)
  end.
  { cbn [engine].
    match goal with
    | |- is_lamp_on (after_sleep env ?s) = false =>
        destruct (after_sleep_cases env s) as [H | H]; rewrite H; reflexivity
    end. }
  rewrite (bind_raise _ _ _ _ _ (measure_single_lamp_off env lib _ Hoff)).
  reflexivity.
Qed.

(** C1 (the code does otherwise).  In every engine state
    [calibrate_reference] raises the not-ready error of [measure_single]:
    it never returns [True], [is_calibrated] and [reference_spectrum] stay as
    they were, no dark-current background is recorded, and the lamp is left
    off. *)
Theorem calibrate_reference_always_raises (st : State) :
  exists st',
    calibrate_reference env lib st
      = (Raise (RuntimeError "Lamp is off. Cannot measure."), st')
    /\ is_calibrated (engine st') = is_calibrated (engine st)
    /\ reference_spectrum (engine st') = reference_spectrum (engine st)
    /\ background_spectrum (engine st') = background_spectrum (engine st)
    /\ is_lamp_on (engine st') = false.
Proof.
  rewrite calibrate_reference_trace. eexists. split; [reflexivity |].
  cbn [engine].
  match goal with
  | |- context [after_sleep env ?s] =>
      destruct (after_sleep_cases env s) as [H | H]; rewrite H
  end; repeat split; reflexivity.
Qed.

(** The cleanup of [try: ... finally: self.sample_present = original] runs
    on both exits of the guarded block, whatever the block is: the block's
    value or exception stands, and the flag is [original] afterwards. *)
Lemma finally_restores {A : Type} (body : M A) (original : bool) (st : State) :
  try_finally body (modify (set_sample_present original)) st
  = (fst (body st),
     {| engine := set_sample_present original (engine (snd (body st)));
        world := world (snd (body st)) |}).
Proof.
  unfold try_finally. destruct (body st) as [r st1]. reflexivity.
Qed.

(** C7. [calibrate_reference] leaves [sample_present] at its value before
    the call on every exit: whatever the outcome of the call (a value or an
    exception), the flag of the state it leaves is the one of the state it
    started in; and the block that guards the measurements restores it after a
    normal return and after an exception alike, the exception propagating with
    the flag already restored. *)
Theorem calibrate_reference_restores_sample_present (st : State) :
  sample_present (engine (snd (calibrate_reference env lib st)))
    = sample_present (engine st)
  /\ (forall (A : Type) (body : M A) (original : bool) (st0 st1 : State) (a : A),
        body st0 = (Ok a, st1) ->
        exists st2,
          try_finally body (modify (set_sample_present original)) st0 = (Ok a, st2)
          /\ sample_present (engine st2) = original)
  /\ (forall (A : Type) (body : M A) (original : bool) (st0 st1 : State) (e : exn),
        body st0 = (Raise e, st1) ->
        exists st2,
          try_finally body (modify (set_sample_present original)) st0 = (Raise e, st2)
          /\ sample_present (engine st2) = original).
Proof.
  split; [| split].
  - unfold calibrate_reference. rewrite bind_gets, bind_modify.
    rewrite finally_restores. reflexivity.
  - intros A body original st0 st1 a H. rewrite finally_restores, H.
    eexists. split; reflexivity.
  - intros A body original st0 st1 e H. rewrite finally_restores, H.
    eexists. split; reflexivity.
Qed.

End Calibration.

(** C7 on an engine with a sample in place: the call raises, and the sample
    is still reported present afterwards. *)
Lemma calibrate_reference_restores_sample_present_witness :
  sample_present (engine sample_state) = true
  /\ sample_present (engine (snd (calibrate_reference quiet_env demo_lib sample_state)))
     = true.
Proof.
  split; [reflexivity |].
  rewrite (proj1 (calibrate_reference_restores_sample_present
                    quiet_env demo_lib sample_state)).
  reflexivity.
Defined.

(** *** Self-test *)

Section SelfTesting.

Variable env : Env.
Variable lib : Lib.

(** A sub-check wrapped in [try: ... except: return False] never raises. *)
Lemma try_except_false_total (body : M bool) (st : State) :
  exists b st', try_except body (ret false) st = (Ok b, st').
Proof.
  unfold try_except. destruct (body st) as [[b | e] st1]; unfold ret; eauto.
Qed.

(** The detector sub-check stops at its lamp-off measurement, which
    raises; the bare [except] turns that into [False]. *)
Lemma test_detector_trace (st : State) :
  _test_detector env lib st
  = (Ok false,
     {| engine := set_is_lamp_on false (engine st); world := world st |}).
Proof.
  unfold _test_detector, try_except. rewrite bind_modify.
  rewrite (bind_raise _ _ _ _ _
             (measure_single_lamp_off env lib
                {| engine := set_is_lamp_on false (engine st); world := world st |}
                eq_refl)).
  reflexivity.
Qed.

(** C8 (the code does otherwise).  The detector sub-check returns [False] in
    every engine state and for every outcome of the noise, also where a
    lamp-on reading would exceed any dark reading: its lamp-off measurement
    raises, and the lamp-on measurement is never taken (the random generator
    has not moved).  No exception leaves the sub-check; the lamp stays off. *)
Theorem test_detector_always_false (st : State) :
  exists st',
    _test_detector env lib st = (Ok false, st')
    /\ is_lamp_on (engine st') = false
    /\ draws (world st') = draws (world st).
Proof.
  rewrite test_detector_trace. eexists. split; [reflexivity |].
  split; reflexivity.
Qed.

(** Hence the self-test never passes, and [initialize] always returns
    [False] and leaves the lamp off. *)
Lemma perform_self_test_never_passes (st : State) :
  exists t st', perform_self_test env lib st = (Ok t, st') /\ passed t = false.
Proof.
  unfold perform_self_test.
  destruct (try_except_false_total
              (original <- gets current_wavelength ;;
               set_wavelength env MIN_WAVELENGTH ;;
               set_wavelength env MAX_WAVELENGTH ;;
               set_wavelength env original ;;
               ret true) st) as (t1 & st1 & H1).
  fold (_test_wavelength_range env) in H1. rewrite (bind_ok _ _ _ _ _ H1).
  destruct (try_except_false_total
              (modify (set_is_lamp_on true) ;;
               time_sleep env (1 # 10) ;;
               measurement <- measure_single env lib ;;
               modify (set_is_lamp_on false) ;;
               ret (Qlt_bool 0 (m_intensity measurement))) st1) as (t2 & st2 & H2).
  fold (_test_lamp env lib) in H2. rewrite (bind_ok _ _ _ _ _ H2).
  rewrite (bind_ok _ _ _ _ _ (test_detector_trace st2)).
  unfold _test_communication, _test_memory. rewrite !bind_ret.
  unfold datetime_now_isoformat, bind, ret. cbn.
  do 2 eexists. split; [reflexivity |]. cbn.
  rewrite !andb_false_r. reflexivity.
Qed.

Lemma initialize_always_fails (st : State) :
  exists st', initialize env lib st = (Ok false, st')
              /\ is_lamp_on (engine st') = false.
Proof.
  unfold initialize, _initialize_default_calibration.
  unfold datetime_now_isoformat at 1.
  unfold bind at 2. unfold bind at 1. cbn [modify].
  rewrite bind_modify, bind_gets, bind_modify.
  match goal with
  | |- context [bind (perform_self_test env lib) _ ?s] =>
      destruct (perform_self_test_never_passes s) as (t & st1 & Ht & Hp)
  end.
  rewrite (bind_ok _ _ _ _ _ Ht). rewrite Hp. rewrite bind_modify.
  unfold ret. eexists. split; reflexivity.
Qed.

End SelfTesting.

(** *** Kinetic scans *)

Section Kinetic.

Variable env : Env.
Variable lib : Lib.

(** C10. With the lamp off, [kinetic_scan(duration, interval)] of a positive
    duration raises the not-ready error at its first measurement; after the
    raise [kinetic_data] is what it was before the call and [is_scanning],
    set on entry, is still true. *)
Theorem kinetic_scan_lamp_off (fuel : nat) (duration interval : Q) (st : State) :
  is_lamp_on (engine st) = false ->
  0 < duration ->
  exists st',
    kinetic_scan env lib (S fuel) duration interval st
      = Some (Raise (RuntimeError "Lamp is off. Cannot measure."), st')
    /\ kinetic_data (engine st') = kinetic_data (engine st)
    /\ is_scanning (engine st') = true.
Proof.
  intros Hoff Hpos.
  unfold kinetic_scan. rewrite bind_modify. unfold time_time.
  cbn [engine world kinetic_loop].
  assert (Hcond : Qlt_bool (now (world st) - now (world st)) duration = true).
  { apply Qlt_bool_iff. lra. }
  rewrite Hcond. cbn [set_is_scanning is_scanning andb].
  unfold kinetic_step.
  rewrite (bind_raise _ _ _ _ _
             (measure_single_lamp_off env lib
                {| engine := set_is_scanning true (engine st); world := world st |}
                Hoff)).
  eexists. split; [reflexivity |]. split; reflexivity.
Qed.

Lemma of_nat_succ (n : nat) : of_nat (S n) == of_nat n + 1.
Proof.
  unfold of_nat. rewrite Nat2Z.inj_succ, <- Z.add_1_r, inject_Z_plus. reflexivity.
Qed.

Lemma of_nat_nonneg (n : nat) : 0 <= of_nat n.
Proof.
  unfold of_nat. change 0 with (inject_Z 0). rewrite <- Zle_Qle. lia.
Qed.

(** With the lamp on and a non-negative interval the loop of a kinetic scan
    ends within [fuel + 1] turns when [fuel] intervals cover what is left of
    the duration. *)
Lemma kinetic_loop_terminates (duration interval start_time : Q) :
  0 <= interval ->
  forall (fuel : nat) (kd : list KineticSample) (taken : nat) (st : State),
    is_lamp_on (engine st) = true ->
    duration - (now (world st) - start_time) <= of_nat fuel * interval ->
    exists data st',
      kinetic_loop env lib (S fuel) duration interval start_time kd taken st
      = Some (Ok data, st').
Proof.
  intros Hint. induction fuel as [| fuel IH]; intros kd taken st Hon Hleft.
  - cbn [kinetic_loop].
    assert (Hc : Qlt_bool (now (world st) - start_time) duration = false).
    { apply Qlt_bool_false_iff. change (of_nat 0) with 0 in Hleft. lra. }
    rewrite Hc. cbn [andb]. eauto.
  - remember (S fuel) as fuel1 eqn:Hf. cbn [kinetic_loop].
    destruct (Qlt_bool (now (world st) - start_time) duration
              && is_scanning (engine st)); [| eauto].
    unfold kinetic_step.
    destruct (measure_single_lamp_on env lib st Hon)
      as (m & w1 & Hm & (Hnow & _ & _) & _).
    rewrite (bind_ok _ _ _ _ _ Hm).
    assert (Hsl : Qlt_bool interval 0 = false) by (apply Qlt_bool_false_iff; exact Hint).
    rewrite (bind_ok _ _ _ _ _ (time_sleep_ok env interval _ Hsl)).
    unfold ret. subst fuel1. apply IH.
    + cbn [engine].
      match goal with
      | |- is_lamp_on (after_sleep env ?s) = true =>
          destruct (after_sleep_cases env s) as [H | H]; rewrite H; exact Hon
      end.
    + cbn [world now]. rewrite Hnow. rewrite of_nat_succ in Hleft. lra.
Qed.

(** So a kinetic scan with the lamp on and a positive interval returns, given
    enough turns: it returns the samples it took, which are then the content of
    [kinetic_data], and [is_scanning] is cleared. *)
Lemma kinetic_scan_returns (duration interval : Q) (st : State) :
  is_lamp_on (engine st) = true ->
  0 < interval ->
  exists fuel data st',
    kinetic_scan env lib fuel duration interval st = Some (Ok data, st')
    /\ kinetic_data (engine st') = data
    /\ is_scanning (engine st') = false.
Proof.
  intros Hon Hint.
  set (n := Z.to_nat (Qceiling (duration / interval))).
  assert (Hcover : duration <= of_nat n * interval).
  { destruct (Qlt_le_dec duration 0) as [Hneg | Hpos].
    - pose proof (of_nat_nonneg n) as Hn.
      assert (0 <= of_nat n * interval) by (apply Qmult_le_0_compat; lra).
      lra.
    - pose proof (Qle_ceiling (duration / interval)) as Hc.
      assert (Hq : 0 <= duration / interval) by (apply Qle_shift_div_l; lra).
      assert (Hz : (0 <= Qceiling (duration / interval))%Z).
      { rewrite <- Qceiling_Z at 1. apply Qceiling_resp_le. exact Hq. }
      unfold n, of_nat. rewrite Z2Nat.id by exact Hz.
      assert (Hd : duration == duration / interval * interval).
      { field. intros H0. rewrite H0 in Hint. apply (Qlt_irrefl _ Hint). }
      rewrite Hd at 1. apply Qmult_le_compat_r; [exact Hc | lra]. }
  exists (S n). unfold kinetic_scan. rewrite bind_modify. unfold time_time.
  cbn [engine world].
  destruct (kinetic_loop_terminates duration interval (now (world st))
              (Qlt_le_weak _ _ Hint) n [] 0%nat
              {| engine := set_is_scanning true (engine st); world := world st |})
    as (data & st1 & Hloop).
  - exact Hon.
  - cbn [world]. lra.
  - rewrite Hloop. run_py. unfold ret.
    do 2 eexists. split; [reflexivity |]. split; reflexivity.
Qed.

End Kinetic.

(** C10 on the fresh engine (lamp off), for a scan of 60 s every second. *)
Lemma kinetic_scan_lamp_off_witness :
  exists st',
    kinetic_scan quiet_env demo_lib 1 60 1 fresh_state
      = Some (Raise (RuntimeError "Lamp is off. Cannot measure."), st')
    /\ kinetic_data (engine st') = kinetic_data (engine fresh_state)
    /\ is_scanning (engine st') = true.
Proof.
  apply (kinetic_scan_lamp_off quiet_env demo_lib 0 60 1 fresh_state).
  - reflexivity.
  - reflexivity.
Defined.

(** *** Full-range scans *)

Section Scanning.

Variable env : Env.
Variable lib : Lib.

Lemma scan_frame_after_sleep (st : State) :
  scan_frame (after_sleep env st) = scan_frame (engine st).
Proof.
  destruct (after_sleep_cases env st) as [H | H]; rewrite H; reflexivity.
Qed.

Lemma scan_frame_lamp (e e' : Engine) :
  scan_frame e' = scan_frame e -> is_lamp_on e' = is_lamp_on e.
Proof. unfold scan_frame. intros H. injection H. intros. assumption. Qed.

Lemma scan_frame_sample_present (e e' : Engine) :
  scan_frame e' = scan_frame e -> sample_present e' = sample_present e.
Proof. unfold scan_frame. intros H. injection H. intros. assumption. Qed.

(** The loop of [scan_full_range] with the lamp on: it returns the data it
    was given followed by one point per index visited, in order, each at its
    wavelength and of non-negative intensity; it visits a prefix of the
    indices, and all of them when nobody clears [is_scanning]. *)
Lemma scan_loop_spec (start_wl : Q) (indices : list nat) :
  forall (scan_data : list Measurement) (st : State),
    is_lamp_on (engine st) = true ->
    exists pts st',
      scan_loop env lib start_wl indices scan_data st = (Ok (scan_data ++ pts), st')
      /\ scan_frame (engine st') = scan_frame (engine st)
      /\ files (world st') = files (world st)
      /\ map m_wavelength pts
         = map (point_wavelength start_wl) (firstn (List.length pts) indices)
      /\ Forall nonneg_intensity pts
      /\ ((forall k, stop_request env k = false) ->
          is_scanning (engine st) = true ->
          List.length pts = List.length indices
          /\ is_scanning (engine st') = true).
Proof.
  induction indices as [| i rest IH]; intros scan_data st Hon.
  - exists [], st. cbn [scan_loop]. unfold ret. rewrite app_nil_r.
    do 5 (split; [auto |]). intros _ Hs. split; [reflexivity | exact Hs].
  - cbn [scan_loop]. rewrite bind_gets.
    destruct (is_scanning (engine st)) eqn:Hscan; cbn [negb].
    + rewrite bind_modify.
      destruct (measure_single_lamp_on env lib
                  {| engine := set_current_wavelength
                                 (start_wl + of_nat i * WAVELENGTH_STEP) (engine st);
                     world := world st |} Hon)
        as (m & w1 & Hm & (_ & _ & Hfiles) & Hwl & _ & Hint).
      rewrite (bind_ok _ _ _ _ _ Hm).
      rewrite (bind_ok _ _ _ _ _ (time_sleep_ok env integration_time _ eq_refl)).
      cbn [engine world] in *.
      match goal with
      | |- context [scan_loop env lib start_wl rest _ ?s] => set (st1 := s)
      end.
      assert (Hframe1 : scan_frame (engine st1) = scan_frame (engine st)).
      { unfold st1. cbn [engine]. rewrite scan_frame_after_sleep. reflexivity. }
      assert (Hon1 : is_lamp_on (engine st1) = true).
      { rewrite (scan_frame_lamp _ _ Hframe1). exact Hon. }
      destruct (IH (scan_data ++ [m]) st1 Hon1)
        as (pts & st' & Hrun & Hframe & Hf & Hwls & Hnn & Hquiet).
      exists (m :: pts), st'. rewrite Hrun, <- app_assoc. cbn [app].
      split; [reflexivity |].
      split; [congruence |].
      split; [rewrite Hf; unfold st1; cbn [world files]; exact Hfiles |].
      split; [cbn [List.length firstn map]; rewrite Hwls, Hwl; reflexivity |].
      split; [constructor; assumption |].
      intros Hq _.
      assert (Hs1 : is_scanning (engine st1) = true).
      { unfold st1. cbn [engine]. rewrite (after_sleep_quiet env _ Hq).
        cbn [engine]. exact Hscan. }
      destruct (Hquiet Hq Hs1) as [Hlen Hs']. cbn [List.length].
      split; [congruence | exact Hs'].
    + exists [], st. unfold ret. rewrite app_nil_r.
      do 5 (split; [auto |]). intros _ Habs. discriminate.
Qed.

(** [scan_full_range] with the lamp on and valid bounds: it returns a record
    of the points the loop took, appends it to [scan_history], clears
    [is_scanning], and replaces [sample_spectrum] by the mapping of the points
    when a sample is present. *)
Lemma scan_full_range_spec (start_wl end_wl : Q) (st : State) :
  is_lamp_on (engine st) = true ->
  in_limits start_wl = true ->
  in_limits end_wl = true ->
  Qle_bool end_wl start_wl = false ->
  exists rec st',
    scan_full_range env lib (Some start_wl) (Some end_wl) st = (Ok rec, st')
    /\ r_start_wavelength rec = start_wl
    /\ r_end_wavelength rec = end_wl
    /\ r_sample_present rec = sample_present (engine st)
    /\ scan_history (engine st') = scan_history (engine st) ++ [rec]
    /\ sample_spectrum (engine st')
       = (if sample_present (engine st) then spectrum_of (r_data rec)
          else sample_spectrum (engine st))
    /\ sample_present (engine st') = sample_present (engine st)
    /\ is_scanning (engine st') = false
    /\ files (world st') = files (world st)
    /\ map m_wavelength (r_data rec)
       = map (point_wavelength start_wl)
           (firstn (List.length (r_data rec)) (py_range (num_points start_wl end_wl)))
    /\ Forall nonneg_intensity (r_data rec)
    /\ ((forall k, stop_request env k = false) ->
        List.length (r_data rec) = Z.to_nat (num_points start_wl end_wl)).
Proof.
  intros Hon Hs He Hlt.
  unfold scan_full_range. rewrite bind_gets, Hon. cbn [negb].
  cbv beta iota zeta. rewrite Hs, He, Hlt. cbn [negb].
  rewrite bind_modify.
  fold (num_points start_wl end_wl).
  destruct (scan_loop_spec start_wl (py_range (num_points start_wl end_wl)) []
              {| engine := set_is_scanning true (engine st); world := world st |} Hon)
    as (pts & st1 & Hrun & Hframe & Hfiles & Hwls & Hnn & Hquiet).
  cbn [app] in Hrun. rewrite (bind_ok _ _ _ _ _ Hrun).
  rewrite bind_modify. unfold datetime_now_isoformat.
  unfold bind at 1. cbn [engine world].
  rewrite !bind_gets. cbn [engine world]. rewrite bind_modify, bind_gets.
  cbn [engine world set_is_scanning set_scan_history sample_present scan_history].
  cbn [engine world set_is_scanning] in Hframe, Hfiles.
  unfold scan_frame in Hframe. cbn in Hframe.
  injection Hframe as Ht Hc Hl Hsp Hr Hss Hb Hcd Hh Hk.
  rewrite Hsp, Hh.
  destruct (sample_present (engine st)) eqn:Hpresent.
  - rewrite bind_modify. unfold ret.
    do 2 eexists. split; [reflexivity |]. cbn.
    do 3 (split; [reflexivity |]). split; [reflexivity |].
    split; [reflexivity |]. split; [assumption |]. split; [reflexivity |].
    split; [assumption |]. split; [assumption |]. split; [assumption |].
    intros Hq. destruct (Hquiet Hq eq_refl) as [Hlen _]. rewrite Hlen.
    unfold py_range. apply length_seq.
  - rewrite bind_ret. unfold ret.
    do 2 eexists. split; [reflexivity |]. cbn.
    do 3 (split; [reflexivity |]). split; [reflexivity |].
    split; [assumption |]. split; [assumption |]. split; [reflexivity |].
    split; [assumption |]. split; [assumption |]. split; [assumption |].
    intros Hq. destruct (Hquiet Hq eq_refl) as [Hlen _]. rewrite Hlen.
    unfold py_range. apply length_seq.
Qed.

End Scanning.

(** *** Dictionaries built by a comprehension *)

Lemma key_eqb_refl (k : Dict.key) : Dict.key_eqb k k = true.
Proof.
  destruct k as [x | s]; cbn.
  - apply Qeq_bool_refl.
  - apply String.eqb_refl.
Qed.

Lemma key_eqb_sym (k1 k2 : Dict.key) : Dict.key_eqb k1 k2 = Dict.key_eqb k2 k1.
Proof.
  destruct k1 as [x | s], k2 as [y | t]; cbn; try reflexivity.
  - apply Qeq_bool_comm.
  - apply String.eqb_sym.
Qed.

Lemma key_eqb_trans (k1 k2 k3 : Dict.key) :
  Dict.key_eqb k1 k2 = true -> Dict.key_eqb k2 k3 = true -> Dict.key_eqb k1 k3 = true.
Proof.
  destruct k1 as [x | s], k2 as [y | t], k3 as [z | u]; cbn; try discriminate.
  - intros H1 H2. apply Qeq_bool_eq in H1, H2. apply Qeq_eq_bool.
    rewrite H1. exact H2.
  - rewrite !String.eqb_eq. congruence.
Qed.

(** Equal keys answer every comparison alike. *)
Lemma key_eqb_congr (k1 k2 k : Dict.key) :
  Dict.key_eqb k1 k2 = true -> Dict.key_eqb k1 k = Dict.key_eqb k2 k.
Proof.
  intros H. destruct (Dict.key_eqb k2 k) eqn:E2.
  - apply (key_eqb_trans _ _ _ H E2).
  - destruct (Dict.key_eqb k1 k) eqn:E1; [| reflexivity].
    rewrite key_eqb_sym in H. rewrite <- E2. symmetry.
    apply (key_eqb_trans _ _ _ H E1).
Qed.

(** [d[k'] = v] followed by [d[k]]. *)
Lemma get_set {V : Type} (k k' : Dict.key) (v : V) (d : Dict.dict V) :
  Dict.get k (Dict.set k' v d)
  = if Dict.key_eqb k' k then Some v else Dict.get k d.
Proof.
  induction d as [| [k0 v0] d IH]; cbn [Dict.set Dict.get].
  - reflexivity.
  - destruct (Dict.key_eqb k0 k') eqn:E0; cbn [Dict.get].
    + rewrite (key_eqb_congr _ _ k E0).
      destruct (Dict.key_eqb k' k); reflexivity.
    + rewrite IH. destruct (Dict.key_eqb k0 k) eqn:E1; [| reflexivity].
      destruct (Dict.key_eqb k' k) eqn:E2; [| reflexivity].
      rewrite key_eqb_sym in E2.
      rewrite (key_eqb_trans _ _ _ E1 E2) in E0. discriminate.
Qed.

Lemma find_snoc {A : Type} (p : A -> bool) (l : list A) (x : A) :
  find p (l ++ [x])
  = match find p l with
    | Some y => Some y
    | None => if p x then Some x else None
    end.
Proof.
  induction l as [| a l IH]; cbn.
  - reflexivity.
  - destruct (p a); [reflexivity | exact IH].
Qed.

(** A key of a comprehension maps to the value of the last element that
    produced it; the other keys are those of the dictionary it started from. *)
Lemma get_fold_set {A V : Type} (fk : A -> Dict.key) (fv : A -> V)
    (k : Dict.key) (xs : list A) :
  forall d0 : Dict.dict V,
    Dict.get k (fold_left (fun d x => Dict.set (fk x) (fv x) d) xs d0)
    = match find (fun x => Dict.key_eqb (fk x) k) (rev xs) with
      | Some x => Some (fv x)
      | None => Dict.get k d0
      end.
Proof.
  induction xs as [| x xs IH]; intros d0; cbn [fold_left rev].
  - reflexivity.
  - rewrite IH, find_snoc, get_set.
    destruct (find _ (rev xs)); [reflexivity |].
    destruct (Dict.key_eqb (fk x) k); reflexivity.
Qed.

Lemma spectrum_of_get_num (w : Q) (data : list Measurement) :
  Dict.get (Dict.KNum w) (spectrum_of data) = last_intensity_at w data.
Proof.
  unfold spectrum_of, Dict.comprehension, last_intensity_at.
  rewrite get_fold_set. reflexivity.
Qed.

Lemma spectrum_of_get_str (s : string) (data : list Measurement) :
  Dict.get (Dict.KStr s) (spectrum_of data) = None.
Proof.
  unfold spectrum_of, Dict.comprehension. rewrite get_fold_set. cbn [Dict.key_eqb].
  induction (rev data) as [| d l IH]; [reflexivity | exact IH].
Qed.

(** *** What a scan leaves behind *)

Section ScanResults.

Variable env : Env.
Variable lib : Lib.

Lemma scan_full_range_defaults (a b : option Q) :
  scan_full_range env lib a b
  = scan_full_range env lib (Some (start_of a)) (Some (end_of b)).
Proof. destruct a, b; reflexivity. Qed.

(** A scan that returns ran with the lamp on and between valid bounds. *)
Lemma scan_full_range_ok_inv (start_wl end_wl : Q) (st st' : State) (rec : ScanRecord) :
  scan_full_range env lib (Some start_wl) (Some end_wl) st = (Ok rec, st') ->
  is_lamp_on (engine st) = true
  /\ in_limits start_wl = true
  /\ in_limits end_wl = true
  /\ Qle_bool end_wl start_wl = false.
Proof.
  unfold scan_full_range. rewrite bind_gets.
  destruct (is_lamp_on (engine st)); cbn [negb]; [| discriminate].
  cbv beta iota zeta.
  destruct (in_limits start_wl); cbn [negb]; [| discriminate].
  destruct (in_limits end_wl); cbn [negb]; [| discriminate].
  destruct (Qle_bool end_wl start_wl); [discriminate |].
  intros _. repeat split.
Qed.

(** C4. After a run of [scan_full_range] (to its end or stopped on the way)
    with a sample present, [sample_spectrum] is the mapping from wavelength to
    intensity of the points of that run and of nothing else: every wavelength
    maps to the intensity of the run's last point there, and no other key is
    left, whatever the spectrum held before.  A run without a sample leaves
    [sample_spectrum] as it was. *)
Theorem scan_replaces_sample_spectrum
    (a b : option Q) (st st' : State) (rec : ScanRecord) :
  scan_full_range env lib a b st = (Ok rec, st') ->
  (sample_present (engine st) = true ->
     sample_spectrum (engine st') = spectrum_of (r_data rec)
     /\ (forall w, Dict.get (Dict.KNum w) (sample_spectrum (engine st'))
                   = last_intensity_at w (r_data rec))
     /\ (forall s, Dict.get (Dict.KStr s) (sample_spectrum (engine st')) = None))
  /\ (sample_present (engine st) = false ->
      sample_spectrum (engine st') = sample_spectrum (engine st)).
Proof.
  rewrite scan_full_range_defaults. intros Hrun.
  destruct (scan_full_range_ok_inv _ _ _ _ _ Hrun) as (Hon & Hs & He & Hlt).
  destruct (scan_full_range_spec env lib _ _ st Hon Hs He Hlt)
    as (rec0 & st0 & Hrun0 & _ & _ & _ & _ & Hspec & _).
  rewrite Hrun in Hrun0. injection Hrun0 as <- <-.
  split; intros Hp; rewrite Hp in Hspec.
  - rewrite Hspec. split; [reflexivity |]. split.
    + intros w. apply spectrum_of_get_num.
    + intros s. apply spectrum_of_get_str.
  - exact Hspec.
Qed.

(** C9. The intensity of the measurement [measure_single] returns, of every
    point of the record [scan_full_range] returns, and of every sample
    [kinetic_scan] returns is at least 0, in every state and for every
    outcome of the noise. *)
Theorem reported_intensities_nonnegative :
  (forall (st st' : State) (m : Measurement),
      measure_single env lib st = (Ok m, st') -> 0 <= m_intensity m)
  /\ (forall (a b : option Q) (st st' : State) (rec : ScanRecord),
        scan_full_range env lib a b st = (Ok rec, st') ->
        forall m, In m (r_data rec) -> 0 <= m_intensity m)
  /\ (forall (fuel : nat) (duration interval : Q) (st st' : State)
             (data : list KineticSample),
        kinetic_scan env lib fuel duration interval st = Some (Ok data, st') ->
        forall k, In k data -> 0 <= k_intensity k).
Proof.
  assert (Hsingle : forall (st st' : State) (m : Measurement),
             measure_single env lib st = (Ok m, st') -> 0 <= m_intensity m).
  { intros st st' m Hrun. destruct (is_lamp_on (engine st)) eqn:Hlamp.
    - destruct (measure_single_lamp_on env lib st Hlamp)
        as (m0 & w' & Hm & _ & _ & _ & Hnn).
      rewrite Hrun in Hm. injection Hm as -> _. exact Hnn.
    - rewrite (measure_single_lamp_off env lib st Hlamp) in Hrun. discriminate. }
  split; [exact Hsingle | split].
  - intros a b st st' rec. rewrite scan_full_range_defaults. intros Hrun.
    destruct (scan_full_range_ok_inv _ _ _ _ _ Hrun) as (Hon & Hs & He & Hlt).
    destruct (scan_full_range_spec env lib _ _ st Hon Hs He Hlt)
      as (rec0 & st0 & Hrun0 & _ & _ & _ & _ & _ & _ & _ & _ & _ & Hnn & _).
    rewrite Hrun in Hrun0. injection Hrun0 as <- <-.
    intros m Hin. rewrite Forall_forall in Hnn. apply (Hnn m Hin).
  - assert (Hloop : forall fuel duration interval start_time kd taken st st' data,
               kinetic_loop env lib fuel duration interval start_time kd taken st
               = Some (Ok data, st') ->
               (forall k, In k kd -> 0 <= k_intensity k) ->
               forall k, In k data -> 0 <= k_intensity k).
    { induction fuel as [| fuel IH]; intros duration interval start_time kd taken
        st st' data; cbn [kinetic_loop]; [discriminate |].
      destruct (Qlt_bool (now (world st) - start_time) duration
                && is_scanning (engine st)).
      - unfold kinetic_step.
        destruct (measure_single env lib st) as [[m | e] st1] eqn:Hm.
        + rewrite (bind_ok _ _ _ _ _ Hm).
          destruct (time_sleep env interval st1) as [[[] | e] st2] eqn:Hsl.
          * rewrite (bind_ok _ _ _ _ _ Hsl). unfold ret.
            intros Hrun Hkd. apply (IH _ _ _ _ _ _ _ _ Hrun).
            intros k Hin. apply in_app_or in Hin. destruct Hin as [Hin | Hin].
            -- apply Hkd, Hin.
            -- destruct Hin as [<- | []]. cbn. apply (Hsingle _ _ _ Hm).
          * rewrite (bind_raise _ _ _ _ _ Hsl). discriminate.
        + rewrite (bind_raise _ _ _ _ _ Hm). discriminate.
      - intros Hrun Hkd. injection Hrun as <- _. exact Hkd. }
    intros fuel duration interval st st' data. unfold kinetic_scan.
    rewrite bind_modify. unfold time_time.
    destruct (kinetic_loop _ _ _ _ _ _ _ _ _) as [[[kd | e] st2] |] eqn:Hl;
      try discriminate.
    rewrite !bind_modify. unfold ret. intros Hrun. injection Hrun as <- _.
    apply (Hloop _ _ _ _ _ _ _ _ _ Hl). intros k [].
Qed.

End ScanResults.

(** *** The points of an uninterrupted scan *)

(** On a non-negative number [int] is the floor. *)
Lemma py_int_floor (x : Q) : 0 <= x -> py_int x = Qfloor x.
Proof.
  intros H. destruct x as [n d]. unfold py_int, Qfloor. cbn [Qnum Qden].
  apply Z.quot_div_nonneg; [| reflexivity].
  unfold Qle in H. cbn in H. lia.
Qed.


Section UninterruptedScan.

Variable env : Env.
Variable lib : Lib.


End UninterruptedScan.

(** The example scan of the specification in binary64, as Python computes
    it: 101 points from 400 to 410, at strictly increasing wavelengths. *)
Lemma binary64_scan_400_410 :
  Binary64.num_points Binary64.wl_400 Binary64.wl_410 = Some 101%Z
  /\ Binary64.strictly_increasing
       (map (Binary64.point_wavelength Binary64.wl_400) (seq 0 101)) = true.
Proof.
  split; vm_compute; reflexivity.
Qed.


(** C4 on an engine with a sample in place and an older sample spectrum
    [{300: 7}]: a scan from 400 to 410 that is stopped after two points
    leaves the mapping of these two points, and nothing at 300. *)
Lemma scan_replaces_sample_spectrum_witness :
  exists rec st',
    scan_full_range stopping_env demo_lib (Some 400) (Some 410) sample_state
      = (Ok rec, st')
    /\ List.length (r_data rec) = 2%nat
    /\ Dict.get (Dict.KNum 300) (sample_spectrum (engine sample_state)) = Some 7
    /\ sample_spectrum (engine st') = spectrum_of (r_data rec)
    /\ Dict.get (Dict.KNum 300) (sample_spectrum (engine st')) = None.
Proof.
  destruct (scan_full_range stopping_env demo_lib (Some 400) (Some 410) sample_state)
    as [[rec | e] st'] eqn:E.
  - destruct (scan_replaces_sample_spectrum _ _ _ _ _ _ _ E) as [H _].
    destruct (H eq_refl) as (H1 & H2 & _).
    exists rec, st'. split; [reflexivity |].
    vm_compute in E. injection E as <- <-.
    split; [reflexivity |]. split; [reflexivity |]. split; [exact H1 |].
    rewrite H2. reflexivity.
  - vm_compute in E. discriminate.
Defined.

(** C9 on a measurement whose noise outweighs the signal (the intensity
    reported is 0), on a scan of three points and on a kinetic run of three
    samples. *)
Lemma reported_intensities_nonnegative_witness :
  (exists m st',
      measure_single stopping_env demo_lib lamp_on_state = (Ok m, st')
      /\ m_intensity m == 0
      /\ 0 <= m_intensity m)
  /\ (exists rec st',
        scan_full_range quiet_env demo_lib (Some 400) (Some (4002 # 10)) lamp_on_state
          = (Ok rec, st')
        /\ List.length (r_data rec) = 3%nat
        /\ forall m, In m (r_data rec) -> 0 <= m_intensity m)
  /\ (exists data st',
        kinetic_scan quiet_env demo_lib 10 3 1 lamp_on_state = Some (Ok data, st')
        /\ List.length data = 3%nat
        /\ forall k, In k data -> 0 <= k_intensity k).
Proof.
  split; [| split].
  - destruct (measure_single stopping_env demo_lib lamp_on_state)
      as [[m | e] st'] eqn:E.
    + exists m, st'. split; [reflexivity |]. split.
      * vm_compute in E. injection E as <- _. reflexivity.
      * apply (proj1 (reported_intensities_nonnegative stopping_env demo_lib) _ _ _ E).
    + vm_compute in E. discriminate.
  - destruct (scan_full_range quiet_env demo_lib (Some 400) (Some (4002 # 10))
                lamp_on_state) as [[rec | e] st'] eqn:E.
    + exists rec, st'. split; [reflexivity |]. split.
      * vm_compute in E. injection E as <- _. reflexivity.
      * apply (proj1 (proj2 (reported_intensities_nonnegative quiet_env demo_lib))
                 _ _ _ _ _ E).
    + vm_compute in E. discriminate.
  - destruct (kinetic_scan quiet_env demo_lib 10 3 1 lamp_on_state)
      as [[[data | e] st'] |] eqn:E.
    + exists data, st'. split; [reflexivity |]. split.
      * vm_compute in E. injection E as <- _. reflexivity.
      * apply (proj2 (proj2 (reported_intensities_nonnegative quiet_env demo_lib))
                 _ _ _ _ _ _ E).
    + vm_compute in E. discriminate.
    + vm_compute in E. discriminate.
Defined.

(** *** Absorbance *)

Lemma fold_left_append {A B : Type} (f : A -> list B) (l : list A) :
  forall acc : list B,
    fold_left (fun acc x => acc ++ f x) l acc = acc ++ flat_map f l.
Proof.
  induction l as [| x l IH]; intros acc; cbn [fold_left flat_map].
  - symmetry. apply app_nil_r.
  - rewrite IH. symmetry. apply app_assoc.
Qed.

Section Absorbance.

Variable lib : Lib.

Lemma absorbance_entry_wavelengths (reference sample : Dict.dict Q) :
  map a_wavelength (flat_map (absorbance_entry lib reference) sample)
  = map fst (filter (qualifies reference) sample).
Proof.
  induction sample as [| [wl s] sample IH]; cbn [flat_map filter map].
  - reflexivity.
  - rewrite map_app, IH. unfold qualifies at 2, absorbance_entry at 1. cbn [fst].
    destruct (Dict.get wl reference) as [r |]; [| reflexivity].
    destruct (Qlt_bool 0 r); reflexivity.
Qed.

Lemma absorbance_entry_fields (reference sample : Dict.dict Q) (p : AbsorbancePoint) :
  In p (flat_map (absorbance_entry lib reference) sample) ->
  exists r,
    In (a_wavelength p, a_sample_intensity p) sample
    /\ Dict.get (a_wavelength p) reference = Some r
    /\ 0 < r
    /\ a_reference_intensity p = r
    /\ a_transmittance p = a_sample_intensity p / r * 100
    /\ a_absorbance p
       = if Qlt_bool 0 (a_sample_intensity p / r)
         then Some (- math_log10 lib (a_sample_intensity p / r))
         else None.
Proof.
  intros Hin. apply in_flat_map in Hin. destruct Hin as ([wl s] & Hitem & Hp).
  unfold absorbance_entry in Hp.
  destruct (Dict.get wl reference) as [r |] eqn:Hr; [| destruct Hp].
  destruct (Qlt_bool 0 r) eqn:Hpos; [| destruct Hp].
  destruct Hp as [<- | []]. cbn.
  exists r. apply Qlt_bool_iff in Hpos. repeat split; assumption.
Qed.

(** C3, as the code has it.  With both spectra non-empty,
    [measure_absorbance] returns, in the order of [sample_spectrum], one result
    for every wavelength key of the sample that is also a key of the reference
    with a strictly positive reference intensity: its transmittance is
    sample intensity / reference intensity (reported as a percentage) and its
    absorbance [-log10(transmittance)] when the transmittance is positive,
    else infinity.  The other keys get no result.  For reference [{500: 100}]
    and sample [{500: 10, 600: 5}] that is one result, at 500, of absorbance
    [-log10(10/100)], which is 1. *)
Theorem measure_absorbance_positive_reference :
  (forall st : State,
      reference_spectrum (engine st) <> [] ->
      sample_spectrum (engine st) <> [] ->
      exists results,
        measure_absorbance lib st = (Ok results, st)
        /\ map a_wavelength results
           = map fst (filter (qualifies (reference_spectrum (engine st)))
                        (sample_spectrum (engine st)))
        /\ forall p, In p results ->
             exists r,
               In (a_wavelength p, a_sample_intensity p) (sample_spectrum (engine st))
               /\ Dict.get (a_wavelength p) (reference_spectrum (engine st)) = Some r
               /\ 0 < r
               /\ a_reference_intensity p = r
               /\ a_transmittance p = a_sample_intensity p / r * 100
               /\ a_absorbance p
                  = if Qlt_bool 0 (a_sample_intensity p / r)
                    then Some (- math_log10 lib (a_sample_intensity p / r))
                    else None)
  /\ (math_log10 lib (10 / 100) == - (1) ->
      exists a,
        measure_absorbance lib example_state
        = (Ok [ {| a_wavelength := Dict.KNum 500;
                   a_absorbance := Some a;
                   a_transmittance := 10 / 100 * 100;
                   a_reference_intensity := 100;
                   a_sample_intensity := 10 |} ],
           example_state)
        /\ a == 1).
Proof.
  split.
  - intros st Href Hsample. unfold measure_absorbance. rewrite bind_gets.
    destruct (reference_spectrum (engine st)) as [| r0 reference] eqn:Er;
      [contradiction |].
    cbn [Dict.truthy negb]. rewrite bind_gets.
    destruct (sample_spectrum (engine st)) as [| s0 sample] eqn:Es;
      [contradiction |].
    cbn [Dict.truthy negb]. unfold ret. rewrite fold_left_append. cbn [app].
    eexists. split; [reflexivity |]. split.
    + apply absorbance_entry_wavelengths.
    + intros p Hp. apply absorbance_entry_fields, Hp.
  - intros Hlog. exists (- math_log10 lib (10 / 100)). split.
    + reflexivity.
    + rewrite Hlog. reflexivity.
Qed.

End Absorbance.

(** C3 as amended, on the example of the specification. *)
Lemma measure_absorbance_positive_reference_witness :
  exists a,
    measure_absorbance demo_lib example_state
    = (Ok [ {| a_wavelength := Dict.KNum 500;
               a_absorbance := Some a;
               a_transmittance := 10 / 100 * 100;
               a_reference_intensity := 100;
               a_sample_intensity := 10 |} ],
       example_state)
    /\ a == 1.
Proof.
  apply (proj2 (measure_absorbance_positive_reference demo_lib)).
  reflexivity.
Defined.

(** C3 as stated fails: 500 is a key of both spectra, both are non-empty,
    and [measure_absorbance] returns no result at all, because the reference
    intensity there is 0. *)
Lemma measure_absorbance_skips_zero_reference :
  Dict.mem (Dict.KNum 500) (reference_spectrum (engine zero_reference_state)) = true
  /\ Dict.mem (Dict.KNum 500) (sample_spectrum (engine zero_reference_state)) = true
  /\ measure_absorbance demo_lib zero_reference_state = (Ok [], zero_reference_state).
Proof.
  split; [reflexivity |]. split; reflexivity.
Qed.

(** *** Saving and loading *)

Lemma all_some_map {A B : Type} (f : A -> B) (g : B -> option A) (l : list A) :
  (forall x, g (f x) = Some x) -> all_some (map g (map f l)) = Some l.
Proof.
  intros H. induction l as [| x l IH]; cbn [map all_some].
  - reflexivity.
  - rewrite H, IH. reflexivity.
Qed.

Lemma spectrum_round_trip (d : Dict.dict Q) :
  spectrum_of_json (json_of_spectrum d) = Some (stringified d).
Proof.
  unfold spectrum_of_json, json_of_spectrum, stringified.
  assert (H : all_some
                (map (fun m => match num (snd m) with
                               | Some x => Some (fst m, x)
                               | None => None
                               end)
                   (map (fun item => (key_name (fst item), JNum (snd item))) d))
              = Some (map (fun item => (key_name (fst item), snd item)) d)).
  { induction d as [| [k v] d IH]; cbn [map all_some fst snd num].
    - reflexivity.
    - rewrite IH. reflexivity. }
  rewrite H. reflexivity.
Qed.

Lemma calibration_round_trip (c : CalibrationData) :
  calibration_of_json (json_of_calibration c) = Some c.
Proof.
  destruct c as [[[a b] c0] [m b0] d ts v]. reflexivity.
Qed.

Lemma measurement_round_trip (m : Measurement) :
  measurement_of_json (json_of_measurement m) = Some m.
Proof. destruct m. reflexivity. Qed.

Lemma kinetic_sample_round_trip (k : KineticSample) :
  kinetic_sample_of_json (json_of_kinetic_sample k) = Some k.
Proof. destruct k as [t w i [a |]]; reflexivity. Qed.

Lemma scan_record_round_trip (r : ScanRecord) :
  scan_record_of_json (json_of_scan_record r) = Some r.
Proof.
  destruct r as [ty s e step data ts sp].
  unfold scan_record_of_json, json_of_scan_record.
  cbn [r_type r_start_wavelength r_end_wavelength r_step_size r_data
       r_timestamp r_sample_present].
  change (member "type" _) with (Some (JStr ty)).
  change (member "start_wavelength" _) with (Some (JNum s)).
  change (member "end_wavelength" _) with (Some (JNum e)).
  change (member "step_size" _) with (Some (JNum step)).
  change (member "data" _) with (Some (JArr (map json_of_measurement data))).
  change (member "timestamp" _) with (Some (JStr ts)).
  change (member "sample_present" _) with (Some (JBool sp)).
  cbv beta iota.
  rewrite (all_some_map json_of_measurement measurement_of_json data
             measurement_round_trip).
  reflexivity.
Qed.

(** Every key of a stringified spectrum is a string. *)
Lemma set_keys {V : Type} (P : Dict.key -> Prop) (k : Dict.key) (v : V)
    (d : Dict.dict V) :
  P k -> Forall (fun item => P (fst item)) d ->
  Forall (fun item => P (fst item)) (Dict.set k v d).
Proof.
  intros Hk Hd. induction Hd as [| [k0 v0] d H0 Hd IH]; cbn [Dict.set].
  - constructor; [exact Hk | constructor].
  - destruct (Dict.key_eqb k0 k); constructor; assumption.
Qed.

Lemma stringified_keys (d : Dict.dict Q) :
  Forall (fun item => is_string_key (fst item)) (stringified d).
Proof.
  unfold stringified, Dict.comprehension.
  generalize (map (fun item : Dict.key * Q => (key_name (fst item), snd item)) d).
  intros l.
  assert (H : forall acc : Dict.dict Q,
             Forall (fun item => is_string_key (fst item)) acc ->
             Forall (fun item => is_string_key (fst item))
               (fold_left (fun d x => Dict.set (Dict.KStr (fst x)) (snd x) d) l acc)).
  { induction l as [| x l IH]; intros acc Hacc; cbn [fold_left].
    - exact Hacc.
    - apply IH, set_keys; [exact I | exact Hacc]. }
  apply H. constructor.
Qed.

(** So a spectrum with a wavelength among its keys does not come back. *)
Lemma stringified_differs (d : Dict.dict Q) (w v : Q) :
  In (Dict.KNum w, v) d -> stringified d <> d.
Proof.
  intros Hin Heq. pose proof (stringified_keys d) as H. rewrite Heq in H.
  rewrite Forall_forall in H. apply (H _ Hin).
Qed.

Section Persistence.

Variable lib : Lib.

(** [save_data] writes one document and changes nothing else. *)
Lemma save_data_spec (filename : string) (st : State) :
  exists data,
    save_data lib filename st
    = (Ok true,
       {| engine := engine st;
          world := {| now := now (world st); draws := draws (world st);
                      sleeps := sleeps (world st);
                      files := (filename, JObj data) :: files (world st) |} |})
    /\ member "reference_spectrum" data
       = Some (json_of_spectrum (reference_spectrum (engine st)))
    /\ member "sample_spectrum" data
       = Some (json_of_spectrum (sample_spectrum (engine st)))
    /\ member "background_spectrum" data
       = Some (json_of_spectrum (background_spectrum (engine st)))
    /\ member "calibration_data" data
       = Some (json_of_calibration (calibration_data (engine st)))
    /\ member "recent_scan" data
       = Some (match rev (scan_history (engine st)) with
               | r :: _ => json_of_scan_record r
               | [] => JNull
               end)
    /\ member "kinetic_data" data
       = Some (JArr (map json_of_kinetic_sample (kinetic_data (engine st)))).
Proof.
  unfold save_data, datetime_now_isoformat, write_file, bind, gets, ret.
  cbn [engine world].
  eexists. split; [reflexivity |].
  repeat split; reflexivity.
Qed.

(** What [save_data(path)] followed by [load_data(path)] does to the engine:
    it succeeds; [calibration_data] and [kinetic_data] are as before; each
    spectrum keeps its values but comes back under string keys; the last scan
    record, if any, is appended once more to [scan_history]. *)
Lemma save_then_load (filename : string) (st : State) :
  exists st',
    (save_data lib filename ;; load_data filename) st = (Ok true, st')
    /\ reference_spectrum (engine st') = stringified (reference_spectrum (engine st))
    /\ sample_spectrum (engine st') = stringified (sample_spectrum (engine st))
    /\ background_spectrum (engine st') = stringified (background_spectrum (engine st))
    /\ calibration_data (engine st') = calibration_data (engine st)
    /\ kinetic_data (engine st') = kinetic_data (engine st)
    /\ scan_history (engine st')
       = scan_history (engine st)
         ++ match rev (scan_history (engine st)) with r :: _ => [r] | [] => [] end.
Proof.
  destruct (save_data_spec filename st)
    as (data & Hsave & Href & Hsam & Hbg & Hcal & Hscan & Hkin).
  rewrite (bind_ok _ _ _ _ _ Hsave).
  unfold load_data, read_file.
  unfold bind at 1. cbn [world files find fst]. rewrite String.eqb_refl.
  cbn [snd]. unfold get_field.
  rewrite Href, Hsam, Hbg, Hcal, Hscan, Hkin.
  rewrite !spectrum_round_trip, calibration_round_trip.
  unfold kinetic_data_of_json.
  rewrite (all_some_map json_of_kinetic_sample kinetic_sample_of_json _
             kinetic_sample_round_trip).
  run_py.
  destruct (rev (scan_history (engine st))) as [| r l] eqn:Hrev.
  - cbn [json_truthy]. run_py. unfold ret.
    eexists. split; [reflexivity |]. cbn. rewrite app_nil_r.
    repeat split; reflexivity.
  - change (json_truthy (json_of_scan_record r)) with true. cbv iota.
    rewrite scan_record_round_trip.
    unfold bind at 1. run_py. unfold ret.
    eexists. split; [reflexivity |]. cbn.
    repeat split; reflexivity.
Qed.

End Persistence.


(** ** Further properties of the engine *)

(** *** Measuring *)

(** X1. [measure_single] is a pure reading.  With the lamp off it raises the
    not-ready error and leaves the whole state as it is; with the lamp on it
    returns a measurement taken at [current_wavelength] that carries the
    [sample_present] flag, and the engine (stored spectra, flags, position) is
    exactly as before, as are the clock and the files. *)
Theorem measure_single_reads_only (env : Env) (lib : Lib) (st : State) :
  (is_lamp_on (engine st) = false ->
     measure_single env lib st
     = (Raise (RuntimeError "Lamp is off. Cannot measure."), st))
  /\ (is_lamp_on (engine st) = true ->
      exists m st',
        measure_single env lib st = (Ok m, st')
        /\ engine st' = engine st
        /\ now (world st') = now (world st)
        /\ files (world st') = files (world st)
        /\ m_wavelength m = current_wavelength (engine st)
        /\ m_sample_present m = sample_present (engine st)).
Proof.
  split.
  - apply measure_single_lamp_off.
  - intros Hon.
    destruct (measure_single_lamp_on env lib st Hon)
      as (m & w' & Hm & (Hnow & _ & Hfiles) & Hwl & Hsp & _).
    exists m. eexists. split; [exact Hm |]. cbn [engine world].
    repeat split; assumption.
Qed.

(** X1 on the fresh engine (lamp off) and on the engine with its lamp on. *)
Lemma measure_single_reads_only_witness :
  measure_single quiet_env demo_lib fresh_state
  = (Raise (RuntimeError "Lamp is off. Cannot measure."), fresh_state)
  /\ exists m st',
       measure_single quiet_env demo_lib lamp_on_state = (Ok m, st')
       /\ engine st' = engine lamp_on_state
       /\ m_wavelength m = 450.
Proof.
  destruct (measure_single_reads_only quiet_env demo_lib fresh_state) as [Hoff _].
  destruct (measure_single_reads_only quiet_env demo_lib lamp_on_state) as [_ Hon].
  split; [apply Hoff; reflexivity |].
  destruct (Hon eq_refl) as (m & st' & Hm & He & _ & _ & Hwl & _).
  exists m, st'. repeat split; assumption.
Defined.

(** *** The checks of a scan *)

(** X2. [scan_full_range] checks in this order, and on each failure raises
    before anything is changed: the lamp (not-ready error), the start bound,
    the end bound (range errors), and that the end lies above the start.  An
    absent bound is the one of the instrument's range. *)
Theorem scan_full_range_checks (env : Env) (lib : Lib)
    (a b : option Q) (st : State) :
  (is_lamp_on (engine st) = false ->
     scan_full_range env lib a b st
     = (Raise (RuntimeError "Lamp is off. Cannot scan."), st))
  /\ (is_lamp_on (engine st) = true ->
      start_of a < MIN_WAVELENGTH \/ MAX_WAVELENGTH < start_of a ->
      scan_full_range env lib a b st
      = (Raise (ValueError "Start wavelength out of range"), st))
  /\ (is_lamp_on (engine st) = true ->
      MIN_WAVELENGTH <= start_of a /\ start_of a <= MAX_WAVELENGTH ->
      end_of b < MIN_WAVELENGTH \/ MAX_WAVELENGTH < end_of b ->
      scan_full_range env lib a b st
      = (Raise (ValueError "End wavelength out of range"), st))
  /\ (is_lamp_on (engine st) = true ->
      MIN_WAVELENGTH <= start_of a /\ start_of a <= MAX_WAVELENGTH ->
      MIN_WAVELENGTH <= end_of b /\ end_of b <= MAX_WAVELENGTH ->
      end_of b <= start_of a ->
      scan_full_range env lib a b st
      = (Raise (ValueError "End wavelength must be greater than start wavelength"),
         st)).
Proof.
  rewrite scan_full_range_defaults. unfold scan_full_range.
  rewrite bind_gets. cbv beta iota zeta.
  split; [| split; [| split]].
  - intros Hoff. rewrite Hoff. reflexivity.
  - intros Hon Hs. apply in_limits_false_iff in Hs.
    rewrite Hon, Hs. reflexivity.
  - intros Hon Hs He. apply in_limits_iff in Hs. apply in_limits_false_iff in He.
    rewrite Hon, Hs, He. reflexivity.
  - intros Hon Hs He Hle. apply in_limits_iff in Hs, He.
    apply Qle_bool_iff in Hle. rewrite Hon, Hs, He, Hle. reflexivity.
Qed.

(** X2 on the fresh engine (lamp off) and, with the lamp on, on the bounds
    100..500, 400..2000 and 500..400. *)
Lemma scan_full_range_checks_witness :
  scan_full_range quiet_env demo_lib None None fresh_state
  = (Raise (RuntimeError "Lamp is off. Cannot scan."), fresh_state)
  /\ scan_full_range quiet_env demo_lib (Some 100) (Some 500) lamp_on_state
     = (Raise (ValueError "Start wavelength out of range"), lamp_on_state)
  /\ scan_full_range quiet_env demo_lib (Some 400) (Some 2000) lamp_on_state
     = (Raise (ValueError "End wavelength out of range"), lamp_on_state)
  /\ scan_full_range quiet_env demo_lib (Some 500) (Some 400) lamp_on_state
     = (Raise (ValueError "End wavelength must be greater than start wavelength"),
        lamp_on_state).
Proof.
  split; [| split; [| split]].
  - apply (proj1 (scan_full_range_checks quiet_env demo_lib None None fresh_state)).
    reflexivity.
  - apply (proj1 (proj2 (scan_full_range_checks quiet_env demo_lib
                           (Some 100) (Some 500) lamp_on_state))).
    + reflexivity.
    + left. reflexivity.
  - apply (proj1 (proj2 (proj2 (scan_full_range_checks quiet_env demo_lib
                                  (Some 400) (Some 2000) lamp_on_state)))).
    + reflexivity.
    + split; discriminate.
    + right. reflexivity.
  - apply (proj2 (proj2 (proj2 (scan_full_range_checks quiet_env demo_lib
                                  (Some 500) (Some 400) lamp_on_state)))).
    + reflexivity.
    + split; discriminate.
    + split; discriminate.
    + discriminate.
Defined.

(** *** What a scan does to the engine *)

Section ScanEffect.

Variable env : Env.
Variable lib : Lib.

Lemma last_nonempty_default {A : Type} (a : A) (l : list A) (d d' : A) :
  last (a :: l) d = last (a :: l) d'.
Proof.
  revert a. induction l as [| b l IH]; intros a; [reflexivity |].
  change (last (b :: l) d = last (b :: l) d'). apply IH.
Qed.

(** The loop of a scan, once more, with where it leaves the wavelength: at
    the last point measured.  It measures at least one point when entered with
    [is_scanning] set, and every point carries the [sample_present] flag. *)
Lemma scan_loop_position (start_wl : Q) (indices : list nat) :
  forall (scan_data : list Measurement) (st : State),
    is_lamp_on (engine st) = true ->
    exists pts st',
      scan_loop env lib start_wl indices scan_data st = (Ok (scan_data ++ pts), st')
      /\ current_wavelength (engine st')
         = last (map m_wavelength pts) (current_wavelength (engine st))
      /\ Forall (fun m => m_sample_present m = sample_present (engine st)) pts
      /\ (is_scanning (engine st) = true -> indices <> [] -> pts <> []).
Proof.
  induction indices as [| i rest IH]; intros scan_data st Hon.
  - exists [], st. cbn [scan_loop]. unfold ret. rewrite app_nil_r.
    split; [reflexivity |]. split; [reflexivity |]. split; [constructor |].
    intros _ H. contradiction.
  - cbn [scan_loop]. rewrite bind_gets.
    destruct (is_scanning (engine st)) eqn:Hscan; cbn [negb].
    + rewrite bind_modify.
      destruct (measure_single_lamp_on env lib
                  {| engine := set_current_wavelength
                                 (start_wl + of_nat i * WAVELENGTH_STEP) (engine st);
                     world := world st |} Hon)
        as (m & w1 & Hm & _ & Hwl & Hsp & _).
      rewrite (bind_ok _ _ _ _ _ Hm).
      rewrite (bind_ok _ _ _ _ _ (time_sleep_ok env integration_time _ eq_refl)).
      cbn [engine world] in *.
      match goal with
      | |- context [scan_loop env lib start_wl rest _ ?s] => set (st1 := s)
      end.
      assert (Hframe1 : scan_frame (engine st1) = scan_frame (engine st)).
      { unfold st1. cbn [engine]. rewrite scan_frame_after_sleep. reflexivity. }
      assert (Hcur1 : current_wavelength (engine st1) = m_wavelength m).
      { unfold st1. cbn [engine]. rewrite Hwl.
        match goal with
        | |- context [after_sleep env ?s] =>
            destruct (after_sleep_cases env s) as [H | H]; rewrite H; reflexivity
        end. }
      destruct (IH (scan_data ++ [m]) st1)
        as (pts & st' & Hrun & Hcur & Hflags & _).
      { rewrite (scan_frame_lamp _ _ Hframe1). exact Hon. }
      exists (m :: pts), st'. rewrite Hrun, <- app_assoc. cbn [app].
      split; [reflexivity |]. split; [| split].
      * rewrite Hcur, Hcur1. cbn [map].
        destruct pts as [| p pts]; [reflexivity |]. cbn [map].
        change (last (m_wavelength m :: m_wavelength p :: map m_wavelength pts)
                  (current_wavelength (engine st)))
          with (last (m_wavelength p :: map m_wavelength pts)
                  (current_wavelength (engine st))).
        apply last_nonempty_default.
      * constructor; [exact Hsp |].
        rewrite (scan_frame_sample_present _ _ Hframe1) in Hflags. exact Hflags.
      * intros _ _. discriminate.
    + exists [], st. unfold ret. rewrite app_nil_r.
      split; [reflexivity |]. split; [reflexivity |]. split; [constructor |].
      intros H. discriminate.
Qed.


(** A scan with the lamp on and valid bounds, in full: the record it
    returns and the state it leaves, in terms of the run of its loop. *)
Lemma scan_full_range_effect (start_wl end_wl : Q) (st : State) :
  is_lamp_on (engine st) = true ->
  in_limits start_wl = true ->
  in_limits end_wl = true ->
  Qle_bool end_wl start_wl = false ->
  exists pts st1,
    scan_loop env lib start_wl (py_range (num_points start_wl end_wl)) []
      {| engine := set_is_scanning true (engine st); world := world st |}
    = (Ok pts, st1)
    /\ let rec :=
         {| r_type := "full_scan";
            r_start_wavelength := start_wl;
            r_end_wavelength := end_wl;
            r_step_size := WAVELENGTH_STEP;
            r_data := pts;
            r_timestamp := isoformat lib (now (world st1));
            r_sample_present := sample_present (engine st) |} in
       let e1 := set_scan_history (scan_history (engine st) ++ [rec])
                   (set_is_scanning false (engine st1)) in
       scan_full_range env lib (Some start_wl) (Some end_wl) st
       = (Ok rec,
          {| engine := if sample_present (engine st)
                       then set_sample_spectrum (spectrum_of pts) e1
                       else e1;
             world := world st1 |}).
Proof.
  intros Hon Hs He Hlt.
  destruct (scan_loop_spec env lib start_wl (py_range (num_points start_wl end_wl)) []
              {| engine := set_is_scanning true (engine st); world := world st |} Hon)
    as (pts & st1 & Hrun & Hframe & _).
  cbn [app] in Hrun. exists pts, st1. split; [exact Hrun |].
  cbv zeta.
  unfold scan_full_range. rewrite bind_gets, Hon. cbn [negb].
  cbv beta iota zeta. rewrite Hs, He, Hlt. cbn [negb].
  rewrite bind_modify.
  fold (num_points start_wl end_wl).
  rewrite (bind_ok _ _ _ _ _ Hrun).
  rewrite bind_modify. unfold datetime_now_isoformat.
  unfold bind at 1. cbn [engine world].
  run_py. cbn [engine world set_is_scanning set_scan_history sample_present
                 scan_history].
  cbn [engine world set_is_scanning] in Hframe.
  unfold scan_frame in Hframe. cbn in Hframe.
  injection Hframe as Ht Hc Hl Hsp Hr Hss Hb Hcd Hh Hk.
  rewrite Hsp, Hh.
  destruct (sample_present (engine st)); run_py; reflexivity.
Qed.

End ScanEffect.

Section ScanBookkeeping.

Variable env : Env.
Variable lib : Lib.

(** Everything the lemmas above say about one returning scan. *)
Lemma scan_run_facts (a b : option Q) (st st' : State) (rec : ScanRecord) :
  scan_full_range env lib a b st = (Ok rec, st') ->
  exists st1,
    is_lamp_on (engine st) = true
    /\ start_of a < end_of b
    /\ in_limits (start_of a) = true
    /\ in_limits (end_of b) = true
    /\ scan_frame (engine st1) = scan_frame (engine st)
    /\ files (world st1) = files (world st)
    /\ map m_wavelength (r_data rec)
       = map (point_wavelength (start_of a))
           (firstn (List.length (r_data rec))
              (py_range (num_points (start_of a) (end_of b))))
    /\ current_wavelength (engine st1)
       = last (map m_wavelength (r_data rec)) (current_wavelength (engine st))
    /\ Forall (fun m => m_sample_present m = sample_present (engine st)) (r_data rec)
    /\ r_data rec <> []
    /\ rec = {| r_type := "full_scan";
                r_start_wavelength := start_of a;
                r_end_wavelength := end_of b;
                r_step_size := WAVELENGTH_STEP;
                r_data := r_data rec;
                r_timestamp := isoformat lib (now (world st1));
                r_sample_present := sample_present (engine st) |}
    /\ st' = {| engine :=
                  (let e1 := set_scan_history (scan_history (engine st) ++ [rec])
                               (set_is_scanning false (engine st1)) in
                   if sample_present (engine st)
                   then set_sample_spectrum (spectrum_of (r_data rec)) e1
                   else e1);
                world := world st1 |}.
Proof.
  rewrite scan_full_range_defaults. intros Hrun.
  destruct (scan_full_range_ok_inv _ _ _ _ _ _ _ Hrun) as (Hon & Hs & He & Hlt).
  destruct (scan_full_range_effect env lib _ _ st Hon Hs He Hlt)
    as (pts & st1 & Hloop & Heff).
  cbv zeta in Heff. rewrite Hrun in Heff. injection Heff as Hrec Hst.
  set (st0 := {| engine := set_is_scanning true (engine st); world := world st |})
    in *.
  destruct (scan_loop_spec env lib (start_of a)
              (py_range (num_points (start_of a) (end_of b))) [] st0 Hon)
    as (pts1 & st2 & Hloop1 & Hframe & Hfiles & Hwls & _).
  cbn [app] in Hloop1. rewrite Hloop in Hloop1. injection Hloop1 as <- <-.
  destruct (scan_loop_position env lib (start_of a)
              (py_range (num_points (start_of a) (end_of b))) [] st0 Hon)
    as (pts2 & st3 & Hloop2 & Hcur & Hflags & Hne).
  cbn [app] in Hloop2. rewrite Hloop in Hloop2. injection Hloop2 as <- <-.
  assert (Hdata : r_data rec = pts) by (rewrite Hrec; reflexivity).
  exists st1. rewrite Hdata.
  split; [exact Hon |].
  split; [apply Qle_bool_false_iff; exact Hlt |].
  split; [exact Hs |]. split; [exact He |].
  split; [exact Hframe |]. split; [exact Hfiles |].
  split; [exact Hwls |]. split; [exact Hcur |]. split; [exact Hflags |].
  split.
  - apply Hne; [reflexivity |].
    unfold py_range, num_points.
    assert (Hq : 0 <= (end_of b - start_of a) / WAVELENGTH_STEP).
    { apply Qle_bool_false_iff in Hlt. unfold WAVELENGTH_STEP.
      apply Qle_shift_div_l; lra. }
    rewrite (py_int_floor _ Hq).
    assert (Hz : (0 <= Qfloor ((end_of b - start_of a) / WAVELENGTH_STEP))%Z).
    { rewrite <- (Qfloor_Z 0). apply Qfloor_resp_le. exact Hq. }
    destruct (Z.to_nat _) eqn:Hn; [lia | discriminate].
  - split; [exact Hrec |]. rewrite Hst, <- Hrec. reflexivity.
Qed.

End ScanBookkeeping.

(** X3. Every scan that returns, whether it ran to its end or was stopped,
    appends exactly one record to [scan_history], the record it returns; the
    record holds the bounds scanned, the step and the [sample_present] flag of
    the run; [is_scanning] is cleared.  The scan writes nothing else than
    [sample_spectrum] and the wavelength: the reference and background spectra,
    the calibration, the kinetic data, the flags, the target wavelength and
    the files are as before. *)
Theorem scan_records_history (env : Env) (lib : Lib)
    (a b : option Q) (st st' : State) (rec : ScanRecord) :
  scan_full_range env lib a b st = (Ok rec, st') ->
  scan_history (engine st') = scan_history (engine st) ++ [rec]
  /\ r_type rec = "full_scan"%string
  /\ r_start_wavelength rec = start_of a
  /\ r_end_wavelength rec = end_of b
  /\ r_step_size rec = WAVELENGTH_STEP
  /\ r_sample_present rec = sample_present (engine st)
  /\ is_scanning (engine st') = false
  /\ (target_wavelength (engine st'), is_calibrated (engine st'),
      is_lamp_on (engine st'), sample_present (engine st'))
     = (target_wavelength (engine st), is_calibrated (engine st),
        is_lamp_on (engine st), sample_present (engine st))
  /\ (reference_spectrum (engine st'), background_spectrum (engine st'),
      calibration_data (engine st'), kinetic_data (engine st'))
     = (reference_spectrum (engine st), background_spectrum (engine st),
        calibration_data (engine st), kinetic_data (engine st))
  /\ files (world st') = files (world st).
Proof.
  intros Hrun.
  destruct (scan_run_facts env lib a b st st' rec Hrun)
    as (st1 & _ & _ & _ & _ & Hframe & Hfiles & _ & _ & _ & _ & Hrec & Hst).
  unfold scan_frame in Hframe.
  injection Hframe as Ht Hc Hl Hsp Hr Hss Hb Hcd Hh Hk.
  assert (Hfields : r_type rec = "full_scan"%string
                    /\ r_start_wavelength rec = start_of a
                    /\ r_end_wavelength rec = end_of b
                    /\ r_step_size rec = WAVELENGTH_STEP
                    /\ r_sample_present rec = sample_present (engine st)).
  { rewrite Hrec. repeat split. }
  destruct Hfields as (F1 & F2 & F3 & F4 & F5).
  assert (Heng : forall f : Engine -> Engine,
             (f = (fun e => e) \/ f = set_sample_spectrum (spectrum_of (r_data rec))) ->
             let e' := f (set_scan_history (scan_history (engine st) ++ [rec])
                            (set_is_scanning false (engine st1))) in
             scan_history e' = scan_history (engine st) ++ [rec]
             /\ is_scanning e' = false
             /\ (target_wavelength e', is_calibrated e', is_lamp_on e', sample_present e')
                = (target_wavelength (engine st), is_calibrated (engine st),
                   is_lamp_on (engine st), sample_present (engine st))
             /\ (reference_spectrum e', background_spectrum e',
                 calibration_data e', kinetic_data e')
                = (reference_spectrum (engine st), background_spectrum (engine st),
                   calibration_data (engine st), kinetic_data (engine st))).
  { intros f [-> | ->]; cbn; rewrite Ht, Hc, Hl, Hsp, Hr, Hb, Hcd, Hk;
      repeat split. }
  rewrite Hst. cbv zeta. cbn [engine world].
  destruct (sample_present (engine st)) eqn:Hp.
  - destruct (Heng _ (or_intror eq_refl)) as (E1 & E2 & E3 & E4).
    auto 12.
  - destruct (Heng _ (or_introl eq_refl)) as (E1 & E2 & E3 & E4).
    auto 12.
Qed.

(** X3 on a scan stopped after two points: the history grows by the record
    returned. *)
Lemma scan_records_history_witness :
  exists rec st',
    scan_full_range stopping_env demo_lib (Some 400) (Some 410) sample_state
      = (Ok rec, st')
    /\ scan_history (engine st') = [rec]
    /\ is_scanning (engine st') = false.
Proof.
  destruct (scan_full_range stopping_env demo_lib (Some 400) (Some 410) sample_state)
    as [[rec | e] st'] eqn:E.
  - destruct (scan_records_history _ _ _ _ _ _ _ E)
      as (Hh & _ & _ & _ & _ & _ & Hs & _).
    exists rec, st'. split; [reflexivity |]. split; [exact Hh | exact Hs].
  - vm_compute in E. discriminate.
Defined.



(** *** Absorbance and concentration *)

(** X5. [measure_absorbance] never changes the state.  It raises the
    not-ready error about the reference when [reference_spectrum] is empty
    (whatever the sample spectrum holds), and the one about the sample when
    only [sample_spectrum] is empty; otherwise it returns at most one result
    per item of the sample spectrum. *)
Theorem measure_absorbance_not_ready (lib : Lib) (st : State) :
  snd (measure_absorbance lib st) = st
  /\ (reference_spectrum (engine st) = [] ->
      fst (measure_absorbance lib st)
      = Raise (RuntimeError "No reference spectrum available. Run calibration first."))
  /\ (reference_spectrum (engine st) <> [] ->
      sample_spectrum (engine st) = [] ->
      fst (measure_absorbance lib st)
      = Raise (RuntimeError "No sample spectrum available. Scan a sample first."))
  /\ (reference_spectrum (engine st) <> [] ->
      sample_spectrum (engine st) <> [] ->
      exists results,
        fst (measure_absorbance lib st) = Ok results
        /\ (List.length results <= List.length (sample_spectrum (engine st)))%nat).
Proof.
  unfold measure_absorbance. rewrite bind_gets.
  destruct (reference_spectrum (engine st)) as [| r reference] eqn:Er;
    cbn [Dict.truthy negb].
  - repeat split; try reflexivity; intros H; contradiction.
  - rewrite bind_gets.
    destruct (sample_spectrum (engine st)) as [| s sample] eqn:Es;
      cbn [Dict.truthy negb].
    + repeat split; try reflexivity; try discriminate.
      intros _ H. contradiction.
    + unfold ret. cbn [fst snd].
      split; [reflexivity |]. split; [discriminate |].
      split; [intros _ H; discriminate |]. intros _ _.
      eexists. split; [reflexivity |].
      rewrite fold_left_append. cbn [app].
      generalize (s :: sample). intros l.
      induction l as [| [wl v] l IH]; cbn [flat_map List.length]; [apply Nat.le_refl |].
      rewrite length_app. unfold absorbance_entry at 1.
      destruct (Dict.get wl (r :: reference)) as [ri |]; cbn [List.length]; [| lia].
      destruct (Qlt_bool 0 ri); cbn [List.length]; lia.
Qed.

(** X5 on the fresh engine (no reference) and on an engine that has a
    reference but no sample scan. *)
Lemma measure_absorbance_not_ready_witness :
  fst (measure_absorbance demo_lib fresh_state)
  = Raise (RuntimeError "No reference spectrum available. Run calibration first.")
  /\ fst (measure_absorbance demo_lib
            {| engine := set_reference_spectrum [(Dict.KNum 500, 100)]
                           (new_engine "2024-01-01T00:00:00");
               world := fresh_world |})
     = Raise (RuntimeError "No sample spectrum available. Scan a sample first.").
Proof.
  split.
  - apply (proj1 (proj2 (measure_absorbance_not_ready demo_lib fresh_state))).
    reflexivity.
  - apply (proj1 (proj2 (proj2 (measure_absorbance_not_ready demo_lib _)))).
    + discriminate.
    + reflexivity.
Defined.



(** *** Auto-zero *)

(** X7. [auto_zero] with the lamp off raises the not-ready error of the
    measurement and leaves the state as it is.  With the lamp on it returns
    [True] and records one reading, of intensity at least 0, in
    [background_spectrum] under the current wavelength; the entries of the
    background at other wavelengths keep their values, and nothing else of the
    engine changes. *)
Theorem auto_zero_records_background (env : Env) (lib : Lib) (st : State) :
  (is_lamp_on (engine st) = false ->
     auto_zero env lib st
     = (Raise (RuntimeError "Lamp is off. Cannot measure."), st))
  /\ (is_lamp_on (engine st) = true ->
      exists v st',
        auto_zero env lib st = (Ok true, st')
        /\ 0 <= v
        /\ Dict.get (Dict.KNum (current_wavelength (engine st)))
             (background_spectrum (engine st')) = Some v
        /\ (forall k,
              Dict.key_eqb (Dict.KNum (current_wavelength (engine st))) k = false ->
              Dict.get k (background_spectrum (engine st'))
              = Dict.get k (background_spectrum (engine st)))
        /\ instrument_flags (engine st') = instrument_flags (engine st)
        /\ (reference_spectrum (engine st'), sample_spectrum (engine st'),
            calibration_data (engine st'), scan_history (engine st'),
            kinetic_data (engine st'))
           = (reference_spectrum (engine st), sample_spectrum (engine st),
              calibration_data (engine st), scan_history (engine st),
              kinetic_data (engine st))).
Proof.
  unfold auto_zero. split.
  - intros Hoff.
    rewrite (bind_raise _ _ _ _ _ (measure_single_lamp_off env lib st Hoff)).
    reflexivity.
  - intros Hon.
    destruct (measure_single_lamp_on env lib st Hon)
      as (m & w' & Hm & _ & _ & _ & Hnn).
    rewrite (bind_ok _ _ _ _ _ Hm). run_py. unfold ret. cbn [engine world].
    exists (m_intensity m). eexists. split; [reflexivity |]. cbn [engine].
    split; [exact Hnn |]. cbn [background_spectrum set_background_spectrum].
    split.
    { rewrite get_set, key_eqb_refl. reflexivity. }
    split.
    { intros k Hk. rewrite get_set, Hk. reflexivity. }
    split; reflexivity.
Qed.

(** X7 on the fresh engine (lamp off) and on the engine with its lamp on, at
    450 nm. *)
Lemma auto_zero_records_background_witness :
  auto_zero quiet_env demo_lib fresh_state
  = (Raise (RuntimeError "Lamp is off. Cannot measure."), fresh_state)
  /\ exists v st',
       auto_zero quiet_env demo_lib lamp_on_state = (Ok true, st')
       /\ Dict.get (Dict.KNum 450) (background_spectrum (engine st')) = Some v.
Proof.
  split.
  - apply (proj1 (auto_zero_records_background quiet_env demo_lib fresh_state)).
    reflexivity.
  - destruct (proj2 (auto_zero_records_background quiet_env demo_lib lamp_on_state)
                eq_refl) as (v & st' & Hrun & _ & Hget & _).
    exists v, st'. split; [exact Hrun | exact Hget].
Defined.

(** *** Kinetic runs *)

Section KineticRuns.

Variable env : Env.
Variable lib : Lib.

(** The loop of a kinetic scan that returns: it has appended samples to the
    data it was given; sample [i] of those carries the time index
    [(taken + i) * interval], the wavelength the engine stands at and no
    absorbance; the engine is as before, except that [is_scanning] may have
    been cleared. *)
Lemma kinetic_loop_shape (duration interval start_time : Q) (fuel : nat) :
  forall (kd : list KineticSample) (taken : nat) (st st' : State)
         (data : list KineticSample),
    kinetic_loop env lib fuel duration interval start_time kd taken st
    = Some (Ok data, st') ->
    exists new,
      data = kd ++ new
      /\ (forall i s, nth_error new i = Some s ->
            k_time s = of_nat (taken + i) * interval
            /\ k_wavelength s = current_wavelength (engine st)
            /\ k_absorbance s = None)
      /\ (engine st' = engine st \/ engine st' = set_is_scanning false (engine st))
      /\ files (world st') = files (world st).
Proof.
  induction fuel as [| fuel IH]; intros kd taken st st' data; cbn [kinetic_loop];
    [discriminate |].
  destruct (Qlt_bool (now (world st) - start_time) duration
            && is_scanning (engine st)).
  - unfold kinetic_step.
    destruct (is_lamp_on (engine st)) eqn:Hlamp.
    + destruct (measure_single_lamp_on env lib st Hlamp)
        as (m & w1 & Hm & (_ & _ & Hfiles) & Hwl & _).
      rewrite (bind_ok _ _ _ _ _ Hm).
      destruct (Qlt_bool interval 0) eqn:Hint.
      * unfold time_sleep at 1. unfold bind at 1. cbn [engine world].
        unfold time_sleep. rewrite Hint. discriminate.
      * rewrite (bind_ok _ _ _ _ _ (time_sleep_ok env interval _ Hint)).
        unfold ret. intros Hrun.
        apply IH in Hrun. destruct Hrun as (new & Hdata & Hnew & Heng & Hf).
        cbn [engine world files] in *.
        eexists (_ :: new). split; [rewrite Hdata, <- app_assoc; reflexivity |].
        assert (Hcur : current_wavelength
                         (after_sleep env {| engine := engine st; world := w1 |})
                       = current_wavelength (engine st)).
        { match goal with
          | |- context [after_sleep env ?s] =>
              destruct (after_sleep_cases env s) as [H | H]; rewrite H; reflexivity
          end. }
        split; [| split].
        -- intros [| i] s Hs; cbn [nth_error] in Hs.
           ++ injection Hs as <-. cbn. rewrite Nat.add_0_r.
              repeat split. exact Hwl.
           ++ destruct (Hnew i s Hs) as (H1 & H2 & H3).
              rewrite H1, H2, Hcur. rewrite Nat.add_succ_r.
              split; [reflexivity |]. split; [reflexivity | exact H3].
        -- match type of Heng with
           | context [after_sleep env ?s] =>
               destruct (after_sleep_cases env s) as [H | H];
                 rewrite H in Heng; cbn [engine] in Heng
           end; destruct Heng as [-> | ->]; auto.
        -- rewrite Hf. exact Hfiles.
    + rewrite (bind_raise _ _ _ _ _ (measure_single_lamp_off env lib st Hlamp)).
      discriminate.
  - intros Hrun. injection Hrun as <- <-.
    exists []. rewrite app_nil_r. split; [reflexivity |].
    split; [intros [| i] s Hs; discriminate |]. auto.
Qed.

End KineticRuns.

(** X8. A kinetic scan that returns has replaced [kinetic_data] by the
    sequence it returns (what was there before is gone) and cleared
    [is_scanning].  Sample [i] carries the time index [i * interval], the
    wavelength the engine stands at, and no absorbance.  The scan changes
    nothing else: position, lamp, sample and calibration flags, the spectra,
    the calibration, the scan history and the files are as before. *)
Theorem kinetic_scan_overwrites (env : Env) (lib : Lib) (fuel : nat)
    (duration interval : Q) (st st' : State) (data : list KineticSample) :
  kinetic_scan env lib fuel duration interval st = Some (Ok data, st') ->
  kinetic_data (engine st') = data
  /\ is_scanning (engine st') = false
  /\ (forall i s, nth_error data i = Some s ->
        k_time s = of_nat i * interval
        /\ k_wavelength s = current_wavelength (engine st)
        /\ k_absorbance s = None)
  /\ (current_wavelength (engine st'), target_wavelength (engine st'),
      is_calibrated (engine st'), is_lamp_on (engine st'), sample_present (engine st'))
     = (current_wavelength (engine st), target_wavelength (engine st),
        is_calibrated (engine st), is_lamp_on (engine st), sample_present (engine st))
  /\ stored_data (engine st') = stored_data (engine st)
  /\ scan_history (engine st') = scan_history (engine st)
  /\ files (world st') = files (world st).
Proof.
  unfold kinetic_scan. rewrite bind_modify. unfold time_time. cbn [engine world].
  destruct (kinetic_loop _ _ _ _ _ _ _ _ _) as [[[kd | e] st2] |] eqn:Hl;
    try discriminate.
  run_py. unfold ret. intros Hrun. injection Hrun as <- <-.
  destruct (kinetic_loop_shape env lib _ _ _ _ _ _ _ _ _ Hl)
    as (new & Hdata & Hnew & Heng & Hfiles).
  cbn [app] in Hdata. subst new. cbn [engine world] in *.
  split; [reflexivity |]. split; [reflexivity |]. split; [exact Hnew |].
  destruct Heng as [-> | ->]; repeat split; exact Hfiles.
Qed.

(** X8 on a run of 3 s sampled every second, over older kinetic data. *)
Lemma kinetic_scan_overwrites_witness :
  exists data st',
    kinetic_scan quiet_env demo_lib 10 3 1 lamp_on_state = Some (Ok data, st')
    /\ kinetic_data (engine st') = data
    /\ map k_time data = [of_nat 0 * 1; of_nat 1 * 1; of_nat 2 * 1].
Proof.
  destruct (kinetic_scan quiet_env demo_lib 10 3 1 lamp_on_state)
    as [[[data | e] st'] |] eqn:E.
  - destruct (kinetic_scan_overwrites _ _ _ _ _ _ _ _ E) as (Hk & _).
    exists data, st'. split; [reflexivity |]. split; [exact Hk |].
    vm_compute in E. injection E as <- _. reflexivity.
  - vm_compute in E. discriminate.
  - vm_compute in E. discriminate.
Defined.

(** X9. A kinetic scan of a duration that is not positive takes no
    measurement: also with the lamp off it raises nothing, returns the empty
    sequence, and [kinetic_data] is emptied. *)
Theorem kinetic_scan_nonpositive_duration (env : Env) (lib : Lib) (fuel : nat)
    (duration interval : Q) (st : State) :
  duration <= 0 ->
  exists st',
    kinetic_scan env lib (S fuel) duration interval st = Some (Ok [], st')
    /\ kinetic_data (engine st') = []
    /\ is_scanning (engine st') = false
    /\ world st' = world st.
Proof.
  intros Hd. unfold kinetic_scan. rewrite bind_modify. unfold time_time.
  cbn [engine world kinetic_loop].
  assert (Hc : Qlt_bool (now (world st) - now (world st)) duration = false).
  { apply Qlt_bool_false_iff. lra. }
  rewrite Hc. cbn [andb]. run_py. unfold ret.
  eexists. split; [reflexivity |]. repeat split.
Qed.

(** X9 on the fresh engine, lamp off, holding older kinetic data. *)
Lemma kinetic_scan_nonpositive_duration_witness :
  exists st',
    kinetic_scan quiet_env demo_lib 1 0 1
      {| engine := set_kinetic_data
                     [ {| k_time := 0; k_wavelength := 450; k_intensity := 1;
                          k_absorbance := None |} ]
                     (new_engine "2024-01-01T00:00:00");
         world := fresh_world |}
    = Some (Ok [], st')
    /\ kinetic_data (engine st') = [].
Proof.
  destruct (kinetic_scan_nonpositive_duration quiet_env demo_lib 0 0 1
              {| engine := set_kinetic_data
                             [ {| k_time := 0; k_wavelength := 450; k_intensity := 1;
                                  k_absorbance := None |} ]
                             (new_engine "2024-01-01T00:00:00");
                 world := fresh_world |})
    as (st' & H1 & H2 & _).
  - discriminate.
  - exists st'. split; [exact H1 | exact H2].
Defined.

Section KineticCount.

Variable env : Env.
Variable lib : Lib.

Hypothesis quiet : forall k, stop_request env k = false.

(** The loop of a kinetic scan nobody interrupts, with the clock it reads:
    it stops at the first turn at which the time slept reaches the
    duration. *)
Lemma kinetic_loop_count (duration interval start_time : Q) (fuel : nat) :
  forall (kd : list KineticSample) (taken : nat) (st st' : State)
         (data : list KineticSample),
    is_scanning (engine st) = true ->
    now (world st) - start_time == of_nat taken * interval ->
    kinetic_loop env lib fuel duration interval start_time kd taken st
    = Some (Ok data, st') ->
    exists n,
      List.length data = (List.length kd + n)%nat
      /\ duration <= of_nat (taken + n) * interval
      /\ ((0 < n)%nat -> of_nat (taken + n - 1) * interval < duration).
Proof.
  induction fuel as [| fuel IH]; intros kd taken st st' data Hscan Hclock;
    cbn [kinetic_loop]; [discriminate |].
  rewrite Hscan, andb_true_r.
  destruct (Qlt_bool (now (world st) - start_time) duration) eqn:Hcond.
  - apply Qlt_bool_iff in Hcond. unfold kinetic_step.
    destruct (is_lamp_on (engine st)) eqn:Hlamp.
    + destruct (measure_single_lamp_on env lib st Hlamp)
        as (m & w1 & Hm & (Hnow & _ & _) & _).
      rewrite (bind_ok _ _ _ _ _ Hm).
      destruct (Qlt_bool interval 0) eqn:Hint.
      * unfold bind at 1. unfold time_sleep. rewrite Hint. discriminate.
      * rewrite (bind_ok _ _ _ _ _ (time_sleep_ok env interval _ Hint)).
        unfold ret. intros Hrun. apply IH in Hrun.
        -- destruct Hrun as (n & Hlen & Hhi & Hlo).
           exists (S n). rewrite length_app in Hlen. cbn [List.length] in Hlen.
           split; [lia |].
           replace (taken + S n)%nat with (S taken + n)%nat by lia.
           split; [exact Hhi |]. intros _.
           destruct n as [| n].
           ++ replace (S taken + 0 - 1)%nat with taken by lia.
              rewrite <- Hclock. exact Hcond.
           ++ apply Hlo. lia.
        -- cbn [engine]. rewrite (after_sleep_quiet env _ quiet). exact Hscan.
        -- cbn [world now]. rewrite Hnow, of_nat_succ.
           assert (H : (of_nat taken + 1) * interval
                       == of_nat taken * interval + interval) by ring.
           rewrite H, <- Hclock. ring.
    + rewrite (bind_raise _ _ _ _ _ (measure_single_lamp_off env lib st Hlamp)).
      discriminate.
  - apply Qlt_bool_false_iff in Hcond. intros Hrun. injection Hrun as <- <-.
    exists 0%nat. rewrite !Nat.add_0_r. split; [reflexivity |].
    split; [rewrite <- Hclock; exact Hcond | lia].
Qed.

(** X10. On the engine's clock, which advances by the sleeps only, a kinetic
    scan that nobody interrupts and that returns has taken the least number [n]
    of samples with [n * interval >= duration]: one sample per interval until
    the duration is covered. *)
Theorem kinetic_scan_sample_count (fuel : nat) (duration interval : Q)
    (st st' : State) (data : list KineticSample) :
  kinetic_scan env lib fuel duration interval st = Some (Ok data, st') ->
  duration <= of_nat (List.length data) * interval
  /\ (data <> [] -> of_nat (List.length data - 1) * interval < duration).
Proof.
  unfold kinetic_scan. rewrite bind_modify. unfold time_time. cbn [engine world].
  destruct (kinetic_loop _ _ _ _ _ _ _ _ _) as [[[kd | e] st2] |] eqn:Hl;
    try discriminate.
  run_py. unfold ret. intros Hrun. injection Hrun as <- _.
  apply kinetic_loop_count in Hl.
  - destruct Hl as (n & Hlen & Hhi & Hlo). cbn in Hlen, Hhi, Hlo. subst n.
    split; [exact Hhi |]. intros Hne. apply Hlo.
    destruct kd; [contradiction | cbn; lia].
  - reflexivity.
  - cbn [world]. change (of_nat 0) with 0. ring.
Qed.

End KineticCount.

(** X10 on a run of 2.5 s sampled every second: three samples, since two
    intervals do not cover the duration. *)
Lemma kinetic_scan_sample_count_witness :
  exists data st',
    kinetic_scan quiet_env demo_lib 10 (5 # 2) 1 lamp_on_state = Some (Ok data, st')
    /\ List.length data = 3%nat
    /\ (5 # 2) <= of_nat (List.length data) * 1
    /\ of_nat (List.length data - 1) * 1 < (5 # 2).
Proof.
  destruct (kinetic_scan quiet_env demo_lib 10 (5 # 2) 1 lamp_on_state)
    as [[[data | e] st'] |] eqn:E.
  - destruct (kinetic_scan_sample_count quiet_env demo_lib (fun k => eq_refl)
                _ _ _ _ _ _ E) as [Hhi Hlo].
    assert (Hl : List.length data = 3%nat).
    { vm_compute in E. injection E as <- _. reflexivity. }
    exists data, st'. split; [reflexivity |]. split; [exact Hl |].
    split; [exact Hhi |]. apply Hlo. destruct data; [discriminate Hl | discriminate].
  - vm_compute in E. discriminate.
  - vm_compute in E. discriminate.
Defined.

(** *** What a method leaves alone *)

Section Leaves.

Context {A : Type} (f : State -> A).

Lemma leaves_ret {B : Type} (b : B) : leaves f (ret b).
Proof. intros st. reflexivity. Qed.

Lemma leaves_raise {B : Type} (e : exn) : leaves f (@raise B e).
Proof. intros st. reflexivity. Qed.

Lemma leaves_gets {B : Type} (g : Engine -> B) : leaves f (gets g).
Proof. intros st. reflexivity. Qed.

Lemma leaves_bind {B C : Type} (m : M B) (k : B -> M C) :
  leaves f m -> (forall b, leaves f (k b)) -> leaves f (bind m k).
Proof.
  intros Hm Hk st. unfold bind. specialize (Hm st).
  destruct (m st) as [[b | e] st1]; cbn [snd] in *.
  - rewrite (Hk b st1). exact Hm.
  - exact Hm.
Qed.

Lemma leaves_modify (h : Engine -> Engine) :
  (forall e w, f {| engine := h e; world := w |} = f {| engine := e; world := w |}) ->
  leaves f (modify h).
Proof.
  intros H st. unfold modify. cbn [snd]. rewrite H. destruct st. reflexivity.
Qed.

Lemma leaves_try_except {B : Type} (body handler : M B) :
  leaves f body -> leaves f handler -> leaves f (try_except body handler).
Proof.
  intros Hb Hh st. unfold try_except. specialize (Hb st).
  destruct (body st) as [[b | e] st1]; cbn [snd] in *.
  - exact Hb.
  - rewrite (Hh st1). exact Hb.
Qed.

Lemma leaves_try_finally {B : Type} (body : M B) (cleanup : M unit) :
  leaves f body -> leaves f cleanup -> leaves f (try_finally body cleanup).
Proof.
  intros Hb Hc st. unfold try_finally. specialize (Hb st).
  destruct (body st) as [r st1]. specialize (Hc st1). cbn [snd] in *.
  destruct (cleanup st1) as [[u | e] st2]; cbn [snd] in *; congruence.
Qed.

End Leaves.

(** Splits a method into its statements and closes the ones that plainly
    leave the value alone. *)
Ltac leaves_step :=
  first
    [ apply leaves_ret
    | apply leaves_raise
    | apply leaves_gets
    | apply leaves_modify; intros; reflexivity
    | apply leaves_bind; [| intros ?]
    | apply leaves_try_except
    | apply leaves_try_finally
    | match goal with
      | |- leaves _ (match ?x with _ => _ end) => destruct x
      | |- leaves _ (if ?x then _ else _) => destruct x
      | |- leaves _ (let '(_, _) := ?x in _) => destruct x
      end ].

Ltac leaves_auto := unfold preserves; repeat leaves_step.

Section MethodFrames.

Variable env : Env.
Variable lib : Lib.

(** The state [set_wavelength] leaves when it accepts the wavelength. *)
Lemma set_wavelength_accepts (w : Q) (st : State) :
  in_limits w = true ->
  set_wavelength env w st
  = (Ok w,
     {| engine :=
          set_current_wavelength w
            (after_sleep env
               {| engine := set_target_wavelength w (engine st); world := world st |});
        world :=
          {| now := now (world st)
                    + py_min (py_abs (w - current_wavelength (engine st)) / 10) (1 # 10);
             draws := draws (world st);
             sleeps := S (sleeps (world st));
             files := files (world st) |} |}).
Proof.
  intros Hin. unfold set_wavelength. rewrite Hin. cbn [negb]. run_py.
  rewrite (bind_ok _ _ _ _ _ (time_sleep_ok env _ _ (move_delay_nonneg _))).
  run_py. reflexivity.
Qed.

Lemma set_wavelength_refuses (w : Q) (st : State) :
  in_limits w = false ->
  set_wavelength env w st = (Raise (ValueError "Wavelength out of range"), st).
Proof.
  intros Hout. unfold set_wavelength. rewrite Hout. reflexivity.
Qed.

(** A sleep leaves alone whatever does not read [is_scanning] or the
    clock. *)
Lemma leaves_time_sleep {A : Type} (f : State -> A) (d : Q) :
  (forall e w w', files w' = files w -> draws w' = draws w ->
     f {| engine := set_is_scanning false e; world := w' |}
     = f {| engine := e; world := w |}
     /\ f {| engine := e; world := w' |} = f {| engine := e; world := w |}) ->
  leaves f (time_sleep env d).
Proof.
  intros H st. unfold time_sleep. destruct (Qlt_bool d 0); [reflexivity |].
  cbn [snd]. destruct st as [e w]. cbn [engine world].
  destruct (stop_request env (sleeps w)); apply H; reflexivity.
Qed.

(** A measurement leaves alone whatever is read off the engine. *)
Lemma measure_single_preserves {A : Type} (g : Engine -> A) :
  preserves g (measure_single env lib).
Proof.
  intros st. destruct (is_lamp_on (engine st)) eqn:Hlamp.
  - destruct (measure_single_lamp_on env lib st Hlamp) as (m & w' & Hm & _).
    rewrite Hm. reflexivity.
  - rewrite (measure_single_lamp_off env lib st Hlamp). reflexivity.
Qed.

(** The loop of a scan leaves alone what neither the wavelength nor
    [is_scanning] enters. *)
Lemma scan_loop_preserves {A : Type} (g : Engine -> A) (start_wl : Q)
    (indices : list nat) :
  (forall e v, g (set_current_wavelength v e) = g e) ->
  (forall e b, g (set_is_scanning b e) = g e) ->
  forall scan_data, preserves g (scan_loop env lib start_wl indices scan_data).
Proof.
  intros Hcw Hsc. unfold preserves.
  induction indices as [| i rest IH]; intros scan_data; cbn [scan_loop].
  - apply leaves_ret.
  - apply leaves_bind; [apply leaves_gets | intros scanning].
    destruct (negb scanning); [apply leaves_ret |].
    apply leaves_bind; [apply leaves_modify; intros; apply Hcw | intros _].
    apply leaves_bind; [apply (measure_single_preserves g) | intros m].
    apply leaves_bind; [| intros _; apply IH].
    apply leaves_time_sleep. intros e w w' _ _. split; [apply Hsc | reflexivity].
Qed.

Lemma scan_full_range_preserves {A : Type} (g : Engine -> A) (a b : option Q) :
  (forall e v, g (set_current_wavelength v e) = g e) ->
  (forall e v, g (set_is_scanning v e) = g e) ->
  (forall e v, g (set_scan_history v e) = g e) ->
  (forall e v, g (set_sample_spectrum v e) = g e) ->
  preserves g (scan_full_range env lib a b).
Proof.
  intros Hcw Hsc Hh Hss. unfold preserves, scan_full_range.
  apply leaves_bind; [apply leaves_gets | intros lamp].
  destruct (negb lamp); [apply leaves_raise |]. cbv zeta.
  destruct (negb (in_limits _)); [apply leaves_raise |].
  destruct (negb (in_limits _)); [apply leaves_raise |].
  destruct (Qle_bool _ _); [apply leaves_raise |].
  apply leaves_bind; [apply leaves_modify; intros; apply Hsc | intros _].
  apply leaves_bind; [apply (scan_loop_preserves g _ _ Hcw Hsc) | intros data].
  apply leaves_bind; [apply leaves_modify; intros; apply Hsc | intros _].
  apply leaves_bind; [intros st; reflexivity | intros ts].
  apply leaves_bind; [apply leaves_gets | intros sp].
  apply leaves_bind; [apply leaves_gets | intros history].
  apply leaves_bind; [apply leaves_modify; intros; apply Hh | intros _].
  apply leaves_bind; [apply leaves_gets | intros sp'].
  apply leaves_bind; [| intros _; apply leaves_ret].
  destruct sp'; [apply leaves_modify; intros; apply Hss | apply leaves_ret].
Qed.

End MethodFrames.

(** *** The self-test and the start-up *)

Section SelfTestParts.

Variable env : Env.
Variable lib : Lib.

Lemma after_sleep_frame {A : Type} (g : Engine -> A) (st : State) :
  (forall e b, g (set_is_scanning b e) = g e) ->
  g (after_sleep env st) = g (engine st).
Proof.
  intros H. destruct (after_sleep_cases env st) as [E | E]; rewrite E;
    [reflexivity | apply H].
Qed.

(** Moving the wavelength leaves alone what neither wavelength nor
    [is_scanning] enters. *)
Lemma set_wavelength_preserves {A : Type} (g : Engine -> A) (w : Q) :
  (forall e v, g (set_current_wavelength v e) = g e) ->
  (forall e v, g (set_target_wavelength v e) = g e) ->
  (forall e b, g (set_is_scanning b e) = g e) ->
  preserves g (set_wavelength env w).
Proof.
  intros Hc Ht Hs. unfold preserves, set_wavelength.
  destruct (negb (in_limits w)); [apply leaves_raise |].
  apply leaves_bind; [apply leaves_modify; intros; apply Ht | intros _].
  apply leaves_bind; [apply leaves_gets | intros cur].
  apply leaves_bind.
  { apply leaves_time_sleep. intros e w0 w' _ _. split; [apply Hs | reflexivity]. }
  intros _. apply leaves_bind; [apply leaves_modify; intros; apply Hc | intros _].
  apply leaves_gets.
Qed.

Lemma test_wavelength_range_preserves {A : Type} (g : Engine -> A) :
  (forall e v, g (set_current_wavelength v e) = g e) ->
  (forall e v, g (set_target_wavelength v e) = g e) ->
  (forall e b, g (set_is_scanning b e) = g e) ->
  preserves g (_test_wavelength_range env).
Proof.
  intros Hc Ht Hs. unfold preserves, _test_wavelength_range.
  apply leaves_try_except; [| apply leaves_ret].
  apply leaves_bind; [apply leaves_gets | intros original].
  repeat (apply leaves_bind;
          [apply (set_wavelength_preserves g _ Hc Ht Hs) | intros _]).
  apply leaves_ret.
Qed.

(** The wavelength-range check, step by step: it passes exactly when the
    engine stands within the limits; it then stands where it stood, and
    otherwise at the maximum; the target wavelength follows. *)
Lemma test_wavelength_range_trace (st : State) :
  exists st',
    _test_wavelength_range env st
    = (Ok (in_limits (current_wavelength (engine st))), st')
    /\ current_wavelength (engine st')
       = (if in_limits (current_wavelength (engine st))
          then current_wavelength (engine st) else MAX_WAVELENGTH)
    /\ target_wavelength (engine st') = current_wavelength (engine st')
    /\ files (world st') = files (world st)
    /\ draws (world st') = draws (world st).
Proof.
  unfold _test_wavelength_range, try_except. run_py.
  rewrite (bind_ok _ _ _ _ _ (set_wavelength_accepts env MIN_WAVELENGTH st eq_refl)).
  rewrite (bind_ok _ _ _ _ _ (set_wavelength_accepts env MAX_WAVELENGTH _ eq_refl)).
  cbn [engine world].
  set (e2 := set_current_wavelength MAX_WAVELENGTH _).
  set (w2 := Build_World _ _ _ _).
  destruct (in_limits (current_wavelength (engine st))) eqn:Hin.
  - rewrite (bind_ok _ _ _ _ _
               (set_wavelength_accepts env (current_wavelength (engine st))
                  {| engine := e2; world := w2 |} Hin)).
    unfold ret. eexists. split; [reflexivity |]. cbn [engine world].
    split; [reflexivity |]. split.
    { cbn [set_current_wavelength target_wavelength current_wavelength].
      rewrite (after_sleep_frame target_wavelength) by reflexivity. reflexivity. }
    split; reflexivity.
  - rewrite (bind_raise _ _ _ _ _
               (set_wavelength_refuses env (current_wavelength (engine st))
                  {| engine := e2; world := w2 |} Hin)).
    unfold ret. eexists. split; [reflexivity |]. cbn [engine world].
    split; [reflexivity |]. split.
    { unfold e2. cbn [set_current_wavelength target_wavelength current_wavelength].
      rewrite (after_sleep_frame target_wavelength) by reflexivity. reflexivity. }
    split; reflexivity.
Qed.

(** The lamp check switches the lamp on, measures, and switches it off. *)
Lemma test_lamp_trace (st : State) :
  exists m st',
    _test_lamp env lib st = (Ok (Qlt_bool 0 (m_intensity m)), st')
    /\ is_lamp_on (engine st') = false
    /\ files (world st') = files (world st).
Proof.
  unfold _test_lamp, try_except. run_py.
  rewrite (bind_ok _ _ _ _ _ (time_sleep_ok env (1 # 10) _ eq_refl)).
  cbn [engine world].
  match goal with
  | |- context [bind (measure_single env lib) _ ?s] =>
      destruct (measure_single_lamp_on env lib s) as (m & w' & Hm & (_ & _ & Hf) & _)
  end.
  { cbn [engine]. rewrite (after_sleep_frame is_lamp_on) by reflexivity. reflexivity. }
  rewrite (bind_ok _ _ _ _ _ Hm). run_py. unfold ret.
  exists m. eexists. split; [reflexivity |]. cbn [engine world] in *.
  split; [reflexivity | exact Hf].
Qed.

Lemma test_lamp_preserves {A : Type} (g : Engine -> A) :
  (forall e b, g (set_is_lamp_on b e) = g e) ->
  (forall e b, g (set_is_scanning b e) = g e) ->
  preserves g (_test_lamp env lib).
Proof.
  intros Hl Hs. unfold preserves, _test_lamp.
  apply leaves_try_except; [| apply leaves_ret].
  apply leaves_bind; [apply leaves_modify; intros; apply Hl | intros _].
  apply leaves_bind.
  { apply leaves_time_sleep. intros e w0 w' _ _. split; [apply Hs | reflexivity]. }
  intros _. apply leaves_bind; [apply (measure_single_preserves env lib g) | intros m].
  apply leaves_bind; [apply leaves_modify; intros; apply Hl | intros _].
  apply leaves_ret.
Qed.

(** The self-test leaves alone what neither the wavelengths, nor the lamp,
    nor [is_scanning] enter. *)
Lemma perform_self_test_preserves {A : Type} (g : Engine -> A) :
  (forall e v, g (set_current_wavelength v e) = g e) ->
  (forall e v, g (set_target_wavelength v e) = g e) ->
  (forall e b, g (set_is_scanning b e) = g e) ->
  (forall e b, g (set_is_lamp_on b e) = g e) ->
  preserves g (perform_self_test env lib).
Proof.
  intros Hc Ht Hs Hl. unfold preserves, perform_self_test.
  apply leaves_bind;
    [apply (test_wavelength_range_preserves g Hc Ht Hs) | intros t1].
  apply leaves_bind; [apply (test_lamp_preserves g Hl Hs) | intros t2].
  apply leaves_bind.
  { intros st. rewrite test_detector_trace. cbn [snd engine]. apply Hl. }
  intros t3. unfold _test_communication, _test_memory.
  apply leaves_bind; [apply leaves_ret | intros t4].
  apply leaves_bind; [apply leaves_ret | intros t5].
  apply leaves_bind; [intros st; reflexivity | intros ts].
  apply leaves_ret.
Qed.

End SelfTestParts.

(** X11. The wavelength-range check of the self-test passes exactly when the
    engine stands within the instrument limits, and never raises.  When it
    passes, the engine stands where it stood; when it fails, the engine is
    left at the maximum wavelength.  Either way [target_wavelength] is
    overwritten by the wavelength the engine ends at. *)
Theorem test_wavelength_range_restores (env : Env) (st : State) :
  exists st',
    _test_wavelength_range env st
    = (Ok (in_limits (current_wavelength (engine st))), st')
    /\ (wavelength_in_limits (engine st) ->
        in_limits (current_wavelength (engine st)) = true
        /\ current_wavelength (engine st') = current_wavelength (engine st))
    /\ (~ wavelength_in_limits (engine st) ->
        in_limits (current_wavelength (engine st)) = false
        /\ current_wavelength (engine st') = MAX_WAVELENGTH)
    /\ target_wavelength (engine st') = current_wavelength (engine st').
Proof.
  destruct (test_wavelength_range_trace env st) as (st' & Hrun & Hc & Ht & _).
  exists st'. split; [exact Hrun |].
  split; [| split].
  - intros Hin. apply in_limits_iff in Hin. rewrite Hin in Hc. auto.
  - intros Hout.
    destruct (in_limits (current_wavelength (engine st))) eqn:E.
    + apply in_limits_iff in E. contradiction.
    + auto.
  - exact Ht.
Qed.

(** X11 on the fresh engine (at 450 nm, target 450) and on an engine moved
    to 1500 nm from outside. *)
Lemma test_wavelength_range_restores_witness :
  (exists st',
      _test_wavelength_range quiet_env fresh_state = (Ok true, st')
      /\ current_wavelength (engine st') = 450)
  /\ (exists st',
        _test_wavelength_range quiet_env
          {| engine := set_current_wavelength 1500 (new_engine "2024-01-01T00:00:00");
             world := fresh_world |}
        = (Ok false, st')
        /\ current_wavelength (engine st') = MAX_WAVELENGTH).
Proof.
  split.
  - destruct (test_wavelength_range_restores quiet_env fresh_state)
      as (st' & Hrun & Hin & _).
    exists st'. split; [exact Hrun |]. apply Hin. split; discriminate.
  - destruct (test_wavelength_range_restores quiet_env
                {| engine := set_current_wavelength 1500
                               (new_engine "2024-01-01T00:00:00");
                   world := fresh_world |}) as (st' & Hrun & _ & Hout & _).
    exists st'. split; [exact Hrun |]. apply Hout.
    intros [_ H]. apply H. reflexivity.
Defined.

(** The self-test, step by step. *)
Lemma perform_self_test_trace (env : Env) (lib : Lib) (st : State) :
  exists t st',
    perform_self_test env lib st = (Ok t, st')
    /\ passed t
       = (test_wavelength_range t && test_lamp_function t
          && test_detector_response t && test_communication t && test_memory t)
    /\ test_wavelength_range t = in_limits (current_wavelength (engine st))
    /\ test_detector_response t = false
    /\ test_communication t = true
    /\ test_memory t = true
    /\ passed t = false
    /\ is_lamp_on (engine st') = false
    /\ wavelength_in_limits (engine st')
    /\ current_wavelength (engine st')
       = (if in_limits (current_wavelength (engine st))
          then current_wavelength (engine st) else MAX_WAVELENGTH)
    /\ target_wavelength (engine st') = current_wavelength (engine st')
    /\ (is_calibrated (engine st'), sample_present (engine st'),
        stored_data (engine st'), scan_history (engine st'), kinetic_data (engine st'))
       = (is_calibrated (engine st), sample_present (engine st),
          stored_data (engine st), scan_history (engine st), kinetic_data (engine st))
    /\ files (world st') = files (world st).
Proof.
  pose proof (perform_self_test_preserves env lib
                (fun e => (is_calibrated e, sample_present e, stored_data e,
                           scan_history e, kinetic_data e))) as Hframe.
  specialize (Hframe (fun _ _ => eq_refl) (fun _ _ => eq_refl)
                (fun _ _ => eq_refl) (fun _ _ => eq_refl) st).
  cbv beta in Hframe.
  unfold perform_self_test in *.
  destruct (test_wavelength_range_trace env st) as (st1 & H1 & Hc1 & Ht1 & Hf1 & _).
  rewrite (bind_ok _ _ _ _ _ H1) in *.
  destruct (test_lamp_trace env lib st1) as (m & st2 & H2 & _ & Hf2).
  rewrite (bind_ok _ _ _ _ _ H2) in *.
  rewrite (bind_ok _ _ _ _ _ (test_detector_trace env lib st2)) in *.
  unfold _test_communication, _test_memory in *. rewrite !bind_ret in *.
  unfold datetime_now_isoformat in *. unfold bind, ret in *.
  cbn [snd engine world] in *.
  do 2 eexists. split; [reflexivity |].
  cbn [passed test_wavelength_range test_lamp_function test_detector_response
         test_communication test_memory engine world].
  split; [reflexivity |]. split; [reflexivity |]. split; [reflexivity |].
  split; [reflexivity |]. split; [reflexivity |].
  split; [rewrite !andb_false_r; reflexivity |].
  split; [reflexivity |].
  pose proof (test_lamp_preserves env lib
                (fun e => (current_wavelength e, target_wavelength e))
                (fun _ _ => eq_refl) (fun _ _ => eq_refl) st1) as Hc2.
  cbv beta in Hc2. rewrite H2 in Hc2. cbn [snd] in Hc2.
  injection Hc2 as Hcur Htar.
  cbn [set_is_lamp_on current_wavelength target_wavelength].
  split.
  { unfold wavelength_in_limits. cbn [set_is_lamp_on current_wavelength].
    rewrite Hcur, Hc1.
    destruct (in_limits (current_wavelength (engine st))) eqn:E.
    - apply in_limits_iff. exact E.
    - split; discriminate. }
  split; [rewrite Hcur; exact Hc1 |].
  split; [rewrite Hcur, Htar; exact Ht1 |].
  split; [exact Hframe |].
  rewrite Hf2. exact Hf1.
Qed.



(** X13. [initialize] always returns [False] and leaves the lamp off, since
    the self-test it runs never passes.  It resets the calibration to the
    default coefficients (marked not valid) and moves the engine, and the
    target, to the middle of the range; the calibration and sample flags, the
    spectra, the scan history and the kinetic data are untouched. *)
Theorem initialize_outcome (env : Env) (lib : Lib) (st : State) :
  exists st',
    initialize env lib st = (Ok false, st')
    /\ is_lamp_on (engine st') = false
    /\ current_wavelength (engine st') = (MIN_WAVELENGTH + MAX_WAVELENGTH) / 2
    /\ target_wavelength (engine st') = (MIN_WAVELENGTH + MAX_WAVELENGTH) / 2
    /\ calibration_data (engine st')
       = {| wavelength_coeffs := (1 # 1000000, 10001 # 10000, - (5 # 100));
            intensity_coeffs := (1, 0);
            cal_dark_current := dark_current;
            last_calibration := isoformat lib (now (world st));
            calibration_valid := false |}
    /\ (is_calibrated (engine st'), sample_present (engine st'),
        reference_spectrum (engine st'), sample_spectrum (engine st'),
        background_spectrum (engine st'), scan_history (engine st'),
        kinetic_data (engine st'))
       = (is_calibrated (engine st), sample_present (engine st),
          reference_spectrum (engine st), sample_spectrum (engine st),
          background_spectrum (engine st), scan_history (engine st),
          kinetic_data (engine st)).
Proof.
  unfold initialize, _initialize_default_calibration.
  unfold datetime_now_isoformat at 1.
  unfold bind at 2. unfold bind at 1. cbn [modify].
  run_py. cbn [engine world].
  match goal with
  | |- context [bind (perform_self_test env lib) _ ?s] =>
      destruct (perform_self_test_trace env lib s)
        as (t & st1 & Hrun & _ & _ & _ & _ & _ & Hp & Hl & _ & Hc & Ht & Hframe & _)
  end.
  rewrite (bind_ok _ _ _ _ _ Hrun), Hp. run_py. unfold ret.
  eexists. split; [reflexivity |].
  cbn [engine set_is_lamp_on is_lamp_on current_wavelength target_wavelength
         calibration_data is_calibrated sample_present reference_spectrum
         sample_spectrum background_spectrum scan_history kinetic_data] in *.
  unfold stored_data in Hframe.
  cbn [set_target_wavelength set_current_wavelength set_calibration_data
         current_wavelength is_calibrated sample_present reference_spectrum
         sample_spectrum background_spectrum calibration_data scan_history
         kinetic_data] in Hframe, Hc.
  injection Hframe as F1 F2 F3 F4 F5 F6 F7 F8.
  change (in_limits ((MIN_WAVELENGTH + MAX_WAVELENGTH) / 2)) with true in Hc.
  split; [reflexivity |].
  split; [exact Hc |]. split; [rewrite Ht; exact Hc |].
  split; [exact F6 |].
  rewrite F1, F2, F3, F4, F5, F7, F8. reflexivity.
Qed.

(** *** Loading *)

(** X14. [load_data] of a file that does not exist raises and leaves the
    state as it is.  Whatever the file holds and whatever the outcome of the
    call, loading never moves the wavelength or the target, never changes the
    lamp, sample, calibration or scanning flags, and writes no file. *)
Theorem load_data_touches_data_only (filename : string) (st : State) :
  instrument_flags (engine (snd (load_data filename st)))
    = instrument_flags (engine st)
  /\ world (snd (load_data filename st)) = world st
  /\ (find (fun f => String.eqb (fst f) filename) (files (world st)) = None ->
      load_data filename st = (Raise (FileNotFoundError filename), st)).
Proof.
  assert (H : leaves (fun st => (instrument_flags (engine st), world st))
                (load_data filename)).
  { unfold load_data, get_field.
    apply leaves_bind.
    - intros st0. unfold read_file. destruct (find _ _); reflexivity.
    - intros doc. repeat leaves_step. }
  specialize (H st). cbv beta in H.
  split; [exact (f_equal fst H) |]. split; [exact (f_equal snd H) |].
  intros Hnone. unfold load_data, bind, read_file. rewrite Hnone. reflexivity.
Qed.

(** X14 on the fresh engine, which has no files. *)
Lemma load_data_touches_data_only_witness :
  load_data "nowhere.json" fresh_state
  = (Raise (FileNotFoundError "nowhere.json"), fresh_state).
Proof.
  apply (proj2 (proj2 (load_data_touches_data_only "nowhere.json" fresh_state))).
  reflexivity.
Defined.

Section Restoring.

Variable lib : Lib.

(** Loading the document [save_data] wrote for the engine [saved], into any
    engine. *)
Lemma load_saved_document (filename : string) (saved st : State)
    (data : list (string * json)) :
  find (fun f => String.eqb (fst f) filename) (files (world st))
    = Some (filename, JObj data) ->
  member "reference_spectrum" data
    = Some (json_of_spectrum (reference_spectrum (engine saved))) ->
  member "sample_spectrum" data
    = Some (json_of_spectrum (sample_spectrum (engine saved))) ->
  member "background_spectrum" data
    = Some (json_of_spectrum (background_spectrum (engine saved))) ->
  member "calibration_data" data
    = Some (json_of_calibration (calibration_data (engine saved))) ->
  member "recent_scan" data
    = Some (match rev (scan_history (engine saved)) with
            | r :: _ => json_of_scan_record r
            | [] => JNull
            end) ->
  member "kinetic_data" data
    = Some (JArr (map json_of_kinetic_sample (kinetic_data (engine saved)))) ->
  exists st',
    load_data filename st = (Ok true, st')
    /\ reference_spectrum (engine st') = stringified (reference_spectrum (engine saved))
    /\ sample_spectrum (engine st') = stringified (sample_spectrum (engine saved))
    /\ background_spectrum (engine st')
       = stringified (background_spectrum (engine saved))
    /\ calibration_data (engine st') = calibration_data (engine saved)
    /\ kinetic_data (engine st') = kinetic_data (engine saved)
    /\ scan_history (engine st')
       = scan_history (engine st)
         ++ match rev (scan_history (engine saved)) with r :: _ => [r] | [] => [] end.
Proof.
  intros Hfile Href Hsam Hbg Hcal Hscan Hkin.
  unfold load_data, read_file.
  unfold bind at 1. rewrite Hfile. cbn [snd]. unfold get_field.
  rewrite Href, Hsam, Hbg, Hcal, Hscan, Hkin.
  rewrite !spectrum_round_trip, calibration_round_trip.
  unfold kinetic_data_of_json.
  rewrite (all_some_map json_of_kinetic_sample kinetic_sample_of_json _
             kinetic_sample_round_trip).
  run_py.
  destruct (rev (scan_history (engine saved))) as [| r l] eqn:Hrev.
  - cbn [json_truthy]. run_py. unfold ret.
    eexists. split; [reflexivity |]. cbn. rewrite app_nil_r.
    repeat split; reflexivity.
  - change (json_truthy (json_of_scan_record r)) with true. cbv iota.
    rewrite scan_record_round_trip.
    unfold bind at 1. run_py. unfold ret.
    eexists. split; [reflexivity |]. cbn.
    repeat split; reflexivity.
Qed.

End Restoring.

(** X15. What one engine saved, any engine can load: if the file of that
    name is the one [save_data] wrote for the engine [saved], [load_data]
    succeeds in every engine and gives it the calibration and the kinetic data
    of [saved] exactly, and the three spectra of [saved] with their values in
    place under string keys; the last scan record of [saved], if any, is
    appended to the loading engine's own history. *)
Theorem saved_data_loads_anywhere (lib : Lib) (filename : string)
    (saved st : State) :
  find (fun f => String.eqb (fst f) filename) (files (world st))
    = find (fun f => String.eqb (fst f) filename)
        (files (world (snd (save_data lib filename saved)))) ->
  exists st',
    load_data filename st = (Ok true, st')
    /\ reference_spectrum (engine st') = stringified (reference_spectrum (engine saved))
    /\ sample_spectrum (engine st') = stringified (sample_spectrum (engine saved))
    /\ background_spectrum (engine st')
       = stringified (background_spectrum (engine saved))
    /\ calibration_data (engine st') = calibration_data (engine saved)
    /\ kinetic_data (engine st') = kinetic_data (engine saved)
    /\ scan_history (engine st')
       = scan_history (engine st)
         ++ match rev (scan_history (engine saved)) with r :: _ => [r] | [] => [] end.
Proof.
  intros Hfile.
  destruct (save_data_spec lib filename saved)
    as (data & Hsave & Href & Hsam & Hbg & Hcal & Hscan & Hkin).
  rewrite Hsave in Hfile. cbn [snd world files find fst] in Hfile.
  rewrite String.eqb_refl in Hfile.
  apply (load_saved_document filename saved st data); assumption.
Qed.

(** X15 with the fresh engine loading what the engine [stored_state] saved. *)
Lemma saved_data_loads_anywhere_witness :
  exists st',
    load_data "data.json"
      {| engine := engine fresh_state;
         world := world (snd (save_data demo_lib "data.json" stored_state)) |}
    = (Ok true, st')
    /\ reference_spectrum (engine st') = [(Dict.KStr "500.0", 100)].
Proof.
  destruct (saved_data_loads_anywhere demo_lib "data.json" stored_state
              {| engine := engine fresh_state;
                 world := world (snd (save_data demo_lib "data.json" stored_state)) |})
    as (st' & Hrun & Href & _).
  - reflexivity.
  - exists st'. split; [exact Hrun |]. rewrite Href. reflexivity.
Defined.

(** X16. A document that lacks the members of the stored data does not
    leave the engine as it was: loading it succeeds, empties the three spectra
    and the kinetic data, and keeps only the calibration and the scan
    history. *)
Theorem load_data_defaults (filename : string) (st : State)
    (data : list (string * json)) :
  find (fun f => String.eqb (fst f) filename) (files (world st))
    = Some (filename, JObj data) ->
  member "reference_spectrum" data = None ->
  member "sample_spectrum" data = None ->
  member "background_spectrum" data = None ->
  member "calibration_data" data = None ->
  member "recent_scan" data = None ->
  member "kinetic_data" data = None ->
  exists st',
    load_data filename st = (Ok true, st')
    /\ reference_spectrum (engine st') = []
    /\ sample_spectrum (engine st') = []
    /\ background_spectrum (engine st') = []
    /\ kinetic_data (engine st') = []
    /\ calibration_data (engine st') = calibration_data (engine st)
    /\ scan_history (engine st') = scan_history (engine st).
Proof.
  intros Hfile Href Hsam Hbg Hcal Hscan Hkin.
  unfold load_data, read_file.
  unfold bind at 1. rewrite Hfile. cbn [snd]. unfold get_field.
  rewrite Href, Hsam, Hbg, Hcal, Hscan, Hkin. run_py. unfold ret.
  eexists. split; [reflexivity |]. cbn. repeat split; reflexivity.
Qed.

(** X16 on an engine with spectra, loading the empty document [{}]. *)
Lemma load_data_defaults_witness :
  exists st',
    load_data "empty.json"
      {| engine := engine stored_state;
         world := {| now := 0; draws := 0; sleeps := 0;
                     files := [("empty.json"%string, JObj [])] |} |}
    = (Ok true, st')
    /\ reference_spectrum (engine stored_state) = [(Dict.KNum 500, 100)]
    /\ reference_spectrum (engine st') = [].
Proof.
  destruct (load_data_defaults "empty.json"
              {| engine := engine stored_state;
                 world := {| now := 0; draws := 0; sleeps := 0;
                             files := [("empty.json"%string, JObj [])] |} |} [])
    as (st' & Hrun & Href & _); try reflexivity.
  exists st'. split; [exact Hrun |]. split; [reflexivity | exact Href].
Defined.

(** *** Spectra under string keys *)

(** Assigning to a key the dictionary does not have appends the item. *)
Lemma set_fresh {V : Type} (k : Dict.key) (v : V) (d : Dict.dict V) :
  Forall (fun item => Dict.key_eqb (fst item) k = false) d ->
  Dict.set k v d = d ++ [(k, v)].
Proof.
  induction 1 as [| [k0 v0] d H0 Hd IH]; cbn [Dict.set app].
  - reflexivity.
  - cbn [fst] in H0. rewrite H0, IH. reflexivity.
Qed.

(** A comprehension over items of pairwise different names keeps every
    item, in order. *)
Lemma comprehension_distinct (items : list (string * Q)) :
  forall acc : Dict.dict Q,
    NoDup (map fst items) ->
    (forall a i, In a acc -> In i items ->
                 Dict.key_eqb (fst a) (Dict.KStr (fst i)) = false) ->
    fold_left (fun d x => Dict.set (Dict.KStr (fst x)) (snd x) d) items acc
    = acc ++ map (fun i => (Dict.KStr (fst i), snd i)) items.
Proof.
  induction items as [| [s v] items IH]; intros acc Hnd Hacc; cbn [fold_left map].
  - symmetry. apply app_nil_r.
  - cbn [map fst] in Hnd. inversion Hnd as [| ? ? Hnotin Hnd']; subst.
    cbn [fst snd]. rewrite set_fresh.
    + rewrite IH; [rewrite <- app_assoc; reflexivity | exact Hnd' |].
      intros a i Ha Hi. apply in_app_or in Ha. destruct Ha as [Ha | [<- | []]].
      * apply Hacc; [exact Ha | right; exact Hi].
      * cbn [fst Dict.key_eqb]. apply String.eqb_neq. intros ->.
        apply Hnotin. apply (in_map fst) in Hi. exact Hi.
    + rewrite Forall_forall. intros a Ha.
      apply (Hacc a (s, v) Ha). left. reflexivity.
Qed.

(** A spectrum whose keys have pairwise different names comes back from a
    file with its values in place and its keys renamed. *)
Lemma stringified_distinct (d : Dict.dict Q) :
  NoDup (names d) -> stringified d = renamed d.
Proof.
  intros Hnd. unfold stringified, Dict.comprehension, renamed.
  rewrite comprehension_distinct.
  - cbn [app]. rewrite map_map. reflexivity.
  - rewrite map_map. exact Hnd.
  - intros a i [].
Qed.

(** The names of a string-keyed spectrum after an assignment under the
    name [s]. *)
Lemma set_names (s : string) (v : Q) (d : Dict.dict Q) :
  Forall (fun item => is_string_key (fst item)) d ->
  names (Dict.set (Dict.KStr s) v d)
  = if in_dec string_dec s (names d) then names d else names d ++ [s].
Proof.
  induction 1 as [| [k0 v0] d H0 Hd IH]; cbn [Dict.set].
  - reflexivity.
  - destruct k0 as [x | t]; [destruct H0 |]. cbn [Dict.key_eqb].
    destruct (String.eqb t s) eqn:E.
    + apply String.eqb_eq in E. subst t. clear IH.
      change (names ((Dict.KStr s, v) :: d)) with (s :: names d).
      change (names ((Dict.KStr s, v0) :: d)) with (s :: names d).
      destruct (in_dec string_dec s (s :: names d)) as [_ | Hn]; [reflexivity |].
      exfalso. apply Hn. left. reflexivity.
    + apply String.eqb_neq in E.
      change (names ((Dict.KStr t, v0) :: Dict.set (Dict.KStr s) v d))
        with (t :: names (Dict.set (Dict.KStr s) v d)).
      change (names ((Dict.KStr t, v0) :: d)) with (t :: names d).
      rewrite IH.
      destruct (in_dec string_dec s (names d)) as [Hin | Hn];
        destruct (in_dec string_dec s (t :: names d)) as [Hin' | Hn'];
        try reflexivity.
      * exfalso. apply Hn'. right. exact Hin.
      * exfalso. destruct Hin' as [-> | Hin']; [apply E; reflexivity | auto].
Qed.

(** Every spectrum read back from a file has string keys of pairwise
    different names. *)
Lemma stringified_names_nodup (d : Dict.dict Q) : NoDup (names (stringified d)).
Proof.
  unfold stringified, Dict.comprehension.
  generalize (map (fun item : Dict.key * Q => (key_name (fst item), snd item)) d).
  intros l.
  assert (H : forall acc : Dict.dict Q,
             Forall (fun item => is_string_key (fst item)) acc ->
             NoDup (names acc) ->
             Forall (fun item => is_string_key (fst item))
               (fold_left (fun d x => Dict.set (Dict.KStr (fst x)) (snd x) d) l acc)
             /\ NoDup (names
                         (fold_left (fun d x => Dict.set (Dict.KStr (fst x)) (snd x) d)
                            l acc))).
  { induction l as [| x l IH]; intros acc Hstr Hnd; cbn [fold_left].
    - split; assumption.
    - apply IH.
      + apply set_keys; [exact I | exact Hstr].
      + rewrite set_names by exact Hstr.
        destruct (in_dec string_dec (fst x) (names acc)) as [Hin | Hn];
          [exact Hnd |].
        apply NoDup_app; [exact Hnd | repeat constructor; intros [] |].
        intros a Ha [<- | []]. apply Hn, Ha. }
  apply H; constructor.
Qed.

(** A string-keyed spectrum is its own renaming. *)
Lemma renamed_string_keys (d : Dict.dict Q) :
  Forall (fun item => is_string_key (fst item)) d -> renamed d = d.
Proof.
  induction 1 as [| [k0 v0] d H0 Hd IH]; [reflexivity |].
  destruct k0 as [x | t]; [destruct H0 |].
  change (renamed ((Dict.KStr t, v0) :: d)) with ((Dict.KStr t, v0) :: renamed d).
  rewrite IH. reflexivity.
Qed.

(** Writing and reading a spectrum twice is the same as once. *)
Lemma stringified_idempotent (d : Dict.dict Q) :
  stringified (stringified d) = stringified d.
Proof.
  rewrite (stringified_distinct (stringified d) (stringified_names_nodup d)).
  apply renamed_string_keys, stringified_keys.
Qed.

(** X17. The round trip through a file is exact on string keys.  When the
    keys of the three spectra are strings (pairwise different), [save_data]
    followed by [load_data] leaves the spectra and the calibration exactly as
    they were.  The spectra any such round trip leaves are of that kind, so
    the second and every later round trip is exact, whatever the engine held
    at first. *)
Theorem reload_is_exact (lib : Lib) (filename : string) (st : State) :
  (Forall (fun item => is_string_key (fst item))
     (reference_spectrum (engine st) ++ sample_spectrum (engine st)
      ++ background_spectrum (engine st)) ->
   NoDup (names (reference_spectrum (engine st))) ->
   NoDup (names (sample_spectrum (engine st))) ->
   NoDup (names (background_spectrum (engine st))) ->
   exists st',
     (save_data lib filename ;; load_data filename) st = (Ok true, st')
     /\ stored_data (engine st') = stored_data (engine st))
  /\ (exists st1 st2,
        (save_data lib filename ;; load_data filename) st = (Ok true, st1)
        /\ (save_data lib filename ;; load_data filename) st1 = (Ok true, st2)
        /\ stored_data (engine st2) = stored_data (engine st1)).
Proof.
  split.
  - intros Hstr Hr Hs Hb.
    apply Forall_app in Hstr. destruct Hstr as [Hsr Hstr].
    apply Forall_app in Hstr. destruct Hstr as [Hss Hsb].
    destruct (save_then_load lib filename st)
      as (st' & Hrun & E1 & E2 & E3 & E4 & _).
    exists st'. split; [exact Hrun |]. unfold stored_data.
    rewrite E1, E2, E3, E4.
    rewrite !stringified_distinct by assumption.
    rewrite !renamed_string_keys by assumption. reflexivity.
  - destruct (save_then_load lib filename st)
      as (st1 & Hrun1 & E1 & E2 & E3 & E4 & _).
    destruct (save_then_load lib filename st1)
      as (st2 & Hrun2 & F1 & F2 & F3 & F4 & _).
    exists st1, st2. split; [exact Hrun1 |]. split; [exact Hrun2 |].
    unfold stored_data. rewrite F1, F2, F3, F4, E1, E2, E3.
    rewrite !stringified_idempotent. reflexivity.
Qed.

(** X17 on two engines: [reloaded_state], whose keys are strings, comes
    back from the file as it was; [stored_state], whose keys are numbers, is
    stable from its second round trip on. *)
Lemma reload_is_exact_witness :
  (exists st',
     (save_data demo_lib "data.json" ;; load_data "data.json") reloaded_state
       = (Ok true, st')
     /\ stored_data (engine st') = stored_data (engine reloaded_state))
  /\ (exists st1 st2,
        (save_data demo_lib "data.json" ;; load_data "data.json") stored_state
          = (Ok true, st1)
        /\ (save_data demo_lib "data.json" ;; load_data "data.json") st1
           = (Ok true, st2)
        /\ stored_data (engine st2) = stored_data (engine st1)).
Proof.
  split.
  - apply (proj1 (reload_is_exact demo_lib "data.json" reloaded_state)).
    + cbn. repeat constructor.
    + cbn. repeat constructor; cbn; intuition discriminate.
    + cbn. repeat constructor; cbn; intuition discriminate.
    + cbn. constructor.
  - exact (proj2 (reload_is_exact demo_lib "data.json" stored_state)).
Defined.

(** ** The screen and the commands *)

Import PyList Monitor CommandInterface.

(** *** Subscripts *)

Lemma index_of_in_range (len : nat) (i : Z) :
  (0 <= i < Z.of_nat len)%Z -> index_of len i = Some (Z.to_nat i).
Proof.
  intros [H0 H1]. unfold index_of.
  apply Z.leb_le in H0. apply Z.ltb_lt in H1. rewrite H0, H1. reflexivity.
Qed.

Lemma index_of_length (A : Type) (pre : list A) (n : nat) :
  (List.length pre < n)%nat ->
  index_of n (Z.of_nat (List.length pre)) = Some (List.length pre).
Proof.
  intros H. rewrite index_of_in_range by lia. rewrite Nat2Z.id. reflexivity.
Qed.

Lemma update_length {A : Type} (n : nat) (v : A) (l : list A) :
  List.length (update n v l) = List.length l.
Proof.
  revert n. induction l as [| a l IH]; intros [| n]; cbn; try reflexivity.
  rewrite IH. reflexivity.
Qed.

Lemma update_app {A : Type} (pre : list A) (a v : A) (l : list A) :
  update (List.length pre) v (pre ++ a :: l) = pre ++ v :: l.
Proof.
  induction pre as [| p pre IH]; cbn; [reflexivity |]. rewrite IH. reflexivity.
Qed.

Lemma update_update {A : Type} (n : nat) (v w : A) (l : list A) :
  update n w (update n v l) = update n w l.
Proof.
  revert n. induction l as [| a l IH]; intros [| n]; cbn; try reflexivity.
  rewrite IH. reflexivity.
Qed.

Lemma nth_update {A : Type} (n : nat) (v d : A) (l : list A) :
  (n < List.length l)%nat -> nth n (update n v l) d = v.
Proof.
  revert n. induction l as [| a l IH]; intros [| n] H; cbn in *; try lia.
  - reflexivity.
  - apply IH. lia.
Qed.

Lemma update_split {A : Type} (n : nat) (v : A) (l : list A) :
  (n < List.length l)%nat -> update n v l = firstn n l ++ v :: skipn (S n) l.
Proof.
  revert n. induction l as [| a l IH]; intros [| n] H; cbn in *; try lia.
  - reflexivity.
  - rewrite IH by lia. reflexivity.
Qed.

Lemma Forall_update {A : Type} (P : A -> Prop) (n : nat) (v : A) (l : list A) :
  P v -> Forall P l -> Forall P (update n v l).
Proof.
  intros Hv. revert n. induction l as [| a l IH]; intros [| n] H; cbn.
  - constructor.
  - constructor.
  - inversion H; subst. constructor; assumption.
  - inversion H; subst. constructor; [assumption | apply IH; assumption].
Qed.

Lemma Forall_nth_default {A : Type} (P : A -> Prop) (n : nat) (d : A) (l : list A) :
  P d -> Forall P l -> P (nth n l d).
Proof.
  intros Hd. revert n. induction l as [| a l IH]; intros [| n] H; cbn;
    try exact Hd; inversion H; subst; [assumption | apply IH; assumption].
Qed.

(** *** Scrolling *)

(** The loop of [scroll], started at the index after the rows [pre]: every
    later row moves up by one, and the last row stays in place too. *)
Lemma scroll_rows_shift (rest : list (list char)) :
  forall (pre : list (list char)) (a : list char),
    scroll_rows (seq (List.length pre) (List.length rest)) (pre ++ a :: rest)
    = (Done, pre ++ rest ++ [last rest a]).
Proof.
  induction rest as [| r rest IH]; intros pre a.
  - reflexivity.
  - cbn [List.length seq scroll_rows]. unfold scroll_row, getitem, setitem.
    rewrite length_app. cbn [List.length].
    replace (Z.of_nat (List.length pre) + 1)%Z
      with (Z.of_nat (List.length (pre ++ [a]))) by (rewrite length_app; cbn; lia).
    rewrite index_of_length by (rewrite length_app; cbn; lia).
    replace (pre ++ a :: r :: rest) with ((pre ++ [a]) ++ r :: rest)
      by (rewrite <- app_assoc; reflexivity).
    rewrite nth_error_app2 by lia. rewrite Nat.sub_diag. cbn [nth_error].
    rewrite <- app_assoc. cbn [app].
    rewrite index_of_length by lia.
    rewrite update_app.
    replace (pre ++ r :: r :: rest) with ((pre ++ [r]) ++ r :: rest)
      by (rewrite <- app_assoc; reflexivity).
    replace (S (List.length pre)) with (List.length (pre ++ [r]))
      by (rewrite length_app; cbn; lia).
    rewrite IH. rewrite <- app_assoc. cbn [app].
    destruct rest as [| l rest]; [reflexivity |].
    change (last (r :: l :: rest) a) with (last (l :: rest) a).
    rewrite (last_nonempty_default l rest a r). reflexivity.
Qed.

(** [scroll] on a buffer of the size of the screen: the first row goes, a
    blank row comes in at the bottom. *)
Lemma scroll_grid (m : Monitor.t) :
  List.length (buffer m) = Z.to_nat rows ->
  scroll m = (Done, set_buffer (tl (buffer m) ++ [blank_row]) m).
Proof.
  intros Hlen. unfold scroll.
  destruct (buffer m) as [| a rest] eqn:Hb; [discriminate Hlen |].
  cbn [tl]. cbn [List.length] in Hlen.
  assert (Hrest : List.length rest = 39%nat).
  { change (Z.to_nat rows) with 40%nat in Hlen. lia. }
  pose proof (scroll_rows_shift rest [] a) as Hloop.
  cbn [app List.length] in Hloop.
  change (py_range (rows - 1)) with (seq 0 39).
  rewrite <- Hrest, Hloop.
  unfold setitem. rewrite length_app. cbn [List.length].
  change (rows - 1)%Z with (Z.of_nat 39). rewrite <- Hrest.
  rewrite index_of_length by lia.
  rewrite update_app. reflexivity.
Qed.

(** *** Writing *)

Lemma blank_row_length : List.length blank_row = Z.to_nat cols.
Proof. apply repeat_length. Qed.

Lemma blank_row_no_newline : Forall (fun c => c <> newline) blank_row.
Proof.
  unfold blank_row. generalize (Z.to_nat cols). intros n.
  induction n as [| n IH]; cbn; constructor; [discriminate | exact IH].
Qed.

Lemma blank_buffer_grid : grid blank_buffer.
Proof.
  split; [apply repeat_length |].
  unfold blank_buffer. generalize (Z.to_nat rows). intros n.
  induction n as [| n IH]; cbn; constructor; [apply blank_row_length | exact IH].
Qed.

Lemma blank_buffer_no_newline : no_newline blank_buffer.
Proof.
  unfold no_newline, blank_buffer. generalize (Z.to_nat rows). intros n.
  induction n as [| n IH]; cbn; constructor; [apply blank_row_no_newline | exact IH].
Qed.

(** The buffer one scroll leaves is again of the size of the screen. *)
Lemma scrolled_grid (b : list (list char)) :
  grid b -> grid (tl b ++ [blank_row]).
Proof.
  intros [Hlen Hrows]. destruct b as [| a rest]; [discriminate Hlen |].
  cbn [tl]. split.
  - rewrite length_app. cbn in *. lia.
  - apply Forall_app. inversion Hrows; subst. split; [assumption |].
    constructor; [apply blank_row_length | constructor].
Qed.

Lemma scrolled_no_newline (b : list (list char)) :
  no_newline b -> no_newline (tl b ++ [blank_row]).
Proof.
  intros H. apply Forall_app. split.
  - destruct b; [constructor | inversion H; assumption].
  - constructor; [apply blank_row_no_newline | constructor].
Qed.

(** The move to the next line on a screen-sized buffer: below the last
    line the cursor only moves, on the last line the screen scrolls. *)
Lemma next_line_grid (m : Monitor.t) :
  List.length (buffer m) = Z.to_nat rows ->
  next_line m
  = (Done,
     if (cursor_y m + 1 <? rows)%Z then set_cursor 0 (cursor_y m + 1) m
     else set_cursor 0 (rows - 1) (set_buffer (tl (buffer m) ++ [blank_row]) m)).
Proof.
  intros Hlen. unfold next_line. cbn [set_cursor cursor_y].
  rewrite Z.leb_antisym. destruct (cursor_y m + 1 <? rows)%Z; cbn [negb].
  - reflexivity.
  - rewrite scroll_grid by exact Hlen. reflexivity.
Qed.

(** Storing a character at a cursor that is on the screen. *)
Lemma put_grid (c : char) (m : Monitor.t) :
  grid (buffer m) ->
  (0 <= cursor_y m < rows)%Z -> (0 <= cursor_x m < cols)%Z ->
  put c m
  = (Done,
     set_cursor (cursor_x m + 1) (cursor_y m)
       (set_buffer
          (update (Z.to_nat (cursor_y m))
             (update (Z.to_nat (cursor_x m)) c
                (nth (Z.to_nat (cursor_y m)) (buffer m) []))
             (buffer m)) m)).
Proof.
  intros [Hlen Hrows] Hy Hx. unfold put, setitem.
  rewrite index_of_in_range by (rewrite Hlen; change (Z.to_nat rows) with 40%nat;
                                change rows with 40%Z in Hy; lia).
  assert (Hrow : List.length (nth (Z.to_nat (cursor_y m)) (buffer m) []) = Z.to_nat cols).
  { rewrite Forall_forall in Hrows. apply Hrows. apply nth_In.
    rewrite Hlen. change rows with 40%Z in *. lia. }
  rewrite index_of_in_range by (rewrite Hrow; change cols with 80%Z in *; lia).
  reflexivity.
Qed.

Lemma grid_update (b : list (list char)) (n : nat) (row : list char) :
  List.length row = Z.to_nat cols -> grid b -> grid (update n row b).
Proof.
  intros Hrow [Hlen Hrows]. split.
  - rewrite update_length. exact Hlen.
  - apply Forall_update; assumption.
Qed.

Lemma grid_row (b : list (list char)) (n : nat) :
  grid b -> (n < Z.to_nat rows)%nat -> List.length (nth n b []) = Z.to_nat cols.
Proof.
  intros [Hlen Hrows] Hn. rewrite Forall_forall in Hrows. apply Hrows.
  apply nth_In. rewrite Hlen. exact Hn.
Qed.

(** One character on a well-formed monitor: [write] does not fail, and the
    monitor stays well formed, with its colours. *)
Lemma write_char_well_formed (c : char) (m : Monitor.t) :
  well_formed m ->
  exists m',
    write_char c m = (Done, m')
    /\ well_formed m'
    /\ foreground m' = foreground m /\ background m' = background m.
Proof.
  intros (Hgrid & Hnl & Hy & Hx).
  assert (Hnext : exists m1,
             next_line m = (Done, m1)
             /\ well_formed m1 /\ cursor_x m1 = 0%Z
             /\ foreground m1 = foreground m /\ background m1 = background m).
  { rewrite next_line_grid by apply Hgrid.
    destruct (cursor_y m + 1 <? rows)%Z eqn:E; eexists; (split; [reflexivity |]).
    - apply Z.ltb_lt in E.
      split; [| split; [reflexivity | split; reflexivity]].
      split; [exact Hgrid | split; [exact Hnl |]].
      cbn [set_cursor cursor_x cursor_y]. change cols with 80%Z. lia.
    - split; [| split; [reflexivity | split; reflexivity]].
      split; [apply scrolled_grid, Hgrid | split; [apply scrolled_no_newline, Hnl |]].
      cbn [set_cursor set_buffer cursor_x cursor_y].
      change cols with 80%Z. change rows with 40%Z. lia. }
  assert (Hput : forall m1, well_formed m1 -> (cursor_x m1 < cols)%Z ->
                            c <> newline ->
                            exists m',
                              put c m1 = (Done, m')
                              /\ well_formed m'
                              /\ foreground m' = foreground m1
                              /\ background m' = background m1).
  { intros m1 (Hg1 & Hn1 & Hy1 & Hx1) Hlt Hc.
    rewrite put_grid by (try assumption; lia).
    eexists. split; [reflexivity |]. split; [| split; reflexivity].
    unfold well_formed. cbn [set_cursor set_buffer buffer cursor_x cursor_y].
    split; [| split].
    - apply grid_update; [| exact Hg1].
      rewrite update_length. apply grid_row; [exact Hg1 |].
      change rows with 40%Z in *. lia.
    - apply Forall_update; [| exact Hn1].
      apply Forall_update; [exact Hc |].
      apply Forall_nth_default; [constructor | exact Hn1].
    - change rows with 40%Z in *. change cols with 80%Z in *. lia. }
  unfold write_char. destruct (N.eqb c newline) eqn:Ec.
  - destruct Hnext as (m1 & E1 & Hw & _ & Hf & Hb). exists m1. auto.
  - apply N.eqb_neq in Ec. destruct (cols <=? cursor_x m)%Z eqn:Ex.
    + destruct Hnext as (m1 & E1 & Hw & Hx1 & Hf & Hb). rewrite E1.
      destruct (Hput m1 Hw) as (m' & E' & Hw' & Hf' & Hb');
        [rewrite Hx1; reflexivity | exact Ec |].
      exists m'. split; [exact E' |]. split; [exact Hw' |]. split; congruence.
    + apply Z.leb_gt in Ex.
      apply Hput; [repeat split; try assumption; try apply Hgrid; lia | exact Ex | exact Ec].
Qed.

(** The same for a whole text. *)
Lemma write_well_formed (s : text) :
  forall m,
    well_formed m ->
    exists m',
      write s m = (Done, m')
      /\ well_formed m'
      /\ foreground m' = foreground m /\ background m' = background m.
Proof.
  induction s as [| c s IH]; intros m Hw; cbn [write].
  - exists m. auto.
  - destruct (write_char_well_formed c m Hw) as (m1 & E1 & Hw1 & Hf1 & Hb1).
    rewrite E1. destruct (IH m1 Hw1) as (m' & E' & Hw' & Hf' & Hb').
    exists m'. split; [exact E' |]. split; [exact Hw' |]. split; congruence.
Qed.

(** A text without line feed that fits on the rest of the cursor's line is
    stored there, character by character. *)
Lemma write_on_line (s : text) :
  forall m,
    grid (buffer m) ->
    (0 <= cursor_y m < rows)%Z -> (0 <= cursor_x m)%Z ->
    (cursor_x m + Z.of_nat (List.length s) <= cols)%Z ->
    Forall (fun c => c <> newline) s ->
    write s m
    = (Done,
       set_cursor (cursor_x m + Z.of_nat (List.length s)) (cursor_y m)
         (set_buffer
            (update (Z.to_nat (cursor_y m))
               (firstn (Z.to_nat (cursor_x m)) (nth (Z.to_nat (cursor_y m)) (buffer m) [])
                ++ s
                ++ skipn (Z.to_nat (cursor_x m) + List.length s)
                     (nth (Z.to_nat (cursor_y m)) (buffer m) []))
               (buffer m)) m)).
Proof.
  induction s as [| c s IH]; intros m Hgrid Hy Hx Hfit Hs; cbn [write].
  - cbn [List.length app]. rewrite Z.add_0_r, Nat.add_0_r, firstn_skipn.
    f_equal. destruct m as [b x y fg bg]. unfold set_cursor, set_buffer.
    cbn [buffer cursor_x cursor_y foreground background]. f_equal.
    cbn [buffer cursor_y] in Hgrid, Hy. destruct Hgrid as [Hlen _].
    clear - Hlen Hy. change rows with 40%Z in *. change (Z.to_nat 40) with 40%nat in Hlen.
    assert (Hn : (Z.to_nat y < List.length b)%nat) by lia.
    revert Hn. generalize (Z.to_nat y). clear. induction b as [| a b IH]; intros [| n] H;
      cbn in *; try lia; try reflexivity.
    rewrite <- IH by lia. reflexivity.
  - inversion Hs as [| ? ? Hc Hs']; subst.
    cbn [List.length] in Hfit. unfold write_char.
    apply N.eqb_neq in Hc. rewrite Hc.
    assert (Hlt : (cursor_x m < cols)%Z) by lia.
    apply Z.leb_gt in Hlt. rewrite Hlt. apply Z.leb_gt in Hlt.
    rewrite put_grid by (try assumption; lia).
    set (y := Z.to_nat (cursor_y m)). set (x := Z.to_nat (cursor_x m)).
    set (row := nth y (buffer m) []).
    assert (Hy' : (y < Z.to_nat rows)%nat)
      by (subst y; change rows with 40%Z in *; lia).
    assert (Hrow : List.length row = Z.to_nat cols) by (apply grid_row; assumption).
    assert (Hx' : (x < List.length row)%nat)
      by (rewrite Hrow; subst x; change cols with 80%Z in *; lia).
    rewrite IH; cbn [set_cursor set_buffer buffer cursor_x cursor_y];
      [| apply grid_update; [rewrite update_length; exact Hrow | exact Hgrid]
       | exact Hy | lia | lia | exact Hs'].
    fold y. replace (Z.to_nat (cursor_x m + 1)) with (S x) by (subst x; lia).
    rewrite nth_update by (destruct Hgrid as [Hlen _]; rewrite Hlen; exact Hy').
    rewrite update_update.
    rewrite (update_split x c row Hx').
    assert (Hfx : List.length (firstn x row) = x) by (apply firstn_length_le; lia).
    replace (firstn (S x) (firstn x row ++ c :: skipn (S x) row))
      with (firstn x row ++ [c]).
    2:{ replace (firstn x row ++ c :: skipn (S x) row)
          with ((firstn x row ++ [c]) ++ skipn (S x) row)
          by (rewrite <- app_assoc; reflexivity).
        rewrite firstn_app.
        replace (S x - List.length (firstn x row ++ [c]))%nat with 0%nat
          by (rewrite length_app, Hfx; cbn [List.length]; lia).
        rewrite firstn_O, app_nil_r.
        rewrite (@firstn_all2 _ (S x) (firstn x row ++ [c]))
          by (rewrite length_app, Hfx; cbn [List.length]; lia).
        reflexivity. }
    replace (skipn (S x + List.length s) (firstn x row ++ c :: skipn (S x) row))
      with (skipn (x + S (List.length s)) row).
    2:{ replace (firstn x row ++ c :: skipn (S x) row)
          with ((firstn x row ++ [c]) ++ skipn (S x) row)
          by (rewrite <- app_assoc; reflexivity).
        rewrite skipn_app.
        rewrite (skipn_all2 (firstn x row ++ [c]))
          by (rewrite length_app, Hfx; cbn [List.length]; lia).
        cbn [app]. rewrite length_app, Hfx. cbn [List.length].
        rewrite skipn_skipn. f_equal. lia. }
    rewrite <- app_assoc. cbn [app].
    f_equal. unfold set_cursor, set_buffer.
    cbn [buffer cursor_x cursor_y foreground background]. f_equal.
    cbn [List.length]. lia.
Qed.

(** *** Saving and restoring the screen *)

(** The loop of [restore_state] over lines of the width of the screen,
    from the line after [pre] on: each line replaces the row of its index. *)
Lemma restore_lines_grid (lines : list text) :
  forall (pre post : list (list char)) (m : Monitor.t),
    buffer m = pre ++ post ->
    grid (pre ++ post) ->
    List.length post = List.length lines ->
    Forall (fun line => List.length line = Z.to_nat cols) lines ->
    no_newline lines ->
    exists m',
      PreservedPage.restore_lines (Z.of_nat (List.length pre)) lines m = (Done, m')
      /\ buffer m' = pre ++ lines
      /\ foreground m' = foreground m /\ background m' = background m.
Proof.
  induction lines as [| line lines IH]; intros pre post m Hb Hgrid Hlen Hw Hnl.
  - destruct post; [| discriminate Hlen]. exists m. cbn. auto.
  - destruct post as [| r post]; [discriminate Hlen |].
    inversion Hw as [| ? ? Hline Hw']; subst.
    inversion Hnl as [| ? ? Hnl1 Hnl']; subst.
    cbn [PreservedPage.restore_lines].
    assert (Hpre : (List.length pre < 40)%nat).
    { destruct Hgrid as [Hl _]. rewrite length_app in Hl. cbn in Hl.
      change (Z.to_nat rows) with 40%nat in Hl. lia. }
    assert (Hlt : (Z.of_nat (List.length pre) <? rows)%Z = true)
      by (apply Z.ltb_lt; change rows with 40%Z; lia).
    rewrite Hlt.
    rewrite write_on_line; cbn [set_cursor buffer cursor_x cursor_y];
      [| rewrite Hb; exact Hgrid | change rows with 40%Z; lia | lia
       | rewrite Hline; change cols with 80%Z; change (Z.to_nat 80) with 80%nat; lia
       | exact Hnl1].
    rewrite Nat2Z.id. cbn [Z.to_nat firstn app Nat.add].
    rewrite skipn_all2.
    2:{ rewrite Hline. rewrite Hb.
        rewrite (grid_row (pre ++ r :: post) (List.length pre) Hgrid); [lia |].
        change (Z.to_nat rows) with 40%nat. lia. }
    rewrite app_nil_r. rewrite Hb, update_app.
    destruct (IH (pre ++ [line]) post
                (set_cursor (0 + Z.of_nat (List.length line)) (Z.of_nat (List.length pre))
                   (set_buffer (pre ++ line :: post)
                      (set_cursor 0 (Z.of_nat (List.length pre)) m))))
      as (m' & E & Hbuf & Hf & Hbg).
    + cbn [set_cursor set_buffer buffer]. rewrite <- app_assoc. reflexivity.
    + rewrite <- app_assoc. cbn [app].
      rewrite <- (update_app pre r line post).
      apply grid_update; [exact Hline | exact Hgrid].
    + cbn in Hlen. lia.
    + exact Hw'.
    + exact Hnl'.
    + exists m'. split.
      * rewrite <- E. f_equal. rewrite length_app. cbn [List.length]. lia.
      * split; [rewrite Hbuf, <- app_assoc; reflexivity |]. split; assumption.
Qed.

(** X18. The monitor never writes off the screen.  The monitor [__init__]
    makes is well formed (40 rows of 80 cells, no line feed in a cell, the
    cursor on a line and at most one column past its end), [clear] makes any
    monitor well formed, and [scroll] and [write], of any text, keep a
    well-formed monitor well formed: they end normally, without
    [IndexError], and leave the colours alone. *)
Theorem monitor_stays_well_formed :
  well_formed Monitor.init
  /\ (forall m, well_formed (clear m))
  /\ (forall m, well_formed m ->
        exists m', scroll m = (Done, m') /\ well_formed m')
  /\ (forall s m, well_formed m ->
        exists m',
          write s m = (Done, m') /\ well_formed m'
          /\ foreground m' = foreground m /\ background m' = background m).
Proof.
  assert (Hblank : forall x y fg bg,
             (0 <= y < rows)%Z -> (0 <= x <= cols)%Z ->
             well_formed {| buffer := blank_buffer; cursor_x := x; cursor_y := y;
                            foreground := fg; background := bg |}).
  { intros x y fg bg Hy Hx.
    split; [apply blank_buffer_grid | split; [apply blank_buffer_no_newline |]].
    split; assumption. }
  split; [apply Hblank; [change rows with 40%Z | change cols with 80%Z]; lia |].
  split; [intros m; apply Hblank; [change rows with 40%Z | change cols with 80%Z]; lia |].
  split.
  - intros m (Hgrid & Hnl & Hy & Hx). rewrite scroll_grid by apply Hgrid.
    eexists. split; [reflexivity |].
    split; [apply scrolled_grid, Hgrid | split; [apply scrolled_no_newline, Hnl |]].
    split; assumption.
  - intros s m Hw. apply write_well_formed, Hw.
Qed.

(** X18 on the text [ab], a line feed, [c] written to a new monitor. *)
Lemma monitor_stays_well_formed_witness :
  well_formed Monitor.init
  /\ exists m',
       write (text_of "ab" ++ [newline] ++ text_of "c") Monitor.init = (Done, m')
       /\ well_formed m'
       /\ (cursor_x m', cursor_y m') = (1%Z, 1%Z).
Proof.
  destruct monitor_stays_well_formed as (Hinit & _ & _ & Hwrite).
  split; [exact Hinit |].
  destruct (Hwrite (text_of "ab" ++ [newline] ++ text_of "c") Monitor.init Hinit)
    as (m' & E & Hw & _).
  exists m'. split; [exact E |]. split; [exact Hw |].
  vm_compute in E. injection E as <-. reflexivity.
Defined.

(** X19. A line feed moves the cursor to the start of the next line; on the
    last line the screen scrolls instead: the top row is lost, the others
    move up and the bottom row is blank, with the cursor at its start.  A
    character written when the cursor is past the last column is written as
    if a line feed came before it. *)
Theorem line_feed_scrolls_on_last_line (m : Monitor.t) :
  well_formed m ->
  ((cursor_y m < rows - 1)%Z ->
     write [newline] m = (Done, set_cursor 0 (cursor_y m + 1) m))
  /\ (cursor_y m = (rows - 1)%Z ->
      write [newline] m
      = (Done, set_cursor 0 (rows - 1) (set_buffer (tl (buffer m) ++ [blank_row]) m)))
  /\ (forall c, c <> newline -> cursor_x m = cols ->
        write [c] m = write [newline; c] m).
Proof.
  intros (Hgrid & Hnl & Hy & Hx).
  assert (Hnext := next_line_grid m (proj1 Hgrid)).
  split; [| split].
  - intros Hlt. cbn [write]. unfold write_char. cbn [N.eqb newline Pos.eqb].
    rewrite Hnext.
    replace (cursor_y m + 1 <? rows)%Z with true
      by (symmetry; apply Z.ltb_lt; lia). reflexivity.
  - intros Hlast. cbn [write]. unfold write_char. cbn [N.eqb newline Pos.eqb].
    rewrite Hnext.
    replace (cursor_y m + 1 <? rows)%Z with false
      by (symmetry; apply Z.ltb_ge; lia). reflexivity.
  - intros c Hc Hcol. cbn [write]. unfold write_char.
    cbn [N.eqb newline Pos.eqb]. fold newline.
    apply N.eqb_neq in Hc. rewrite Hc.
    rewrite Hcol, Z.leb_refl, Hnext.
    set (m1 := if (cursor_y m + 1 <? rows)%Z then _ else _).
    assert (Hx1 : cursor_x m1 = 0%Z) by (subst m1; destruct (_ <? _)%Z; reflexivity).
    rewrite Hx1. reflexivity.
Qed.

(** X19 on a monitor whose cursor stands past the end of the last line. *)
Lemma line_feed_scrolls_on_last_line_witness :
  write [newline] (set_cursor 80 39 (snd (write (text_of "top") Monitor.init)))
  = (Done, set_cursor 0 39 Monitor.init)
  /\ write (text_of "x") (set_cursor 80 39 Monitor.init)
     = write (newline :: text_of "x") (set_cursor 80 39 Monitor.init).
Proof.
  assert (Hw : well_formed (set_cursor 80 39 (snd (write (text_of "top") Monitor.init)))).
  { split; [split; [reflexivity | vm_compute; repeat constructor] |].
    split; [| vm_compute; intuition discriminate].
    vm_compute. repeat constructor; discriminate. }
  assert (Hw' : well_formed (set_cursor 80 39 Monitor.init)).
  { split; [apply blank_buffer_grid | split; [apply blank_buffer_no_newline |]].
    vm_compute. intuition discriminate. }
  split.
  - rewrite (proj1 (proj2 (line_feed_scrolls_on_last_line _ Hw)) eq_refl).
    reflexivity.
  - apply (proj2 (proj2 (line_feed_scrolls_on_last_line _ Hw'))); [discriminate | reflexivity].
Defined.

(** X20. A text without line feed that fits between the cursor and the end
    of its line is stored in the cells from the cursor on: the row of the
    cursor keeps its cells before the cursor and after the text, every other
    row is as before, the cursor advances by the length of the text on the
    same line, and nothing scrolls. *)
Theorem write_stores_text_at_cursor (s : text) (m : Monitor.t) :
  well_formed m ->
  Forall (fun c => c <> newline) s ->
  (cursor_x m + Z.of_nat (List.length s) <= cols)%Z ->
  write s m
  = (Done,
     set_cursor (cursor_x m + Z.of_nat (List.length s)) (cursor_y m)
       (set_buffer
          (update (Z.to_nat (cursor_y m))
             (firstn (Z.to_nat (cursor_x m)) (nth (Z.to_nat (cursor_y m)) (buffer m) [])
              ++ s
              ++ skipn (Z.to_nat (cursor_x m) + List.length s)
                   (nth (Z.to_nat (cursor_y m)) (buffer m) []))
             (buffer m)) m)).
Proof.
  intros (Hgrid & _ & Hy & Hx) Hs Hfit.
  apply write_on_line; try assumption. lia.
Qed.

(** X20 on the text [nm] written at column 78 of the first line. *)
Lemma write_stores_text_at_cursor_witness :
  exists m',
    write (text_of "nm") (set_cursor 78 0 Monitor.init) = (Done, m')
    /\ (cursor_x m', cursor_y m') = (80%Z, 0%Z)
    /\ nth 0 (buffer m') [] = repeat space 78 ++ text_of "nm"
    /\ tl (buffer m') = tl blank_buffer.
Proof.
  eexists. split.
  - apply (write_stores_text_at_cursor (text_of "nm") (set_cursor 78 0 Monitor.init)).
    + split; [apply blank_buffer_grid | split; [apply blank_buffer_no_newline |]].
      vm_compute. intuition discriminate.
    + repeat constructor; discriminate.
    + vm_compute. discriminate.
  - split; [reflexivity |]. split; reflexivity.
Defined.

(** X21. A saved screen comes back exactly.  When the buffer of a monitor
    has the size of the screen and holds no line feed, [restore_state] of
    the page [save_state] made of it gives any monitor the saved buffer,
    cursor and colours, without [IndexError]: the monitor restored is the
    one saved.  A page that never saved restores the monitor of
    [__init__]. *)
Theorem restore_state_after_save_state (m other : Monitor.t) (p : PreservedPage.page) :
  (grid (buffer m) -> no_newline (buffer m) ->
   PreservedPage.restore_state (PreservedPage.save_state m p) other = (Done, m))
  /\ PreservedPage.restore_state PreservedPage.init other = (Done, Monitor.init).
Proof.
  split; [| reflexivity].
  intros Hgrid Hnl. unfold PreservedPage.restore_state, PreservedPage.save_state.
  cbn [PreservedPage.content PreservedPage.cursor_position
       PreservedPage.display_attributes fst snd get_display].
  destruct (restore_lines_grid (buffer m) [] blank_buffer (clear other))
    as (m1 & E & Hbuf & _).
  - reflexivity.
  - apply blank_buffer_grid.
  - transitivity (Z.to_nat rows); [apply repeat_length | symmetry; apply Hgrid].
  - apply Hgrid.
  - exact Hnl.
  - cbn [List.length Z.of_nat] in E. unfold get_display. rewrite E. f_equal.
    destruct m as [b x y fg bg]. destruct m1 as [b1 x1 y1 fg1 bg1].
    cbn [buffer app] in Hbuf. subst b1. reflexivity.
Qed.

(** X21 on a monitor with two lines of text, restored over a blank one. *)
Lemma restore_state_after_save_state_witness :
  PreservedPage.restore_state
    (PreservedPage.save_state
       (snd (write (text_of "ab" ++ [newline] ++ text_of "c") Monitor.init))
       PreservedPage.init)
    Monitor.init
  = (Done, snd (write (text_of "ab" ++ [newline] ++ text_of "c") Monitor.init)).
Proof.
  apply (proj1 (restore_state_after_save_state
                  (snd (write (text_of "ab" ++ [newline] ++ text_of "c") Monitor.init))
                  Monitor.init PreservedPage.init)).
  - split; [reflexivity | vm_compute; repeat constructor].
  - vm_compute. repeat constructor; discriminate.
Defined.

(** *** The commands *)


(** Writing a text in two parts. *)
Lemma write_app (s1 s2 : text) :
  forall m,
    write (s1 ++ s2) m
    = match write s1 m with
      | (Done, m1) => write s2 m1
      | failed => failed
      end.
Proof.
  induction s1 as [| c s1 IH]; intros m; cbn [app write]; [reflexivity |].
  destruct (write_char c m) as [[| msg] m1]; [apply IH | reflexivity].
Qed.

(** A message on a well-formed monitor. *)
Lemma say_well_formed (s : string) (c : Console) :
  well_formed (monitor c) ->
  exists m',
    write (text_of s) (monitor c) = (Done, m')
    /\ say s c = (Done, {| monitor := m'; spectral_engine := spectral_engine c |})
    /\ well_formed m'.
Proof.
  intros Hw. destruct (write_well_formed (text_of s) (monitor c) Hw)
    as (m' & E & Hw' & _).
  exists m'. split; [exact E |]. split; [| exact Hw'].
  unfold say. rewrite E. reflexivity.
Qed.

(** X22. The [calibrate] command never calibrates.  On a well-formed
    monitor it ends normally having written its opening line and then
    [Calibration error: Lamp is off. Cannot measure.]: the engine's
    [calibrate_reference] has raised.  The engine is left with the lamp off,
    and [is_calibrated], [sample_present] and the reference spectrum as they
    were. *)
Theorem cmd_calibrate_reports_lamp_off (env : Env) (lib : Lib) (c : Console) :
  well_formed (monitor c) ->
  exists c',
    cmd_calibrate env lib c = (Done, c')
    /\ write
         (text_of ("Starting calibration procedure..." ++ nl
                   ++ "Calibration error: Lamp is off. Cannot measure." ++ nl))
         (monitor c)
       = (Done, monitor c')
    /\ well_formed (monitor c')
    /\ is_lamp_on (engine (spectral_engine c')) = false
    /\ (is_calibrated (engine (spectral_engine c')),
        sample_present (engine (spectral_engine c')),
        reference_spectrum (engine (spectral_engine c')))
       = (is_calibrated (engine (spectral_engine c)),
          sample_present (engine (spectral_engine c)),
          reference_spectrum (engine (spectral_engine c))).
Proof.
  intros Hw. unfold cmd_calibrate.
  destruct (say_well_formed ("Starting calibration procedure..." ++ nl) c Hw)
    as (m1 & E1 & S1 & Hw1).
  rewrite S1. cbn [spectral_engine CommandInterface.monitor].
  rewrite calibrate_reference_trace. cbn [str].
  set (st' := {| engine := _; world := _ |}).
  destruct (say_well_formed
              ("Calibration error: " ++ "Lamp is off. Cannot measure." ++ nl)
              {| monitor := m1; spectral_engine := st' |} Hw1)
    as (m2 & E2 & S2 & Hw2).
  rewrite S2. eexists. split; [reflexivity |].
  cbn [spectral_engine CommandInterface.monitor] in *.
  split; [| split; [exact Hw2 |]].
  - change (text_of ("Starting calibration procedure..." ++ nl
                     ++ "Calibration error: Lamp is off. Cannot measure." ++ nl))
      with (text_of ("Starting calibration procedure..." ++ nl)
            ++ text_of ("Calibration error: " ++ "Lamp is off. Cannot measure." ++ nl)).
    rewrite write_app, E1. exact E2.
  - subst st'. cbn [engine].
    match goal with
    | |- context [after_sleep env ?s] =>
        destruct (after_sleep_cases env s) as [H | H]; rewrite H
    end; cbn [engine]; split; reflexivity.
Qed.

(** X22 on a new monitor and a new engine. *)
Lemma cmd_calibrate_reports_lamp_off_witness :
  exists c',
    cmd_calibrate quiet_env demo_lib
      {| monitor := Monitor.init; spectral_engine := fresh_state |} = (Done, c')
    /\ firstn 47 (nth 1 (buffer (monitor c')) [])
       = text_of "Calibration error: Lamp is off. Cannot measure."
    /\ (cursor_x (monitor c'), cursor_y (monitor c')) = (0%Z, 2%Z)
    /\ is_calibrated (engine (spectral_engine c')) = false.
Proof.
  destruct (cmd_calibrate_reports_lamp_off quiet_env demo_lib
              {| monitor := Monitor.init; spectral_engine := fresh_state |})
    as (c' & E & Hwrite & _ & _ & Hflags).
  - split; [apply blank_buffer_grid | split; [apply blank_buffer_no_newline |]].
    vm_compute. intuition discriminate.
  - exists c'. split; [exact E |].
    cbn [CommandInterface.monitor] in Hwrite.
    apply (f_equal snd) in Hwrite. cbn [snd] in Hwrite. rewrite <- Hwrite.
    split; [vm_compute; reflexivity |]. split; [vm_compute; reflexivity |].
    injection Hflags as Hcal _ _. exact Hcal.
Defined.



